(** * SWIFT Alliance message converter: presentation layers and codec

    A shallow embedding of the two presentation layers of the repository
    ([swift_alliance_gui.py], the PyQt5 window, and
    [swift_alliance_streamlit.py], the Streamlit script) together with the
    codec-and-validator core they import ([swift_messages],
    [swift_iso_validator], [config_manager]).

    Conventions
    - A Python [str] is a [string]; the text a user enters is over code
      points below 256, and a message of the program that holds a
      character beyond them holds its UTF-8 bytes.
    - A raised exception is the [Raise] constructor of [Result].
    - Dialog answers, uploaded files, the file system and network outcomes
      are explicit inputs of the handler that asks for them; everything a
      handler shows or writes is appended to its list of effects.
    - [st.session_state] and the configuration dictionaries are [gmap]s
      keyed by [string]. *)

From Stdlib Require Import ZArith NArith Ascii String List Bool Lia.
From Stdlib Require Import DecimalString DecimalN.
From stdpp Require Import base option list gmap strings sorting.

Local Open Scope Z_scope.
Local Open Scope string_scope.
Local Open Scope list_scope.
Local Open Scope stdpp_scope.

(** ** Python strings *)

Module Py.

(** [str.isspace] on one character, for code points below 256. *)
Definition isspace (c : ascii) : bool :=
  let n := N_of_ascii c in
  ((9 <=? n) && (n <=? 13) || (28 <=? n) && (n <=? 32)
   || (n =? 133) || (n =? 160))%N.

Definition isdigit (c : ascii) : bool :=
  let n := N_of_ascii c in ((48 <=? n) && (n <=? 57))%N.

Definition isupper (c : ascii) : bool :=
  let n := N_of_ascii c in ((65 <=? n) && (n <=? 90))%N.

Definition islower (c : ascii) : bool :=
  let n := N_of_ascii c in ((97 <=? n) && (n <=? 122))%N.

Definition isalpha (c : ascii) : bool := isupper c || islower c.

Definition upper_char (c : ascii) : ascii :=
  if islower c then ascii_of_N (N_of_ascii c - 32) else c.

Fixpoint upper (s : string) : string :=
  match s with
  | EmptyString => EmptyString
  | String c s' => String (upper_char c) (upper s')
  end.

Definition lower_char (c : ascii) : ascii :=
  if isupper c then ascii_of_N (N_of_ascii c + 32) else c.

(** [s.lower()] *)
Fixpoint lower (s : string) : string :=
  match s with
  | EmptyString => EmptyString
  | String c s' => String (lower_char c) (lower s')
  end.

Fixpoint all (p : ascii -> bool) (s : string) : bool :=
  match s with
  | EmptyString => true
  | String c s' => p c && all p s'
  end.

Fixpoint lstrip (s : string) : string :=
  match s with
  | EmptyString => EmptyString
  | String c s' => if isspace c then lstrip s' else s
  end.

Fixpoint rstrip (s : string) : string :=
  match s with
  | EmptyString => EmptyString
  | String c s' =>
      match rstrip s' with
      | EmptyString => if isspace c then EmptyString else String c EmptyString
      | r => String c r
      end
  end.

(** [s.strip()] *)
Definition strip (s : string) : string := rstrip (lstrip s).

(** Truth value of a [str]: only the empty string is false. *)
Definition truthy (s : string) : bool :=
  match s with EmptyString => false | _ => true end.

(** [s or d] for two strings. *)
Definition or_str (s d : string) : string := if truthy s then s else d.

(** [s or None] *)
Definition or_None (s : string) : option string :=
  if truthy s then Some s else None.

(** Truth value of an optional string ([None] and [""] are false). *)
Definition truthy_opt (o : option string) : bool :=
  match o with Some s => truthy s | None => false end.

(** No character of [s] is [c]. *)
Definition free_of (c : ascii) (s : string) : bool :=
  all (fun x => negb (Ascii.eqb x c)) s.

(** [s.startswith(p)] *)
Definition startswith (s p : string) : bool := String.prefix p s.

(** Is [p] a substring of [s] ([p in s])? *)
Fixpoint contains (s p : string) : bool :=
  String.prefix p s ||
  match s with
  | EmptyString => false
  | String _ s' => contains s' p
  end.

(** The pieces of [s] between the characters that satisfy [is_sep]; there
    is always at least one piece. *)
Fixpoint split_by (is_sep : ascii -> bool) (s : string) : list string :=
  match s with
  | EmptyString => [EmptyString]
  | String c s' =>
      if is_sep c then EmptyString :: split_by is_sep s'
      else match split_by is_sep s' with
           | w :: ws => String c w :: ws
           | [] => [String c EmptyString]
           end
  end.

(** [s.split(sep)] for a one-character separator. *)
Definition split (sep : ascii) (s : string) : list string :=
  split_by (Ascii.eqb sep) s.

(** [s.split()]: the words between runs of whitespace. *)
Definition words (s : string) : list string :=
  filter (fun w => truthy w = true) (split_by isspace s).

(** [sep.join(parts)] *)
Definition join (sep : string) (parts : list string) : string :=
  String.concat sep parts.

Definition LF : ascii := ascii_of_N 10.
Definition QUOTE : ascii := ascii_of_N 34.
Definition nl : string := String LF EmptyString.

(** [str.isprintable] on one character, for code points below 256. *)
Definition isprintable (c : ascii) : bool :=
  let n := N_of_ascii c in
  ((32 <=? n) && (n <? 127) || (161 <=? n) && negb (n =? 173))%N.

Definition hexdigit (n : N) : ascii :=
  if (n <? 10)%N then ascii_of_N (48 + n) else ascii_of_N (87 + n).

(** One character of [repr(s)] between the quotes [quote]. *)
Definition repr_char (quote c : ascii) : string :=
  let n := N_of_ascii c in
  if Ascii.eqb c quote || Ascii.eqb c "\" then String "\" (String c EmptyString)
  else if (n =? 9)%N then "\t"
  else if (n =? 10)%N then "\n"
  else if (n =? 13)%N then "\r"
  else if isprintable c then String c EmptyString
  else String "\" (String "x" (String (hexdigit (n / 16))
         (String (hexdigit (n mod 16)) EmptyString))).

Fixpoint repr_body (quote : ascii) (s : string) : string :=
  match s with
  | EmptyString => EmptyString
  | String c s' => String.append (repr_char quote c) (repr_body quote s')
  end.

(** [repr(s)]: single quotes, unless the text holds one and no double
    quote. *)
Definition repr (s : string) : string :=
  let quote :=
    if negb (free_of "'" s) && free_of QUOTE s then QUOTE else "'"%char in
  String quote (String.append (repr_body quote s) (String quote EmptyString)).

(** Exceptions that cross the boundaries modelled here. *)
Inductive Exn : Type :=
| ValueError (msg : string)
| InvalidOperation (msg : string)
| InputError (msg : string)
| SchemaNotFoundError (msg : string)
| OSError (msg : string)
| Exception (msg : string)
| StopException.

(** [str(e)] *)
Definition str_exn (e : Exn) : string :=
  match e with
  | ValueError m | InvalidOperation m | InputError m
  | SchemaNotFoundError m | OSError m | Exception m => m
  | StopException => EmptyString
  end.

Inductive Result (A : Type) : Type :=
| Return (a : A)
| Raise (e : Exn).
Arguments Return {A} a.
Arguments Raise {A} e.

Definition bind {A B} (r : Result A) (k : A -> Result B) : Result B :=
  match r with
  | Return a => k a
  | Raise e => Raise e
  end.

End Py.


(** ** Numbers as text *)

Module Num.

(** [str(n)] for a natural number. *)
Definition str_of_N (n : N) : string :=
  NilZero.string_of_uint (N.to_uint n).

Definition str_of_nat (n : nat) : string := str_of_N (N.of_nat n).

Definition digit_val (c : ascii) : N := N_of_ascii c - 48.

(** Value of a string of decimal digits, most significant first. *)
Fixpoint N_of_digits_go (acc : N) (s : string) : N :=
  match s with
  | EmptyString => acc
  | String c s' => N_of_digits_go (10 * acc + digit_val c) s'
  end.
Definition N_of_digits (s : string) : N := N_of_digits_go 0 s.

(** The longest prefix of characters satisfying [p], and the rest. *)
Fixpoint span (p : ascii -> bool) (s : string) : string * string :=
  match s with
  | EmptyString => (EmptyString, EmptyString)
  | String c s' =>
      if p c then let '(a, b) := span p s' in (String c a, b)
      else (EmptyString, s)
  end.

(** An optional leading sign; [true] stands for minus. *)
Definition take_sign (s : string) : bool * string :=
  match s with
  | String "-" s' => (true, s')
  | String "+" s' => (false, s')
  | _ => (false, s)
  end.

(** Digits with single underscores between them, as [int] accepts them;
    the result has the underscores removed. *)
Fixpoint int_digits (prev_digit : bool) (s : string) : option string :=
  match s with
  | EmptyString => if prev_digit then Some EmptyString else None
  | String c s' =>
      if Py.isdigit c then String c <$> int_digits true s'
      else if Ascii.eqb c "_" then
        if prev_digit then int_digits false s' else None
      else None
  end.

(** The white space [int] skips around a number: the six characters of
    C's [isspace], and the two other white-space characters below 256,
    which the conversion turns into blanks first. The separators U+001C
    to U+001F, which [str.strip] removes, are not among them. *)
Definition int_space (c : ascii) : bool :=
  let n := N_of_ascii c in
  ((9 <=? n) && (n <=? 13) || (n =? 32) || (n =? 133) || (n =? 160))%N.

Fixpoint int_lstrip (s : string) : string :=
  match s with
  | EmptyString => EmptyString
  | String c s' => if int_space c then int_lstrip s' else s
  end.

Fixpoint int_rstrip (s : string) : string :=
  match s with
  | EmptyString => EmptyString
  | String c s' =>
      match int_rstrip s' with
      | EmptyString => if int_space c then EmptyString else String c EmptyString
      | r => String c r
      end
  end.

(** The sign and the digits of an integer literal in base 10, the
    underscores removed; [None] when the text is no such literal. *)
Definition int_literal (s : string) : option (bool * string) :=
  let '(neg, body) := take_sign (int_lstrip s) in
  ds ← int_digits false (int_rstrip body);
  Some (neg, ds).

(** The most digits [int] converts ([sys.get_int_max_str_digits()]). *)
Definition max_str_digits : nat := 4300.

(** [int(s)]; [None] stands for the [ValueError], raised for a text
    that is no literal and for a literal of too many digits. *)
Definition int_of_str (s : string) : option Z :=
  '(neg, ds) ← int_literal s;
  if (max_str_digits <? String.length ds)%nat then None
  else let n := Z.of_N (N_of_digits ds) in
       Some (if neg : bool then - n else n).

End Num.

(** ** The [decimal] module of the Python library *)

Module decimal.

(** A [Decimal] value: sign, integer coefficient and exponent for a finite
    number, or one of the special values. *)
Inductive Decimal : Type :=
| Finite (sign : bool) (coefficient : N) (exponent : Z)
| Infinity (sign : bool)
| NaN (sign : bool) (signaling : bool) (payload : N).

Fixpoint remove_underscores (s : string) : string :=
  match s with
  | EmptyString => EmptyString
  | String c s' =>
      if Ascii.eqb c "_" then remove_underscores s'
      else String c (remove_underscores s')
  end.

(** The exponent part, after the digits: empty, or [E], an optional sign
    and at least one digit up to the end of the text. *)
Definition parse_exponent (s : string) : option Z :=
  match s with
  | EmptyString => Some 0
  | String c s' =>
      if Ascii.eqb (Py.lower_char c) "e" then
        let '(neg, r) := Num.take_sign s' in
        let '(ds, rest) := Num.span Py.isdigit r in
        match ds, rest with
        | String _ _, EmptyString =>
            let e := Z.of_N (Num.N_of_digits ds) in
            Some (if neg then - e else e)
        | _, _ => None
        end
      else None
  end.

(** The number of decimal digits of a coefficient. *)
Definition digits (c : N) : Z := Z.of_nat (String.length (Num.str_of_N c)).

(** The largest exponent and the smallest exponent of a subnormal number
    in the widest context of the C implementation (64-bit build). *)
Definition MAX_EMAX : Z := 999999999999999999.
Definition MIN_ETINY : Z := -1999999999999999997.

(** The constructor converts exactly: a number the widest context would
    have to round, clamp or overflow is refused. *)
Definition exact (c : N) (e : Z) : bool :=
  ((MIN_ETINY <=? e) && (e + digits c - 1 <=? MAX_EMAX))%Z.

(** A number with at least one digit: integer part, optional fraction,
    optional exponent. *)
Definition parse_number (sign : bool) (s : string) : option Decimal :=
  let '(ip, r1) := Num.span Py.isdigit s in
  let '(fp, r2) :=
    match r1 with
    | String "." r => Num.span Py.isdigit r
    | _ => (EmptyString, r1)
    end in
  match String.append ip fp with
  | EmptyString => None
  | ds =>
      e ← parse_exponent r2;
      let c := Num.N_of_digits ds in
      let e' := e - Z.of_nat (String.length fp) in
      if exact c e' then Some (Finite sign c e') else None
  end.

(** [NaN] or [sNaN] followed by diagnostic digits. *)
Definition parse_nan (sign : bool) (s : string) : option Decimal :=
  let l := Py.lower s in
  let payload (d : string) :=
    if Py.all Py.isdigit d then Some (Num.N_of_digits d) else None in
  if String.prefix "snan" l then
    NaN sign true <$> payload (String.substring 4 (String.length l) l)
  else if String.prefix "nan" l then
    NaN sign false <$> payload (String.substring 3 (String.length l) l)
  else None.

(** [Decimal(text)]: surrounding whitespace and underscores are dropped,
    then the text must be a numeric string. [None] stands for the
    [InvalidOperation] the constructor raises. *)
Definition of_string (text : string) : option Decimal :=
  let '(sign, body) := Num.take_sign (remove_underscores (Py.strip text)) in
  let l := Py.lower body in
  if String.eqb l "inf" || String.eqb l "infinity" then Some (Infinity sign)
  else match parse_number sign body with
       | Some d => Some d
       | None => parse_nan sign body
       end.

(** The coefficient of [c * 10 ^ e] at exponent [-2], rounded half to
    even when digits are dropped. *)
Definition rescale2 (c : N) (e : Z) : N :=
  if (-2 <=? e)%Z then (c * 10 ^ Z.to_N (e + 2))%N
  else
    let k := Z.to_N (- e - 2) in
    let q := (c / 10 ^ k)%N in
    let r := (c mod 10 ^ k)%N in
    if (2 * r <? 10 ^ k)%N then q
    else if (10 ^ k <? 2 * r)%N then (q + 1)%N
    else if N.even q then q else (q + 1)%N.

(** Precision and largest exponent of the default context. *)
Definition prec : Z := 28.
Definition Emax : Z := 999999.

(** [d.quantize(Decimal('0.01'))] in the default context: the value at
    exponent [-2], rounded half to even. [InvalidOperation] is raised for
    an infinity, for a signaling NaN and for a result of more than
    [prec] digits; a quiet NaN is returned as it is. *)
Definition quantize2 (d : Decimal) : Py.Result Decimal :=
  match d with
  | NaN _ true _ => Py.Raise (Py.InvalidOperation "[<class 'decimal.InvalidOperation'>]")
  | NaN _ false _ => Py.Return d
  | Infinity _ => Py.Raise (Py.InvalidOperation "[<class 'decimal.InvalidOperation'>]")
  | Finite sign c e =>
      if (c =? 0)%N then Py.Return (Finite sign 0 (-2))
      else if ((Emax <? e + digits c - 1) || (prec <? digits c + e + 2)
               || (prec <? digits (rescale2 c e)))%Z
      then Py.Raise (Py.InvalidOperation "[<class 'decimal.InvalidOperation'>]")
      else Py.Return (Finite sign (rescale2 c e) (-2))
  end.

Fixpoint zeros (n : nat) : string :=
  match n with
  | O => EmptyString
  | S n' => String "0" (zeros n')
  end.

(** [str(d)]: the scientific string of the number. *)
Definition to_str (d : Decimal) : string :=
  match d with
  | Infinity sign => (if sign then "-" else "") +:+ "Infinity"
  | NaN sign signaling payload =>
      (if sign then "-" else "") +:+ (if signaling then "sNaN" else "NaN")
      +:+ (if (payload =? 0)%N then "" else Num.str_of_N payload)
  | Finite sign c e =>
      let ds := Num.str_of_N c in
      let n := Z.of_nat (String.length ds) in
      let leftdigits := e + n in
      let dotplace :=
        if ((e <=? 0) && (-6 <? leftdigits))%Z then leftdigits else 1 in
      let number :=
        if (dotplace <=? 0)%Z then
          "0." +:+ zeros (Z.to_nat (- dotplace)) +:+ ds
        else if (n <=? dotplace)%Z then
          ds +:+ zeros (Z.to_nat (dotplace - n))
        else
          String.substring 0 (Z.to_nat dotplace) ds +:+ "."
          +:+ String.substring (Z.to_nat dotplace) (Z.to_nat (n - dotplace)) ds in
      let exponent :=
        if (leftdigits =? dotplace)%Z then ""
        else let x := leftdigits - dotplace in
             "E" +:+ (if (x <? 0)%Z then "-" else "+")
             +:+ Num.str_of_N (Z.abs_N x) in
      (if sign then "-" else "") +:+ number +:+ exponent
  end.

(** [format(d, '.2f')]: a finite number with exactly two fractional
    digits, rounded half to even; a special value as [str] writes it. *)
Definition format_2f (d : Decimal) : string :=
  match d with
  | Finite sign c e => to_str (Finite sign (rescale2 c e) (-2))
  | _ => to_str d
  end.

End decimal.

(** ** Handlers: state, effects and exceptions *)

Module Eff.
Section Handler.
Context {S E : Type}.

(** A computation over a mutable object of type [S] that emits effects
    of type [E] and may raise. What was mutated and emitted before an
    exception stays. *)
Definition Handler (A : Type) : Type := S -> Py.Result A * S * list E.

Definition ret {A} (a : A) : Handler A := fun s => (Py.Return a, s, []).

Definition bind {A B} (m : Handler A) (k : A -> Handler B) : Handler B :=
  fun s =>
    match m s with
    | (Py.Return a, s1, es1) =>
        let '(r, s2, es2) := k a s1 in (r, s2, es1 ++ es2)
    | (Py.Raise e, s1, es1) => (Py.Raise e, s1, es1)
    end.

Definition get : Handler S := fun s => (Py.Return s, s, []).
Definition modify (f : S -> S) : Handler unit :=
  fun s => (Py.Return tt, f s, []).
Definition emit (e : E) : Handler unit := fun s => (Py.Return tt, s, [e]).
Definition raise {A} (e : Py.Exn) : Handler A :=
  fun s => (Py.Raise e, s, []).
Definition lift {A} (r : Py.Result A) : Handler A := fun s => (r, s, []).

(** [try: m  except Exception as e: h e]; [StopException] is not an
    [Exception] and passes through. *)
Definition try_except {A} (m : Handler A) (h : Py.Exn -> Handler A)
  : Handler A :=
  fun s =>
    match m s with
    | (Py.Raise Py.StopException, s1, es1) =>
        (Py.Raise Py.StopException, s1, es1)
    | (Py.Raise e, s1, es1) =>
        let '(r, s2, es2) := h e s1 in (r, s2, es1 ++ es2)
    | ok => ok
    end.

(** [try: m  except SchemaNotFoundError as e: h e] *)
Definition try_except_schema {A} (m : Handler A)
    (h : Py.Exn -> Handler A) : Handler A :=
  fun s =>
    match m s with
    | (Py.Raise (Py.SchemaNotFoundError msg), s1, es1) =>
        let '(r, s2, es2) := h (Py.SchemaNotFoundError msg) s1 in
        (r, s2, es1 ++ es2)
    | other => other
    end.

Definition when (b : bool) (m : Handler unit) : Handler unit :=
  if b then m else ret tt.

(** [m] relates the state it starts in to the state it ends in by [R],
    whatever its outcome. *)
Definition preserves {A} (R : S -> S -> Prop) (m : Handler A) : Prop :=
  forall s, R s (snd (fst (m s))).

(** Every effect of [m] satisfies [P]. *)
Definition emits {A} (P : E -> Prop) (m : Handler A) : Prop :=
  forall s, Forall P (snd (m s)).

(** [m] never raises. *)
Definition returns {A} (m : Handler A) : Prop :=
  forall s, exists a, fst (fst (m s)) = Py.Return a.

(** The relation between two states with the same value of [f]. *)
Definition keeps {T} (f : S -> T) : S -> S -> Prop :=
  fun s s' => f s' = f s.

Definition state_of {A} (x : Py.Result A * S * list E) : S := snd (fst x).
Definition effects_of {A} (x : Py.Result A * S * list E) : list E := snd x.
Definition result_of {A} (x : Py.Result A * S * list E) : Py.Result A :=
  fst (fst x).
End Handler.
Arguments Handler : clear implicits.
End Eff.

Notation "x <~ m ;> k" := (Eff.bind m (fun x => k))
  (at level 200, m at level 100, k at level 200, right associativity,
   only parsing).
Notation "m ;> k" := (Eff.bind m (fun _ => k))
  (at level 200, k at level 200, right associativity, only parsing).

(** ** What the presentation layers import *)

(** Keyword arguments of [payment_from_transaction] as both callers pass
    them. *)
Record PaymentArgs : Type := {
  account_number : string;
  account_name : string;
  arg_beneficiary_account : string;
  arg_beneficiary_name : string;
  arg_amount : decimal.Decimal;
  arg_currency : string;
  arg_value_date : option string;
  arg_remittance_info : option string;
  arg_beneficiary_bic : option string;
  arg_reference : option string
}.

(** One account of the ledger with what the front ends show of it: the
    value of the type, the balance (a [Decimal]), the value of the
    currency, the customer id and, when the ledger knows the customer,
    first and last name. *)
Record Account : Type := {
  acc_number : string;
  acc_type : string;
  acc_balance : decimal.Decimal;
  acc_currency : string;
  acc_customer_id : string;
  acc_customer : option (string * string)
}.

(** The functions imported from [swift_messages], [swift_iso_validator] and
    [swift_alliance_bank], whether [paramiko] could be imported, and the
    directory the module computes for its assets. Both front ends are
    written against this interface only. *)
Class Backend : Type := {
  Payment : Type;
  payment_from_transaction : PaymentArgs -> Py.Result Payment;
  generate_mt103 : Payment -> Py.Result string;
  generate_pain001 : Payment -> Py.Result string;
  validate_mt103_text : string -> Py.Result (bool * list string);
  validate_pain001_generated :
    string -> string -> Py.Result (bool * option (list string));
  bank_accounts : Py.Result (list Account);
  HAS_PARAMIKO : bool;
  ASSETS_DIR : string
}.

(** [errors or []] *)
Definition or_nil (errors : option (list string)) : list string :=
  match errors with Some l => l | None => [] end.

(** The dictionary [{"valid": ..., "errors": ...}] both front ends store. *)
Record ValidationResult : Type := {
  valid : bool;
  errors : list string
}.

Global Instance ValidationResult_eq_dec : EqDecision ValidationResult.
Proof. solve_decision. Defined.

(** ** The PyQt5 window ([swift_alliance_gui.py]) *)

Module Gui.

Inductive Icon : Type := Information | Warning | Critical | Question.

(** The button a [QMessageBox.question] returns. *)
Inductive StandardButton : Type := Yes | No.

(** What a handler shows to the user or hands to the outside world. *)
Inductive Effect : Type :=
| MessageBox (icon : Icon) (title text : string)
| FileDialog (title : string)
| InputDialog (title label : string)
| ShowMessage (text : string) (ms : Z)
| WriteFile (path mode data : string)
| Sendmail (host : string) (port : Z) (user passwd recipient msg : string)
| SftpPut (host : string) (port : Z) (user passwd remote_path data : string).

(** The effects that move the message off the system: a text file
    written or appended to, a mail sent, a file uploaded. (The only
    binary write is the copy of a logo.) *)
Definition is_transport (e : Effect) : bool :=
  match e with
  | WriteFile _ mode _ => negb (String.eqb mode "wb")
  | Sendmail _ _ _ _ _ _ | SftpPut _ _ _ _ _ _ => true
  | _ => false
  end.

(** The attributes of a [SwiftGUI] object that the handlers read or
    write: the two plain attributes and the contents of the widgets. *)
Record SwiftGUI : Type := {
  schema_path : option string;
  last_validation_result : ValidationResult;
  account_combo : list (string * option string);
  logo_label : string;
  ordering_name : string;
  ordering_account : string;
  beneficiary_name : string;
  beneficiary_account : string;
  beneficiary_bic : string;
  amount_edit : string;
  currency_edit : string;
  value_date : string;
  remittance : string;
  reference_edit : string;
  format_group : Z;
  schema_label : string;
  preview : string;
  validation_status_label : string * string;
  validation_list : string
}.

(** Answers of the user and of the environment to whatever a handler may
    ask while it runs. *)
Record Inputs : Type := {
  file_name : string;
  file_data : Py.Result string;
  question_answer : StandardButton;
  item_choice : string * bool;
  smtp_host : string * bool;
  smtp_user : string * bool;
  smtp_passwd : string * bool;
  smtp_recipient : string * bool;
  sftp_host : string * bool;
  sftp_port : string * bool;
  sftp_user : string * bool;
  sftp_passwd : string * bool;
  sftp_remote_path : string * bool;
  io_failure : option Py.Exn;
  utcnow : string;
  logo_rendering : string;
  combo_index : nat
}.

Definition set_schema (p label : string) (g : SwiftGUI) : SwiftGUI :=
  {| schema_path := Some p; schema_label := label;
     last_validation_result := last_validation_result g;
     account_combo := account_combo g; logo_label := logo_label g;
     ordering_name := ordering_name g;
     ordering_account := ordering_account g;
     beneficiary_name := beneficiary_name g;
     beneficiary_account := beneficiary_account g;
     beneficiary_bic := beneficiary_bic g; amount_edit := amount_edit g;
     currency_edit := currency_edit g; value_date := value_date g;
     remittance := remittance g; reference_edit := reference_edit g;
     format_group := format_group g; preview := preview g;
     validation_status_label := validation_status_label g;
     validation_list := validation_list g |}.

Definition set_validation (r : ValidationResult) (label : string * string)
    (text : string) (g : SwiftGUI) : SwiftGUI :=
  {| last_validation_result := r; validation_status_label := label;
     validation_list := text;
     schema_path := schema_path g; schema_label := schema_label g;
     account_combo := account_combo g; logo_label := logo_label g;
     ordering_name := ordering_name g;
     ordering_account := ordering_account g;
     beneficiary_name := beneficiary_name g;
     beneficiary_account := beneficiary_account g;
     beneficiary_bic := beneficiary_bic g; amount_edit := amount_edit g;
     currency_edit := currency_edit g; value_date := value_date g;
     remittance := remittance g; reference_edit := reference_edit g;
     format_group := format_group g; preview := preview g |}.

Definition set_preview (text : string) (g : SwiftGUI) : SwiftGUI :=
  {| preview := text;
     last_validation_result := last_validation_result g;
     validation_status_label := validation_status_label g;
     validation_list := validation_list g;
     schema_path := schema_path g; schema_label := schema_label g;
     account_combo := account_combo g; logo_label := logo_label g;
     ordering_name := ordering_name g;
     ordering_account := ordering_account g;
     beneficiary_name := beneficiary_name g;
     beneficiary_account := beneficiary_account g;
     beneficiary_bic := beneficiary_bic g; amount_edit := amount_edit g;
     currency_edit := currency_edit g; value_date := value_date g;
     remittance := remittance g; reference_edit := reference_edit g;
     format_group := format_group g |}.

Definition set_account_combo (items : list (string * option string))
    (g : SwiftGUI) : SwiftGUI :=
  {| account_combo := items;
     preview := preview g;
     last_validation_result := last_validation_result g;
     validation_status_label := validation_status_label g;
     validation_list := validation_list g;
     schema_path := schema_path g; schema_label := schema_label g;
     logo_label := logo_label g;
     ordering_name := ordering_name g;
     ordering_account := ordering_account g;
     beneficiary_name := beneficiary_name g;
     beneficiary_account := beneficiary_account g;
     beneficiary_bic := beneficiary_bic g; amount_edit := amount_edit g;
     currency_edit := currency_edit g; value_date := value_date g;
     remittance := remittance g; reference_edit := reference_edit g;
     format_group := format_group g |}.

Definition set_logo_label (l : string) (g : SwiftGUI) : SwiftGUI :=
  {| logo_label := l;
     account_combo := account_combo g;
     preview := preview g;
     last_validation_result := last_validation_result g;
     validation_status_label := validation_status_label g;
     validation_list := validation_list g;
     schema_path := schema_path g; schema_label := schema_label g;
     ordering_name := ordering_name g;
     ordering_account := ordering_account g;
     beneficiary_name := beneficiary_name g;
     beneficiary_account := beneficiary_account g;
     beneficiary_bic := beneficiary_bic g; amount_edit := amount_edit g;
     currency_edit := currency_edit g; value_date := value_date g;
     remittance := remittance g; reference_edit := reference_edit g;
     format_group := format_group g |}.

(** The three fields [on_account_changed] may fill in. *)
Definition set_ordering (name : option string) (acct cur : string)
    (g : SwiftGUI) : SwiftGUI :=
  {| ordering_name := default (ordering_name g) name;
     ordering_account := acct; currency_edit := cur;
     logo_label := logo_label g;
     account_combo := account_combo g;
     preview := preview g;
     last_validation_result := last_validation_result g;
     validation_status_label := validation_status_label g;
     validation_list := validation_list g;
     schema_path := schema_path g; schema_label := schema_label g;
     beneficiary_name := beneficiary_name g;
     beneficiary_account := beneficiary_account g;
     beneficiary_bic := beneficiary_bic g; amount_edit := amount_edit g;
     value_date := value_date g;
     remittance := remittance g; reference_edit := reference_edit g;
     format_group := format_group g |}.

(** [os.path.basename] for POSIX paths. *)
Definition basename (p : string) : string :=
  List.last (Py.split "/" p) EmptyString.

(** [os.path.join] of two POSIX paths. *)
Definition path_join (a b : string) : string :=
  if String.prefix "/" b then b
  else match String.rev a with
       | EmptyString => b
       | String "/" _ => a +:+ b
       | _ => a +:+ "/" +:+ b
       end.

(** [h, p = host.split(":")] *)
Definition unpack2 (parts : list string) : Py.Result (string * string) :=
  match parts with
  | [h; p] => Py.Return (h, p)
  | _ :: _ :: _ :: _ =>
      Py.Raise (Py.ValueError "too many values to unpack (expected 2)")
  | _ =>
      Py.Raise (Py.ValueError "not enough values to unpack (expected 2, got 1)")
  end.

(** What the [ValueError] of [int(text)] says: a literal of too many
    digits is refused with their number, any other text is shown with at
    most 200 characters of its [repr]. *)
Definition int_error (text : string) : string :=
  match Num.int_literal text with
  | Some (_, ds) =>
      "Exceeds the limit (4300 digits) for integer string conversion: value has "
      +:+ Num.str_of_nat (String.length ds)
      +:+ " digits; use sys.set_int_max_str_digits() to increase the limit"
  | None =>
      "invalid literal for int() with base 10: "
      +:+ String.substring 0 200 (Py.repr text)
  end.

(** [int(text)] *)
Definition py_int (text : string) : Py.Result Z :=
  match Num.int_of_str text with
  | Some n => Py.Return n
  | None => Py.Raise (Py.ValueError (int_error text))
  end.

Definition Handler := Eff.Handler SwiftGUI Effect.

Section Handlers.
Context `{B : Backend}.

(** [_load_accounts]: the combo box is refilled from the ledger. *)
Definition _load_accounts : Handler unit :=
  Eff.modify (set_account_combo
    match bank_accounts with
    | Py.Raise _ => [("Error loading accounts", None)]
    | Py.Return [] => [("No accounts available", None)]
    | Py.Return accounts =>
        map (fun acc =>
               (acc_number acc +:+ " — " +:+ acc_type acc +:+ " — "
                +:+ decimal.format_2f (acc_balance acc) +:+ " "
                +:+ acc_currency acc,
                Some (acc_number acc))) accounts
    end).

(** [on_account_changed]: [acc_num] is [currentData()] of the combo. *)
Definition on_account_changed (acc_num : option string) : Handler unit :=
  if negb (Py.truthy_opt acc_num) then Eff.ret tt
  else
    match bank_accounts with
    | Py.Return accounts =>
        match List.find
                (fun acc => bool_decide (Some (acc_number acc) = acc_num))
                accounts with
        | Some acc =>
            Eff.modify (set_ordering
              ((fun c => fst c +:+ " " +:+ snd c) <$> acc_customer acc)
              (acc_number acc) (acc_currency acc))
        | None => Eff.ret tt
        end
    | Py.Raise _ => Eff.ret tt
    end.

(** The keyword arguments [_collect_payment] passes on, the amount
    being already converted. *)
Definition payment_args (g : SwiftGUI) (amount : decimal.Decimal)
  : PaymentArgs :=
  {| account_number := Py.strip (ordering_account g);
     account_name := Py.strip (ordering_name g);
     arg_beneficiary_account := Py.strip (beneficiary_account g);
     arg_beneficiary_name := Py.strip (beneficiary_name g);
     arg_amount := amount;
     arg_currency := Py.or_str (Py.strip (currency_edit g)) "USD";
     arg_value_date := Py.or_None (Py.strip (value_date g));
     arg_remittance_info := Py.or_None (Py.strip (remittance g));
     arg_beneficiary_bic := Py.or_None (Py.strip (beneficiary_bic g));
     arg_reference := Py.or_None (Py.strip (reference_edit g)) |}.

Definition _collect_payment (g : SwiftGUI) : Py.Result Payment :=
  match decimal.of_string (Py.strip (amount_edit g)) with
  | None =>
      Py.Raise (Py.ValueError "Invalid amount (use numbers like 1234.56)")
  | Some amount => payment_from_transaction (payment_args g amount)
  end.

(** The numbered lines of the issue pane: [f"{i}. {e}\n"] from [i]. *)
Fixpoint numbered (i : nat) (errors : list string) : string :=
  match errors with
  | [] => EmptyString
  | e :: rest =>
      Num.str_of_nat i +:+ ". " +:+ e +:+ Py.nl +:+ numbered (S i) rest
  end.

Definition _set_validation_result (valid : bool)
    (errors : option (list string)) : Handler unit :=
  Eff.modify (set_validation
    {| valid := valid; errors := or_nil errors |}
    (if valid
     then ("Validation status: VALID", "color: green; font-weight: bold;")
     else ("Validation status: INVALID", "color: red; font-weight: bold;"))
    (if valid then "No validation issues found."
     else match or_nil errors with
          | [] => "Unknown validation failure."
          | es => numbered 1 es
          end)).

Definition on_generate : Handler unit :=
  Eff.try_except
    (g <~ Eff.get ;>
     payment <~ Eff.lift (_collect_payment g) ;>
     if Z.eqb (format_group g) 0 then
       mt <~ Eff.lift (generate_mt103 payment) ;>
       Eff.modify (set_preview mt) ;>
       r <~ Eff.lift (validate_mt103_text mt) ;>
       _set_validation_result (fst r) (Some (snd r)) ;>
       Eff.emit (ShowMessage "MT103 preview generated and validated" 5000)
     else
       xml <~ Eff.lift (generate_pain001 payment) ;>
       Eff.modify (set_preview xml) ;>
       if Py.truthy_opt (schema_path g) then
         r <~ Eff.lift (validate_pain001_generated xml
                          (default EmptyString (schema_path g))) ;>
         _set_validation_result (fst r) (Some (or_nil (snd r))) ;>
         if fst r
         then Eff.emit
                (ShowMessage "XML preview generated and validated (OK)" 5000)
         else Eff.emit
                (ShowMessage "XML preview generated (validation errors)" 8000)
       else
         _set_validation_result false
           (Some ["No pain.001 XSD selected. Please select an XSD to validate."]) ;>
         Eff.emit
           (ShowMessage "XML preview generated (no schema selected)" 5000))
    (fun e => Eff.emit (MessageBox Critical "Error" (Py.str_exn e))).

(** The first [def on_validate_clicked], lines 252 to 272. *)
Definition on_validate_clicked_manual : Handler unit :=
  g <~ Eff.get ;>
  let content := preview g in
  if negb (Py.truthy content) then
    Eff.emit (MessageBox Information "Nothing to validate"
                "Generate a message first.")
  else if Z.eqb (format_group g) 0 then
    r <~ Eff.lift (validate_mt103_text content) ;>
    _set_validation_result (fst r) (Some (snd r)) ;>
    Eff.emit (ShowMessage "MT103 validation completed" 5000)
  else if negb (Py.truthy_opt (schema_path g)) then
    Eff.emit (MessageBox Warning "Schema required"
                "Please select a pain.001 XSD to validate XML.")
  else
    Eff.try_except_schema
      (r <~ Eff.lift (validate_pain001_generated content
                        (default EmptyString (schema_path g))) ;>
       _set_validation_result (fst r) (Some (or_nil (snd r))) ;>
       Eff.emit (ShowMessage "ISO20022 validation completed" 5000))
      (fun e => Eff.emit (MessageBox Critical "Schema error" (Py.str_exn e))).

(** The second [def on_validate_clicked], lines 415 to 417: [pass]. *)
Definition on_validate_clicked_pass : Handler unit := Eff.ret tt.

(** [with open(path, mode) as f: f.write(data)]; a failure of the
    environment is raised before anything is written. *)
Definition write_file (failure : option Py.Exn) (path mode data : string)
  : Handler unit :=
  match failure with
  | Some e => Eff.raise e
  | None => Eff.emit (WriteFile path mode data)
  end.

Definition on_save (i : Inputs) : Handler unit :=
  g <~ Eff.get ;>
  let content := preview g in
  if negb (Py.truthy content) then
    Eff.emit (MessageBox Warning "Nothing to save" "Generate a message first.")
  else
    Eff.emit (FileDialog "Save Message") ;>
    let fname := file_name i in
    if Py.truthy fname then
      write_file (io_failure i) fname "w" content ;>
      Eff.emit (ShowMessage ("Saved to " +:+ fname) 5000)
    else Eff.ret tt.

(** The four method names offered by [on_send]. *)
Definition options : list string :=
  ["Save to file (local)"; "Send by email (SMTP)";
   "Upload by SFTP (optional)"; "Mock log only"].

(** One [QInputDialog.getText]: shows the prompt and continues with the
    text only when the dialog was accepted. *)
Definition ask (title label : string) (answer : string * bool)
    (k : string -> Handler unit) : Handler unit :=
  Eff.emit (InputDialog title label) ;>
  if snd answer then k (fst answer) else Eff.ret tt.

Definition _send_via_smtp (i : Inputs) (content : string) : Handler unit :=
  ask "SMTP Server" "SMTP host (hostname:port):" (smtp_host i) (fun host =>
  ask "SMTP User" "SMTP username:" (smtp_user i) (fun user =>
  ask "SMTP Password (will not be stored)" "Password:" (smtp_passwd i)
    (fun passwd =>
  ask "Recipient" "Recipient email address:" (smtp_recipient i)
    (fun recipient =>
  Eff.try_except
    (hp <~ Eff.lift (unpack2 (Py.split ":" host)) ;>
     p <~ Eff.lift (py_int (snd hp)) ;>
     match io_failure i with
     | Some e => Eff.raise e
     | None =>
         Eff.emit (Sendmail (fst hp) p user passwd recipient
                     ("Subject: SWIFT Message" +:+ Py.nl +:+ Py.nl
                      +:+ content)) ;>
         Eff.emit (MessageBox Information "Email Sent"
                     "Message sent (SMTP).")
     end)
    (fun e => Eff.emit (MessageBox Critical "SMTP Error"
                          ("Failed to send: " +:+ Py.str_exn e))))))).

Definition _send_via_sftp (i : Inputs) (content : string) : Handler unit :=
  if negb HAS_PARAMIKO then
    Eff.emit (MessageBox Warning "Paramiko missing"
                "SFTP requires 'paramiko' package. Install via pip.")
  else
  ask "SFTP Host" "SFTP host (hostname):" (sftp_host i) (fun host =>
  ask "SFTP Port" "SFTP port:" (sftp_port i) (fun port_text =>
  ask "SFTP User" "SFTP username:" (sftp_user i) (fun user =>
  ask "SFTP Password" "SFTP password (not stored):" (sftp_passwd i)
    (fun passwd =>
  ask "Remote Path" "Remote path (full filename):" (sftp_remote_path i)
    (fun remote_path =>
  Eff.try_except
    (port <~ Eff.lift (py_int port_text) ;>
     match io_failure i with
     | Some e => Eff.raise e
     | None =>
         Eff.emit (SftpPut host port user passwd remote_path content) ;>
         Eff.emit (MessageBox Information "SFTP"
                     "Uploaded successfully (SFTP).")
     end)
    (fun e => Eff.emit (MessageBox Critical "SFTP Error"
                          ("Upload failed: " +:+ Py.str_exn e)))))))).

Definition on_send (i : Inputs) : Handler unit :=
  g <~ Eff.get ;>
  let content := preview g in
  if negb (Py.truthy content) then
    Eff.emit (MessageBox Warning "Nothing to send" "Generate a message first.")
  else
    proceed <~
      (if negb (valid (last_validation_result g)) then
         Eff.emit (MessageBox Question "Validation failed"
           ("Message is not valid. Sending may be rejected by partners."
            +:+ Py.nl +:+ "Do you want to override and continue?")) ;>
         Eff.ret (match question_answer i with Yes => true | No => false end)
       else Eff.ret true) ;>
    if negb proceed then Eff.ret tt
    else
      Eff.emit (InputDialog "Send message" "Choose send method:") ;>
      if negb (snd (item_choice i)) then Eff.ret tt
      else
        let choice := fst (item_choice i) in
        Eff.try_except
          (if String.eqb choice (default "" (options !! 0%nat)) then
             Eff.emit (FileDialog "Save Message for Sending") ;>
             let fname := file_name i in
             if Py.truthy fname then
               write_file (io_failure i) fname "w" content ;>
               Eff.emit (ShowMessage ("Saved to " +:+ fname) 5000)
             else Eff.ret tt
           else if String.eqb choice (default "" (options !! 1%nat)) then
             _send_via_smtp i content
           else if String.eqb choice (default "" (options !! 2%nat)) then
             _send_via_sftp i content
           else
             let logf := "swift_send_log.txt" in
             write_file (io_failure i) logf "a"
               ("----- " +:+ utcnow i +:+ " -----" +:+ Py.nl
                +:+ content +:+ Py.nl +:+ Py.nl) ;>
             Eff.emit (MessageBox Information "Mock Send"
                         ("Logged to " +:+ logf)))
          (fun e => Eff.emit (MessageBox Critical "Send error"
                                (Py.str_exn e))).

Definition select_schema_file (i : Inputs) : Handler unit :=
  Eff.emit (FileDialog "Select pain.001 XSD") ;>
  let fname := file_name i in
  if Py.truthy fname then
    Eff.modify (set_schema fname (basename fname)) ;>
    Eff.emit (ShowMessage ("Schema set: " +:+ fname) 5000)
  else Eff.ret tt.

(** [_load_logo_preview]: what the label ends up showing depends on the
    file and on Qt; it is an answer of the environment. *)
Definition _load_logo_preview (i : Inputs) (path : string) : Handler unit :=
  Eff.modify (set_logo_label (logo_rendering i)).

Definition on_load_logo (i : Inputs) : Handler unit :=
  Eff.emit (FileDialog "Select logo file (PNG or SVG)") ;>
  let fname := file_name i in
  if negb (Py.truthy fname) then Eff.ret tt
  else
    Eff.try_except
      (let dest := path_join ASSETS_DIR (basename fname) in
       data <~ Eff.lift (file_data i) ;>
       write_file (io_failure i) dest "wb" data ;>
       _load_logo_preview i dest ;>
       Eff.emit (ShowMessage ("Logo loaded to assets/" +:+ basename fname)
                   5000))
      (fun e => Eff.emit (MessageBox Critical "Logo error" (Py.str_exn e))).
End Handlers.

(** *** The class body and its signal connections *)

(** The [def] statements of [class SwiftGUI], in source order. The name
    [on_validate_clicked] is defined twice. *)
Inductive Def : Type :=
| def_init | def_build_ui | def_load_accounts | def_on_account_changed
| def_collect_payment | def_on_generate | def_on_validate_clicked_252
| def_set_validation_result | def_on_save | def_on_send
| def_send_via_smtp | def_send_via_sftp | def_select_schema_file
| def_on_validate_clicked_415 | def_on_load_logo | def_load_logo_preview.

Definition class_body : list (string * Def) :=
  [("__init__", def_init); ("_build_ui", def_build_ui);
   ("_load_accounts", def_load_accounts);
   ("on_account_changed", def_on_account_changed);
   ("_collect_payment", def_collect_payment);
   ("on_generate", def_on_generate);
   ("on_validate_clicked", def_on_validate_clicked_252);
   ("_set_validation_result", def_set_validation_result);
   ("on_save", def_on_save); ("on_send", def_on_send);
   ("_send_via_smtp", def_send_via_smtp);
   ("_send_via_sftp", def_send_via_sftp);
   ("select_schema_file", def_select_schema_file);
   ("on_validate_clicked", def_on_validate_clicked_415);
   ("on_load_logo", def_on_load_logo);
   ("_load_logo_preview", def_load_logo_preview)].

(** Executing the class body binds each name in turn; a later binding of
    a name replaces the earlier one. *)
Definition class_namespace : gmap string Def :=
  foldl (fun ns d => <[d.1 := d.2]> ns) ∅ class_body.

(** The signals [_build_ui] connects, and the attribute each one is
    connected to. The window exists only after the whole class body has
    run, so [self.name] is looked up in the finished namespace. *)
Inductive Signal : Type :=
| refresh_btn_clicked | load_logo_btn_clicked | schema_select_btn_clicked
| btn_generate_clicked | btn_validate_clicked | btn_save_clicked
| btn_send_clicked | account_combo_currentIndexChanged.

Definition connected (s : Signal) : string :=
  match s with
  | refresh_btn_clicked => "_load_accounts"
  | load_logo_btn_clicked => "on_load_logo"
  | schema_select_btn_clicked => "select_schema_file"
  | btn_generate_clicked => "on_generate"
  | btn_validate_clicked => "on_validate_clicked"
  | btn_save_clicked => "on_save"
  | btn_send_clicked => "on_send"
  | account_combo_currentIndexChanged => "on_account_changed"
  end.

(** The widgets the user can type into. *)
Inductive LineEdit : Type :=
| ordering_name_edit | ordering_account_edit | beneficiary_name_edit
| beneficiary_account_edit | beneficiary_bic_edit | amount_edit_edit
| currency_edit_edit | value_date_edit | remittance_edit
| reference_edit_edit.

Global Instance LineEdit_eq_dec : EqDecision LineEdit.
Proof. solve_decision. Defined.

Definition set_text (w : LineEdit) (t : string) (g : SwiftGUI) : SwiftGUI :=
  let pick (w' : LineEdit) (old : string) :=
    if decide (w = w') then t else old in
  {| ordering_name := pick ordering_name_edit (ordering_name g);
     ordering_account := pick ordering_account_edit (ordering_account g);
     beneficiary_name := pick beneficiary_name_edit (beneficiary_name g);
     beneficiary_account :=
       pick beneficiary_account_edit (beneficiary_account g);
     beneficiary_bic := pick beneficiary_bic_edit (beneficiary_bic g);
     amount_edit := pick amount_edit_edit (amount_edit g);
     currency_edit := pick currency_edit_edit (currency_edit g);
     value_date := pick value_date_edit (value_date g);
     remittance := pick remittance_edit (remittance g);
     reference_edit := pick reference_edit_edit (reference_edit g);
     logo_label := logo_label g; account_combo := account_combo g;
     preview := preview g;
     last_validation_result := last_validation_result g;
     validation_status_label := validation_status_label g;
     validation_list := validation_list g;
     schema_path := schema_path g; schema_label := schema_label g;
     format_group := format_group g |}.

Definition set_format (id : Z) (g : SwiftGUI) : SwiftGUI :=
  {| format_group := id;
     ordering_name := ordering_name g;
     ordering_account := ordering_account g;
     beneficiary_name := beneficiary_name g;
     beneficiary_account := beneficiary_account g;
     beneficiary_bic := beneficiary_bic g; amount_edit := amount_edit g;
     currency_edit := currency_edit g; value_date := value_date g;
     remittance := remittance g; reference_edit := reference_edit g;
     logo_label := logo_label g; account_combo := account_combo g;
     preview := preview g;
     last_validation_result := last_validation_result g;
     validation_status_label := validation_status_label g;
     validation_list := validation_list g;
     schema_path := schema_path g; schema_label := schema_label g |}.

(** What can happen to the window: a connected signal fires, the user
    types into a field, or picks one of the two format radio buttons. *)
Inductive Event : Type :=
| Fire (s : Signal) (i : Inputs)
| Type_ (w : LineEdit) (text : string)
| Check_ (mt : bool).

(** Is the event a click on [Generate Preview]? *)
Definition is_generate (ev : Event) : bool :=
  match ev with
  | Fire btn_generate_clicked _ => true
  | _ => false
  end.

Section Window.
Context `{B : Backend}.

(** The body bound to a [def], as a slot called with no argument but
    [self]; [None] for a method that cannot be called that way. *)
Definition body (d : Def) (i : Inputs) : option (Handler unit) :=
  match d with
  | def_load_accounts => Some _load_accounts
  | def_on_account_changed =>
      Some (g <~ Eff.get ;>
            on_account_changed
              (mjoin (snd <$> account_combo g !! combo_index i)))
  | def_on_generate => Some on_generate
  | def_on_validate_clicked_252 => Some on_validate_clicked_manual
  | def_on_validate_clicked_415 => Some on_validate_clicked_pass
  | def_on_save => Some (on_save i)
  | def_on_send => Some (on_send i)
  | def_select_schema_file => Some (select_schema_file i)
  | def_on_load_logo => Some (on_load_logo i)
  | _ => None
  end.

(** The slot a signal runs. *)
Definition slot (s : Signal) (i : Inputs) : Handler unit :=
  match class_namespace !! connected s with
  | Some d =>
      match body d i with
      | Some h => h
      | None => Eff.raise (Py.Exception "TypeError")
      end
  | None => Eff.raise (Py.Exception "AttributeError")
  end.

Definition step (ev : Event) : Handler unit :=
  match ev with
  | Fire s i => slot s i
  | Type_ w text => Eff.modify (set_text w text)
  | Check_ mt => Eff.modify (set_format (if mt then 0 else 1))
  end.

(** The window as [__init__] and [_build_ui] leave it; [today] is
    [datetime.date.today().isoformat()] and [logo] what the logo label
    shows for the default logo. *)
Definition init (today logo : string) : SwiftGUI :=
  Eff.state_of (_load_accounts
    {| schema_path := None;
       last_validation_result := {| valid := false; errors := [] |};
       account_combo := []; logo_label := logo;
       ordering_name := ""; ordering_account := "";
       beneficiary_name := ""; beneficiary_account := "";
       beneficiary_bic := ""; amount_edit := "";
       currency_edit := "USD"; value_date := today;
       remittance := ""; reference_edit := "";
       format_group := 1; schema_label := "No schema selected";
       preview := "";
       validation_status_label :=
         ("Validation status: Not validated", "font-weight: bold;");
       validation_list := "" |}).

(** Running a sequence of events from a given window; the effects of
    all of them, in order. An exception that escapes a slot is dropped
    by the event loop. *)
Fixpoint run (evs : list Event) (g : SwiftGUI) : SwiftGUI * list Effect :=
  match evs with
  | [] => (g, [])
  | ev :: rest =>
      let '(_, g1, es1) := step ev g in
      let '(g2, es2) := run rest g1 in (g2, es1 ++ es2)
  end.
End Window.

End Gui.

(** ** The Streamlit script ([swift_alliance_streamlit.py]) *)

Module Streamlit.

(** Values kept in [st.session_state] and in the configuration. *)
Inductive Value : Type :=
| VNone
| VStr (s : string)
| VDict (r : ValidationResult).

Global Instance Value_eq_dec : EqDecision Value.
Proof. solve_decision. Defined.

Definition value_truthy (v : Value) : bool :=
  match v with
  | VNone => false
  | VStr s => Py.truthy s
  | VDict _ => true
  end.

(** [d.get(k)] *)
Definition dict_get (d : gmap string Value) (k : string) : Value :=
  default VNone (d !! k).

(** The part of the file system the script looks at. *)
Record FS : Type := {
  files : gmap string string;
  dirs : gset string
}.

Definition path_exists (fs : FS) (p : string) : bool :=
  bool_decide (is_Some (files fs !! p)) || bool_decide (p ∈ dirs fs).
Definition isdir (fs : FS) (p : string) : bool := bool_decide (p ∈ dirs fs).
Definition makedirs (p : string) (fs : FS) : FS :=
  {| files := files fs; dirs := {[p]} ∪ dirs fs |}.
Definition write (p data : string) (fs : FS) : FS :=
  {| files := <[p := data]> (files fs); dirs := dirs fs |}.
Definition append (p data : string) (fs : FS) : FS :=
  {| files := <[p := default EmptyString (files fs !! p) +:+ data]> (files fs);
     dirs := dirs fs |}.

(** [os.path.dirname] for POSIX paths. *)
Definition dirname (p : string) : string :=
  let parts := Py.split "/" p in
  Py.join "/" (take (length parts - 1) parts).

(** [s.endswith(suffix)] *)
Definition endswith (s suffix : string) : bool :=
  String.prefix (String.rev suffix) (String.rev s).

(** [sorted(os.listdir(d))]: the names of the files and directories
    that lie directly in [d]. *)
Definition listdir (fs : FS) (d : string) : list string :=
  merge_sort String.le
    (Gui.basename <$> filter (fun p => dirname p = d)
                        (elements (dom (files fs) ∪ dirs fs))).

Inductive Kind : Type :=
| success | error | warning | info | write_ | markdown | title | header
| subheader | code.

(** What one run of the script shows or hands to the outside world. *)
Inductive Effect : Type :=
| St (k : Kind) (text : string)
| Image (path : string)
| DownloadButton (data file_name : string)
| SaveConfig (cfg : gmap string Value)
| Demo
| WriteFile (path mode data : string)
| Sendmail (host : string) (port : Z) (user passwd recipient msg : string)
| SftpPut (host : string) (port : Z) (user passwd remote_path data : string).

(** The effects that move the message off the system: the log appended
    to, a mail sent, a file uploaded. (The binary writes store an uploaded
    schema or logo.) *)
Definition is_transport (e : Effect) : bool :=
  match e with
  | WriteFile _ mode _ => negb (String.eqb mode "wb")
  | Sendmail _ _ _ _ _ _ | SftpPut _ _ _ _ _ _ => true
  | _ => false
  end.

(** The configuration dictionaries the run hands to [save_config]. *)
Definition saved (es : list Effect) : list (gmap string Value) :=
  omap (fun e => match e with SaveConfig cfg => Some cfg | _ => None end) es.

(** The dictionary [{"schema_path": schema, "logo_path": logo}]. *)
Definition settings (schema logo : Value) : gmap string Value :=
  <["schema_path" := schema]> (<["logo_path" := logo]> ∅).

(** A saved configuration has exactly the two keys. *)
Definition both_keys (e : Effect) : Prop :=
  match e with
  | SaveConfig cfg => dom cfg = {["schema_path"; "logo_path"]}
  | _ => True
  end.

(** The mutable world of one run. *)
Record World : Type := {
  session_state : gmap string Value;
  fs : FS
}.

Definition Script := Eff.Handler World Effect.

Definition set_item (k : string) (v : Value) (w : World) : World :=
  {| session_state := <[k := v]> (session_state w); fs := fs w |}.
Definition set_fs (f : FS -> FS) (w : World) : World :=
  {| session_state := session_state w; fs := f (fs w) |}.

(** [if k not in st.session_state: st.session_state[k] = v] *)
Definition setdefault (k : string) (v : Value) : Script unit :=
  w <~ Eff.get ;>
  match session_state w !! k with
  | Some _ => Eff.ret tt
  | None => Eff.modify (set_item k v)
  end.

(** The values of the widgets in one run, and the answers of the
    environment. An uploader yields the name and content of a file;
    [after_demo] is what the ledger holds when it is read again after
    [demo()], or the exception that [demo()] or that reading raises. *)
Record Widgets : Type := {
  create_demo : bool;
  after_demo : Py.Result (list Account);
  selected_account : string;
  uploaded_xsd : option (string * string);
  persisted_choice : string;
  logo_file : option (string * string);
  ordering_name : string;
  ordering_account : string;
  beneficiary_name : string;
  beneficiary_account : string;
  beneficiary_bic : string;
  amount_text : string;
  currency : string;
  value_date : string;
  remittance : string;
  reference : string;
  fmt : string;
  btn_generate : bool;
  btn_validate : bool;
  btn_download : bool;
  btn_send_mock : bool;
  override_checkbox : bool;
  send_method : string;
  smtp_host : string;
  smtp_user : string;
  smtp_pass : string;
  recipient : string;
  send_email_now : bool;
  sftp_host : string;
  sftp_port : Z;
  sftp_user : string;
  sftp_pass : string;
  remote_path : string;
  upload_now : bool;
  io_failure : option Py.Exn;
  utcnow : string;
  now_stamp : string
}.

(** [st.selectbox(label, options)]: the current choice when it is one of
    the options, the first option otherwise. *)
Definition selectbox (options : list string) (choice : string) : string :=
  if bool_decide (choice ∈ options) then choice
  else default EmptyString (head options).

Definition str_or_None (v : Value) : string :=
  match v with VStr s => s | _ => "None" end.

(** The stored validation result, if any. *)
Definition verdict (w : World) : option Value :=
  session_state w !! "validation_result".

(** [st.session_state.get(k, dflt)] read as a string. *)
Definition get_str (w : World) (k dflt : string) : string :=
  match session_state w !! k with
  | Some (VStr s) => s
  | Some _ => EmptyString
  | None => dflt
  end.

(** [st.session_state.get("validation_result", ...)]; both defaults the
    script uses have [valid] false and no errors. *)
Definition get_result (w : World) : ValidationResult :=
  match session_state w !! "validation_result" with
  | Some (VDict r) => r
  | _ => {| valid := false; errors := [] |}
  end.

Section Run.
Context `{B : Backend}.

(** The dictionary [config_manager.load_config()] returned. *)
Variable config : gmap string Value.
Variable i : Widgets.

Definition write_file (path mode data : string) : Script unit :=
  Eff.modify (set_fs (write path data)) ;>
  Eff.emit (WriteFile path mode data).

(** [config_manager.save_config({"schema_path": ..., "logo_path": ...})]
    with both values read from the session state. *)
Definition save_config_from_session : Script unit :=
  w <~ Eff.get ;>
  Eff.emit (SaveConfig
    (<["schema_path" := dict_get (session_state w) "schema_path"]>
       (<["logo_path" := dict_get (session_state w) "logo_path"]> ∅))).

(** Lines 34 to 47. *)
Definition load_settings : Script unit :=
  Eff.modify (set_fs (makedirs ASSETS_DIR)) ;>
  Eff.emit (St title
    "Swift Alliance — Message Converter & ISO20022 Validator (Streamlit)") ;>
  setdefault "schema_path" (dict_get config "schema_path") ;>
  setdefault "logo_path" (dict_get config "logo_path").

(** Lines 53 to 76. The ledger is read through [bank_accounts], and
    again after [demo()]; neither call nor the rounding of the balance
    stands in a [try], so an exception of theirs ends the run. *)
Definition accounts_panel : Script unit :=
  Eff.emit (St header "Backend / Accounts") ;>
  accounts <~ Eff.lift bank_accounts ;>
  Eff.when (match accounts with [] => true | _ => false end)
    (Eff.emit (St warning "No accounts found in bank data. Use the button below to create demo data or register customers in the CLI.")) ;>
  accounts <~ (if create_demo i then
                 Eff.emit Demo ;>
                 renewed <~ Eff.lift (after_demo i) ;>
                 Eff.emit (St success
                   "Demo data created. Refreshing accounts...") ;>
                 Eff.ret renewed
               else Eff.ret accounts) ;>
  let account_options :=
    "-- Select account --" :: merge_sort String.le (acc_number <$> accounts) in
  let selected := selectbox account_options (selected_account i) in
  Eff.emit (St markdown "**Selected account details**") ;>
  Eff.when (Py.truthy selected
            && negb (String.eqb selected "-- Select account --"))
    match List.find (fun acc => String.eqb (acc_number acc) selected)
            accounts with
    | Some acc =>
        Eff.emit (St write_ ("Account: `" +:+ acc_number acc +:+ "`")) ;>
        Eff.emit (St write_ ("Type: " +:+ acc_type acc)) ;>
        Eff.emit (St write_ ("Currency: " +:+ acc_currency acc)) ;>
        balance <~ Eff.lift (decimal.quantize2 (acc_balance acc)) ;>
        Eff.emit (St write_ ("Balance: " +:+ decimal.to_str balance)) ;>
        match acc_customer acc with
        | Some (first, last) =>
            Eff.emit (St write_ ("Customer: " +:+ first +:+ " " +:+ last
                                 +:+ " (" +:+ acc_customer_id acc +:+ ")"))
        | None => Eff.ret tt
        end
    | None => Eff.ret tt
    end ;>
  Eff.emit (St markdown "---").

(** Lines 77 to 103. *)
Definition schema_panel : Script unit :=
  Eff.emit (St header "Schema / Logo (persistent)") ;>
  w <~ Eff.get ;>
  let cur := dict_get (session_state w) "schema_path" in
  Eff.emit (St write_ ("Current schema (persisted): " +:+
    (if value_truthy cur then Gui.basename (str_or_None cur) else "None"))) ;>
  let schemas_dir := Gui.path_join ASSETS_DIR "schemas" in
  match uploaded_xsd i with
  | Some (name, data) =>
      Eff.modify (set_fs (makedirs schemas_dir)) ;>
      let target := Gui.path_join schemas_dir (Gui.basename name) in
      write_file target "wb" data ;>
      Eff.modify (set_item "schema_path" (VStr target)) ;>
      save_config_from_session ;>
      Eff.emit (St success
        ("Schema uploaded and saved persistently at: " +:+ target))
  | None => Eff.ret tt
  end ;>
  w <~ Eff.get ;>
  if isdir (fs w) schemas_dir then
    let available :=
      filter (fun f => endswith (Py.lower f) ".xsd" = true)
             (listdir (fs w) schemas_dir) in
    match available with
    | [] => Eff.ret tt
    | _ =>
        let sel := selectbox ("-- keep current --" :: available)
                     (persisted_choice i) in
        if Py.truthy sel && negb (String.eqb sel "-- keep current --") then
          Eff.modify (set_item "schema_path"
                        (VStr (Gui.path_join schemas_dir sel))) ;>
          save_config_from_session ;>
          Eff.emit (St success ("Selected schema: " +:+ sel))
        else Eff.ret tt
    end
  else Eff.ret tt.

(** Lines 105 to 114. *)
Definition logo_panel : Script unit :=
  w <~ Eff.get ;>
  let cur := dict_get (session_state w) "logo_path" in
  Eff.emit (St write_ ("Current logo (persisted): " +:+
    (if value_truthy cur then Gui.basename (str_or_None cur) else "None"))) ;>
  match logo_file i with
  | Some (name, data) =>
      let target := Gui.path_join ASSETS_DIR (Gui.basename name) in
      write_file target "wb" data ;>
      Eff.modify (set_item "logo_path" (VStr target)) ;>
      save_config_from_session ;>
      Eff.emit (St success ("Logo saved persistently at: " +:+ target))
  | None => Eff.ret tt
  end.

(** Lines 117 to 156: logo, form and the session defaults. *)
Definition compose_panel : Script unit :=
  w <~ Eff.get ;>
  let logo_path := dict_get (session_state w) "logo_path" in
  (if value_truthy logo_path && path_exists (fs w) (str_or_None logo_path)
   then Eff.emit (Image (str_or_None logo_path))
   else Eff.emit (St markdown
          "*(No persisted logo — upload one in the left panel)*")) ;>
  Eff.emit (St header "Compose Payment") ;>
  Eff.emit (St markdown "---") ;>
  Eff.emit (St write_ "Select message format and actions:") ;>
  setdefault "preview_content" (VStr "") ;>
  setdefault "validation_result" (VDict {| valid := false; errors := [] |}) ;>
  setdefault "last_format" VNone.

(** The keyword arguments [_build_payment_dict] passes on. *)
Definition payment_args (amt : decimal.Decimal) : PaymentArgs :=
  {| account_number := Py.strip (ordering_account i);
     account_name := Py.strip (ordering_name i);
     arg_beneficiary_account := Py.strip (beneficiary_account i);
     arg_beneficiary_name := Py.strip (beneficiary_name i);
     arg_amount := amt;
     arg_currency := Py.or_str (Py.strip (currency i)) "USD";
     arg_value_date := Py.or_None (Py.strip (value_date i));
     arg_remittance_info := Py.or_None (Py.strip (remittance i));
     arg_beneficiary_bic := Py.or_None (Py.strip (beneficiary_bic i));
     arg_reference := Py.or_None (Py.strip (reference i)) |}.

Definition _build_payment_dict : Script (option Payment) :=
  match decimal.of_string (Py.strip (amount_text i)) with
  | None =>
      Eff.emit (St error "Invalid amount. Use numbers like 1234.56") ;>
      Eff.ret None
  | Some amt =>
      p <~ Eff.lift (payment_from_transaction (payment_args amt)) ;>
      Eff.ret (Some p)
  end.

Definition set_result (valid : bool) (errors : list string) : Script unit :=
  Eff.modify (set_item "validation_result"
                (VDict {| valid := valid; errors := errors |})).

(** Lines 179 to 213. *)
Definition generate_branch : Script unit :=
  payment <~ _build_payment_dict ;>
  match payment with
  | None => Eff.raise Py.StopException
  | Some payment =>
      if Py.startswith (fmt i) "ISO20022" then
        xml <~ Eff.lift (generate_pain001 payment) ;>
        Eff.modify (set_item "preview_content" (VStr xml)) ;>
        Eff.modify (set_item "last_format" (VStr "XML")) ;>
        Eff.emit (St success "XML preview generated") ;>
        w <~ Eff.get ;>
        let schema_path := dict_get (session_state w) "schema_path" in
        if value_truthy schema_path
           && path_exists (fs w) (str_or_None schema_path) then
          Eff.try_except_schema
            (r <~ Eff.lift (validate_pain001_generated xml
                              (str_or_None schema_path)) ;>
             set_result (fst r) (or_nil (snd r)) ;>
             if fst r then Eff.emit (St success "XML validated: VALID")
             else Eff.emit
                    (St error "XML validation: INVALID — see details below"))
            (fun e =>
               Eff.emit (St error ("Schema error: " +:+ Py.str_exn e)) ;>
               set_result false [Py.str_exn e])
        else
          Eff.emit (St warning "No persisted schema selected — upload a pain.001 XSD on the left to enable validation.") ;>
          set_result false ["No schema uploaded for validation."]
      else
        mt <~ Eff.lift (generate_mt103 payment) ;>
        Eff.modify (set_item "preview_content" (VStr mt)) ;>
        Eff.modify (set_item "last_format" (VStr "MT")) ;>
        r <~ Eff.lift (validate_mt103_text mt) ;>
        set_result (fst r) (snd r) ;>
        if fst r
        then Eff.emit (St success
               "MT103 generated and basic validation PASSED")
        else Eff.emit (St error
               "MT103 basic validation FAILED — see details below")
  end.

(** Lines 216 to 241. *)
Definition validate_branch : Script unit :=
  w <~ Eff.get ;>
  let content := get_str w "preview_content" "" in
  if negb (Py.truthy content) then
    Eff.emit (St warning
      "No preview content to validate. Generate a message first.")
  else if bool_decide (dict_get (session_state w) "last_format" = VStr "XML")
  then
    let schema_path := dict_get (session_state w) "schema_path" in
    if negb (value_truthy schema_path)
       || negb (path_exists (fs w) (str_or_None schema_path)) then
      Eff.emit (St error "No persisted schema. Upload a pain.001 XSD on the left to validate XML.")
    else
      Eff.try_except_schema
        (r <~ Eff.lift (validate_pain001_generated content
                          (str_or_None schema_path)) ;>
         set_result (fst r) (or_nil (snd r)) ;>
         if fst r then Eff.emit (St success "XML validation: VALID")
         else Eff.emit (St error "XML validation: INVALID"))
        (fun e => Eff.emit (St error ("Schema error: " +:+ Py.str_exn e)))
  else
    r <~ Eff.lift (validate_mt103_text content) ;>
    set_result (fst r) (snd r) ;>
    if fst r then Eff.emit (St success "MT103 validation: OK")
    else Eff.emit (St error "MT103 validation: issues found").

(** [for i, e in enumerate(errors, start=k): st.write(f"{i}. {e}")] *)
Fixpoint write_issues (k : nat) (errors : list string) : Script unit :=
  match errors with
  | [] => Eff.ret tt
  | e :: rest =>
      Eff.emit (St write_ (Num.str_of_nat k +:+ ". " +:+ e)) ;>
      write_issues (S k) rest
  end.

(** Lines 244 to 260. *)
Definition display_panel : Script unit :=
  w <~ Eff.get ;>
  Eff.emit (St subheader "Preview") ;>
  let preview := get_str w "preview_content" "" in
  (if Py.truthy preview then Eff.emit (St code preview)
   else Eff.emit (St info
          "No preview yet. Fill the form and click 'Generate Preview'.")) ;>
  Eff.emit (St subheader "Validation Result") ;>
  let val := get_result w in
  (if valid val then Eff.emit (St success "Validation: VALID")
   else Eff.emit (St error "Validation: INVALID or not performed")) ;>
  match errors val with
  | [] => Eff.ret tt
  | es => Eff.emit (St write_ "Issues:") ;> write_issues 1 es
  end.

(** Lines 263 to 270. *)
Definition download_branch : Script unit :=
  w <~ Eff.get ;>
  let content := get_str w "preview_content" "" in
  if negb (Py.truthy content) then
    Eff.emit (St warning "Nothing to download. Generate a preview first.")
  else
    let suffix :=
      if bool_decide (dict_get (session_state w) "last_format" = VStr "XML")
      then ".xml" else ".txt" in
    Eff.emit (DownloadButton content
                ("swift_message_" +:+ now_stamp i +:+ suffix)).

(** Lines 273 to 330. *)
Definition send_branch : Script unit :=
  w <~ Eff.get ;>
  let content := get_str w "preview_content" "" in
  if negb (Py.truthy content) then
    Eff.emit (St warning "Nothing to send. Generate a preview first.")
  else
    (if negb (valid (get_result w)) && negb (override_checkbox i)
     then Eff.raise Py.StopException else Eff.ret tt) ;>
    let method := selectbox ["Log locally"; "Email (SMTP)";
                             "Upload via SFTP (optional)"]
                    (send_method i) in
    if String.eqb method "Log locally" then
      let logf := "swift_send_log.txt" in
      match io_failure i with
      | Some e => Eff.raise e
      | None =>
          let data := "----- " +:+ utcnow i +:+ " -----" +:+ Py.nl
                      +:+ content +:+ Py.nl +:+ Py.nl in
          Eff.modify (set_fs (append logf data)) ;>
          Eff.emit (WriteFile logf "a" data) ;>
          Eff.emit (St success ("Message logged to " +:+ logf))
      end
    else if String.eqb method "Email (SMTP)" then
      Eff.when (send_email_now i)
        (Eff.try_except
           (hp <~ Eff.lift (Gui.unpack2 (Py.split ":" (smtp_host i))) ;>
            port <~ Eff.lift (Gui.py_int (snd hp)) ;>
            match io_failure i with
            | Some e => Eff.raise e
            | None =>
                Eff.emit (Sendmail (fst hp) port (smtp_user i) (smtp_pass i)
                            (recipient i)
                            ("Subject: SWIFT Message" +:+ Py.nl +:+ Py.nl
                             +:+ content)) ;>
                Eff.emit (St success "Email sent (SMTP).")
            end)
           (fun e => Eff.emit
                       (St error ("SMTP send failed: " +:+ Py.str_exn e))))
    else if negb HAS_PARAMIKO then
      Eff.emit (St error "Paramiko not installed; SFTP not available.")
    else
      Eff.when (upload_now i)
        (Eff.try_except
           match io_failure i with
           | Some e => Eff.raise e
           | None =>
               Eff.emit (SftpPut (sftp_host i) (sftp_port i) (sftp_user i)
                           (sftp_pass i) (remote_path i) content) ;>
               Eff.emit (St success "Uploaded via SFTP.")
           end
           (fun e => Eff.emit
                       (St error ("SFTP upload failed: " +:+ Py.str_exn e)))).

(** The script down to the action buttons. *)
Definition panels : Script unit :=
  load_settings ;>
  accounts_panel ;>
  schema_panel ;>
  logo_panel ;>
  compose_panel.

(** The script from the display of the preview to its end. *)
Definition footer : Script unit :=
  display_panel ;>
  Eff.when (btn_download i) download_branch ;>
  Eff.when (btn_send_mock i) send_branch ;>
  Eff.emit (St markdown "---") ;>
  Eff.emit (St markdown "Notes: This is a local-only demo utility. For production SWIFT submissions use a certified gateway.").

(** One run of the whole script, top to bottom. *)
Definition script : Script unit :=
  panels ;>
  Eff.when (btn_generate i) generate_branch ;>
  Eff.when (btn_validate i) validate_branch ;>
  footer.
End Run.

End Streamlit.

(** ** The payment model and the two generators ([swift_messages]) *)

Module SwiftMessages.

(** A calendar date. *)
Record Date : Type := {
  year : nat;
  month : nat;
  day : nat
}.

Definition is_leap (y : nat) : bool :=
  ((y mod 4 =? 0) && negb (y mod 100 =? 0) || (y mod 400 =? 0))%nat.

Definition days_in_month (y m : nat) : nat :=
  match m with
  | 1 | 3 | 5 | 7 | 8 | 10 | 12 => 31
  | 4 | 6 | 9 | 11 => 30
  | 2 => if is_leap y then 29 else 28
  | _ => 0
  end%nat.

Definition valid_date (d : Date) : bool :=
  ((1 <=? year d) && (year d / 100 <=? 99) && (1 <=? month d) && (month d <=? 12)
   && (1 <=? day d) && (day d <=? days_in_month (year d) (month d)))%nat.

(** Modelled from the spec: the canonical Payment of section 3, which
    [swift_messages] defines and which is not among the sources. The
    amount is an exact decimal, the optional fields are [None] when
    absent. *)
Record Payment : Type := {
  ordering_account : string;
  ordering_name : string;
  beneficiary_account : string;
  beneficiary_name : string;
  beneficiary_bic : option string;
  amount : decimal.Decimal;
  currency : string;
  value_date : Date;
  remittance_info : option string;
  reference : string
}.

Definition digit (d : nat) : ascii := ascii_of_nat (48 + d mod 10).

(** A number below 100 as two digits. *)
Definition pad2 (n : nat) : string :=
  String (digit (n / 10)) (String (digit n) EmptyString).

Definition pad4 (n : nat) : string :=
  String (digit (n / 1000)) (String (digit (n / 100)) (pad2 n)).

(** The value of exactly [n] leading digits, and what follows them. *)
Fixpoint read_digits (n : nat) (acc : nat) (s : string)
  : option (nat * string) :=
  match n with
  | O => Some (acc, s)
  | S n' =>
      match s with
      | String c s' =>
          if Py.isdigit c
          then read_digits n' (10 * acc + N.to_nat (Num.digit_val c))%nat s'
          else None
      | EmptyString => None
      end
  end.

(** An ISO calendar date [YYYY-MM-DD]. *)
Definition parse_date (s : string) : option Date :=
  '(y, r1) ← read_digits 4 0 s;
  match r1 with
  | String "-" r2 =>
      '(m, r3) ← read_digits 2 0 r2;
      match r3 with
      | String "-" r4 =>
          '(d, r5) ← read_digits 2 0 r4;
          let date := {| year := y; month := m; day := d |} in
          match r5 with
          | EmptyString => if valid_date date then Some date else None
          | _ => None
          end
      | _ => None
      end
  | _ => None
  end.

Definition isoformat (d : Date) : string :=
  pad4 (year d) +:+ "-" +:+ pad2 (month d) +:+ "-" +:+ pad2 (day d).

Definition upper_or_digit (c : ascii) : bool := Py.isupper c || Py.isdigit c.

(** The bank-identifier-code shape: 8 or 11 upper-case alphanumeric
    characters, the first six of them (institution and country) letters. *)
Definition bic_shape (b : string) : bool :=
  let n := String.length b in
  ((n =? 8) || (n =? 11))%nat
  && Py.all upper_or_digit b
  && Py.all Py.isupper (String.substring 0 6 b).

(** The IBAN shape: 5 to 34 upper-case alphanumeric characters (a national
    part of 1 to 30), the first two of them letters (the country code) and
    the next two digits (the check digits). *)
Definition iban_shape (a : string) : bool :=
  let n := String.length a in
  ((5 <=? n) && (n <=? 34))%nat
  && Py.all upper_or_digit a
  && Py.all Py.isupper (String.substring 0 2 a)
  && Py.all Py.isdigit (String.substring 2 2 a).

Definition currency_shape (c : string) : bool :=
  (String.length c =? 3)%nat && Py.all Py.isupper c.

(** The constraints section 3 puts on a Payment. *)
Definition valid_payment (p : Payment) : bool :=
  iban_shape (ordering_account p)
  && Py.truthy (ordering_name p)
  && iban_shape (beneficiary_account p)
  && Py.truthy (beneficiary_name p)
  && match beneficiary_bic p with Some b => bic_shape b | None => true end
  && match amount p with
     | decimal.Finite false c _ => (0 <? c)%N
     | _ => false
     end
  && currency_shape (currency p)
  && valid_date (value_date p).

(** Modelled from the spec: the Payment Model builder of section 4.1,
    [payment_from_transaction] of [swift_messages], which is not among
    the sources. It receives the amount already converted to a decimal,
    as both callers pass it. The checks run in the order of section 4.1
    and the first failure raises [InputError] naming the field; [today]
    and [fresh_reference] are the two defaults taken from outside. *)
Definition payment_from_transaction (today : Date) (fresh_reference : string)
    (a : PaymentArgs) : Py.Result Payment :=
  if negb (Py.truthy (account_number a)) then
    Py.Raise (Py.InputError "ordering_account must not be empty")
  else if negb (Py.truthy (account_name a)) then
    Py.Raise (Py.InputError "ordering_name must not be empty")
  else if negb (Py.truthy (arg_beneficiary_account a)) then
    Py.Raise (Py.InputError "beneficiary_account must not be empty")
  else if negb (Py.truthy (arg_beneficiary_name a)) then
    Py.Raise (Py.InputError "beneficiary_name must not be empty")
  else
    match arg_amount a with
    | decimal.Finite false c e =>
        if (c =? 0)%N then
          Py.Raise (Py.InputError "amount must be positive")
        else
          let cur := Py.upper (Py.or_str (Py.strip (arg_currency a)) "USD") in
          if negb (currency_shape cur) then
            Py.Raise (Py.InputError "currency must be 3 letters")
          else
            match
              match arg_value_date a with
              | Some text => parse_date text
              | None => Some today
              end
            with
            | None => Py.Raise (Py.InputError "value_date is not a date")
            | Some date =>
                if match arg_beneficiary_bic a with
                   | Some b => bic_shape b
                   | None => true
                   end
                then
                  Py.Return
                    {| ordering_account := account_number a;
                       ordering_name := account_name a;
                       beneficiary_account := arg_beneficiary_account a;
                       beneficiary_name := arg_beneficiary_name a;
                       beneficiary_bic := arg_beneficiary_bic a;
                       amount := decimal.Finite false c e;
                       currency := cur;
                       value_date := date;
                       remittance_info := arg_remittance_info a;
                       reference := default fresh_reference (arg_reference a) |}
                else
                  Py.Raise (Py.InputError
                              "beneficiary_bic must be 8 or 11 characters")
            end
    | _ => Py.Raise (Py.InputError "amount must be positive")
    end.

(** *** Formatting *)

Fixpoint zeros (n : nat) : string :=
  match n with
  | O => EmptyString
  | S n' => String "0" (zeros n')
  end.

(** [s.zfill(w)] *)
Definition zfill (w : nat) (s : string) : string :=
  zeros (w - String.length s) +:+ s.

(** Integer part and fractional digits of [c * 10 ^ e]. *)
Definition int_frac (c : N) (e : Z) : N * string :=
  if (0 <=? e)%Z then ((c * 10 ^ Z.to_N e)%N, EmptyString)
  else
    let k := Z.to_N (- e) in
    ((c / 10 ^ k)%N, zfill (N.to_nat k) (Num.str_of_N (c mod 10 ^ k)%N)).

(** The amount of [:32A:]: comma as separator, no grouping, at least two
    fractional digits. *)
Definition format_amount_mt (d : decimal.Decimal) : string :=
  match d with
  | decimal.Finite _ c e =>
      let '(ip, fr) := int_frac c e in
      Num.str_of_N ip +:+ "," +:+ fr +:+ zeros (2 - String.length fr)
  | _ => EmptyString
  end.

(** The amount in hundredths, rounded half to even when the decimal has
    more than two fractional digits. *)
Definition cents (c : N) (e : Z) : N :=
  if (-2 <=? e)%Z then (c * 10 ^ Z.to_N (e + 2))%N
  else
    let k := Z.to_N (- e - 2) in
    let q := (c / 10 ^ k)%N in
    let r := (c mod 10 ^ k)%N in
    if (2 * r <? 10 ^ k)%N then q
    else if (10 ^ k <? 2 * r)%N then (q + 1)%N
    else if N.even q then q else (q + 1)%N.

(** The amount of the XML message: a decimal point and exactly two
    fractional digits. *)
Definition format_amount_xml (d : decimal.Decimal) : string :=
  match d with
  | decimal.Finite _ c e =>
      let n := cents c e in
      Num.str_of_N (n / 100) +:+ "." +:+ zfill 2 (Num.str_of_N (n mod 100))
  | _ => EmptyString
  end.

(** [YYMMDD] *)
Definition yymmdd (d : Date) : string :=
  pad2 (year d mod 100) +:+ pad2 (month d) +:+ pad2 (day d).

(** *** Line wrapping *)

(** A long word cut into pieces of [n] characters. *)
Definition chunks (n : nat) (s : string) : list string :=
  map (fun k => String.substring (k * n) n s)
      (seq 0 ((String.length s + n - 1) / n)).

(** Greedy filling: [cur] is the line being built. *)
Fixpoint fill (width : nat) (cur : string) (ws : list string) : list string :=
  match ws with
  | [] => [cur]
  | w :: rest =>
      if (String.length cur + 1 + String.length w <=? width)%nat
      then fill width (cur +:+ " " +:+ w) rest
      else cur :: fill width w rest
  end.

(** Word wrapping into lines of at most [width] characters; a word longer
    than a line is cut. *)
Definition wrap (width : nat) (text : string) : list string :=
  match flat_map (chunks width) (Py.words text) with
  | [] => []
  | w :: ws => fill width w ws
  end.

(** The rule shared by [:50K:], [:59:] and [:70:]: lines of at most 35
    characters, at most 4 of them; what does not fit is dropped. *)
Definition wrap_field (text : string) : list string :=
  take 4 (wrap 35 text).

(** The overflow condition of a wrapped field. *)
Definition overflows (text : string) : bool :=
  (4 <? length (wrap 35 text))%nat.

(** The first line of a field carries its tag. *)
Definition tagged (tag : string) (lines : list string) : list string :=
  match lines with
  | [] => []
  | l :: ls => (tag +:+ l) :: ls
  end.

(** *** The MT103 generator *)

Definition mt103_lines (p : Payment) : list string :=
  [":20:" +:+ reference p;
   ":23B:CRED";
   ":32A:" +:+ yymmdd (value_date p) +:+ currency p
     +:+ format_amount_mt (amount p)]
  ++ tagged ":50K:"
       (("/" +:+ ordering_account p) :: wrap_field (ordering_name p))
  ++ tagged ":59:"
       (match beneficiary_bic p with Some b => [b] | None => [] end
        ++ ("/" +:+ beneficiary_account p) :: wrap_field (beneficiary_name p))
  ++ tagged ":70:" (wrap_field (default EmptyString (remittance_info p)))
  ++ [":71A:OUR"].

(** Modelled from the spec: the MT103 generator of section 4.2,
    [generate_mt103] of [swift_messages], which is not among the sources.
    One tag start per line, the seven fields in their fixed order, lines
    separated by one line break, nothing after [:71A:]. *)
Definition generate_mt103 (p : Payment) : string :=
  Py.join Py.nl (mt103_lines p).

(** A field as it stands in the text: the line that carries the tag, the
    lines that continue it, and then the rest of the text. *)
Definition field (tag content : string) (more rest : list string)
  : list string :=
  (tag +:+ content) :: more ++ rest.

(** The tags of the fields the generator writes for [p], in order. *)
Definition tags_written (p : Payment) : list string :=
  [":20:"; ":23B:"; ":32A:"; ":50K:"; ":59:"]
  ++ match wrap_field (default EmptyString (remittance_info p)) with
     | [] => []
     | _ => [":70:"]
     end
  ++ [":71A:"].

(** The wrapped fields of which the overflow policy dropped something. *)
Definition mt103_overflow (p : Payment) : list string :=
  (if overflows (ordering_name p) then [":50K:"] else [])
  ++ (if overflows (beneficiary_name p) then [":59:"] else [])
  ++ (if overflows (default EmptyString (remittance_info p))
      then [":70:"] else []).

(** *** The pain.001 generator *)

Definition q : string := String Py.QUOTE EmptyString.

Definition escape_char (c : ascii) : string :=
  if Ascii.eqb c "&" then "&amp;"
  else if Ascii.eqb c "<" then "&lt;"
  else if Ascii.eqb c ">" then "&gt;"
  else if Ascii.eqb c Py.QUOTE then "&quot;"
  else if Ascii.eqb c "'" then "&apos;"
  else String c EmptyString.

(** Escaping of the five reserved characters. *)
Fixpoint escape (s : string) : string :=
  match s with
  | EmptyString => EmptyString
  | String c s' => escape_char c +:+ escape s'
  end.

(** An element with escaped text content. *)
Definition text_el (name text : string) : string :=
  "<" +:+ name +:+ ">" +:+ escape text +:+ "</" +:+ name +:+ ">".

(** An element around already serialised children. *)
Definition el (name : string) (children : list string) : string :=
  "<" +:+ name +:+ ">" +:+ String.concat EmptyString children
  +:+ "</" +:+ name +:+ ">".

(** Modelled from the spec: the pain.001 generator of section 4.3,
    [generate_pain001] of [swift_messages], which is not among the
    sources. The spec names the instructed amount and the end-to-end
    identifier by their tags; the other elements carry the names ISO 20022
    gives them. The two identifiers the spec leaves open are the
    reference; [created] is the creation timestamp. No namespace is
    declared, the schema revision being left to the configuration. *)
Definition generate_pain001 (created : string) (p : Payment) : string :=
  "<?xml version=" +:+ q +:+ "1.0" +:+ q +:+ " encoding=" +:+ q +:+ "UTF-8"
  +:+ q +:+ "?>" +:+ Py.nl +:+
  el "Document" [
    el "CstmrCdtTrfInitn" [
      el "GrpHdr" [
        text_el "MsgId" (reference p);
        text_el "CreDtTm" created;
        text_el "NbOfTxs" "1";
        text_el "CtrlSum" (format_amount_xml (amount p));
        el "InitgPty" [text_el "Nm" (ordering_name p)]];
      el "PmtInf" [
        text_el "PmtInfId" (reference p);
        text_el "PmtMtd" "TRF";
        text_el "ReqdExctnDt" (isoformat (value_date p));
        el "Dbtr" [text_el "Nm" (ordering_name p)];
        el "DbtrAcct" [el "Id" [text_el "IBAN" (ordering_account p)]];
        el "CdtTrfTxInf" (
          [el "PmtId" [text_el "EndToEndId" (reference p)];
           el "Amt" [
             "<InstdAmt Ccy=" +:+ q +:+ escape (currency p) +:+ q +:+ ">"
             +:+ format_amount_xml (amount p) +:+ "</InstdAmt>"]]
          ++ match beneficiary_bic p with
             | Some b => [el "CdtrAgt" [el "FinInstnId" [text_el "BIC" b]]]
             | None => []
             end
          ++ [el "Cdtr" [text_el "Nm" (beneficiary_name p)];
              el "CdtrAcct" [el "Id" [text_el "IBAN" (beneficiary_account p)]]]
          ++ match remittance_info p with
             | Some r =>
                 if Py.truthy r then [el "RmtInf" [text_el "Ustrd" r]] else []
             | None => []
             end)]]].

End SwiftMessages.

(** ** The two validators ([swift_iso_validator]) *)

Module SwiftIsoValidator.

(** *** MT103 text *)

Definition mandatory_tags : list string :=
  [":20:"; ":23B:"; ":32A:"; ":50K:"; ":59:"; ":71A:"].

(** The fixed order of section 4.2. *)
Definition field_order : list string :=
  [":20:"; ":23B:"; ":32A:"; ":50K:"; ":59:"; ":70:"; ":71A:"].

Definition wrapped_tags : list string := [":50K:"; ":59:"; ":70:"].

(** A line starts a field when it begins with a colon, two digits, an
    optional upper-case letter and a colon. The result is the tag and
    what follows it on the line. *)
Definition tag_of (line : string) : option (string * string) :=
  match line with
  | String ":" (String a (String b r)) =>
      if Py.isdigit a && Py.isdigit b then
        match r with
        | String ":" rest =>
            Some (String ":" (String a (String b ":")), rest)
        | String c (String ":" rest) =>
            if Py.isupper c
            then Some (String ":" (String a (String b (String c ":"))), rest)
            else None
        | _ => None
        end
      else None
  | _ => None
  end.

(** The tags of a text, in the order in which their lines appear. *)
Definition tags_of (lines : list string) : list string :=
  omap (fun l => fst <$> tag_of l) lines.

Definition mem (t : string) (l : list string) : bool :=
  existsb (String.eqb t) l.

(** First check: every mandatory tag is present. *)
Definition missing_issues (tags : list string) : list string :=
  flat_map (fun t => if mem t tags then []
                     else ["Missing mandatory tag " +:+ t])
           mandatory_tags.

(** [n] leading characters satisfying [p], and what follows them. *)
Fixpoint eat (n : nat) (p : ascii -> bool) (s : string) : option string :=
  match n with
  | O => Some s
  | S n' =>
      match s with
      | String c s' => if p c then eat n' p s' else None
      | EmptyString => None
      end
  end.

(** An amount: digits, a comma, digits. *)
Definition amount_shape (s : string) : bool :=
  let '(ip, r) := Num.span Py.isdigit s in
  Py.truthy ip &&
  match r with
  | String "," f => Py.all Py.isdigit f
  | _ => false
  end.

(** Six digits, three upper-case letters, an amount. *)
Definition value_32A_shape (v : string) : bool :=
  match eat 6 Py.isdigit v with
  | Some r1 =>
      match eat 3 Py.isupper r1 with
      | Some r2 => amount_shape r2
      | None => false
      end
  | None => false
  end.

(** Second check: the value of every [:32A:] line. *)
Definition value_issues (lines : list string) : list string :=
  flat_map (fun l =>
              match tag_of l with
              | Some (t, v) =>
                  if String.eqb t ":32A:" && negb (value_32A_shape v)
                  then ["Invalid value in tag :32A:"] else []
              | None => []
              end) lines.

Definition too_long (tag content : string) : list string :=
  if mem tag wrapped_tags && (35 <? String.length content)%nat
  then ["Line longer than 35 characters in tag " +:+ tag] else [].

(** Third check: the lines of the wrapped fields. [cur] is the tag of the
    field the line belongs to; on the line that starts a field the tag
    itself is not counted. *)
Fixpoint length_issues (cur : option string) (lines : list string)
  : list string :=
  match lines with
  | [] => []
  | l :: rest =>
      match tag_of l with
      | Some (t, content) => too_long t content ++ length_issues (Some t) rest
      | None =>
          match cur with
          | Some t => too_long t l
          | None => []
          end ++ length_issues cur rest
      end
  end.

Definition count (t : string) (tags : list string) : nat :=
  length (filter (fun x => String.eqb t x = true) tags).

(** Position of a tag in the fixed order. *)
Fixpoint position (t : string) (order : list string) : option nat :=
  match order with
  | [] => None
  | x :: rest => if String.eqb t x then Some O else S <$> position t rest
  end.

Fixpoint ascending (l : list nat) : bool :=
  match l with
  | a :: (b :: _) as rest => (a <=? b)%nat && ascending rest
  | _ => true
  end.

(** Fourth check: no tag twice, and the tags in the fixed order. *)
Definition order_issues (tags : list string) : list string :=
  flat_map (fun t => if (1 <? count t tags)%nat
                     then ["Tag " +:+ t +:+ " appears more than once"]
                     else [])
           field_order
  ++ (if ascending (omap (fun t => position t field_order) tags) then []
      else ["Tags are not in the order :20: :23B: :32A: :50K: :59: :70: :71A:"]).

Definition is_nil {A} (l : list A) : bool :=
  match l with [] => true | _ => false end.

(** No line of [ls] starts a field. *)
Definition no_tag_lines (ls : list string) : bool :=
  forallb (fun l => match tag_of l with None => true | Some _ => false end) ls.

(** The lines of a text after its first. *)
Definition continuation (text : string) : list string :=
  tail (Py.split Py.LF text).

(** Modelled from the spec: the MT103 validator of section 4.4,
    [validate_mt103_text] of [swift_iso_validator], which is not among the
    sources. The four checks run in the order of the section; the text
    is valid exactly when they raise no issue. *)
Definition validate_mt103_text (text : string) : bool * list string :=
  let lines := Py.split Py.LF text in
  let tags := tags_of lines in
  let issues := missing_issues tags ++ value_issues lines
                ++ length_issues None lines ++ order_issues tags in
  (is_nil issues, issues).

(** *** XML text *)

(** The XML library the validator parses with: its documents, and its
    parser, which yields the document of a text or, for a text that is
    not well-formed XML, the description of the failure. *)
Record XmlLibrary : Type := {
  Document : Type;
  parse : string -> Document + string
}.

(** A schema, once read: the violations it finds in a document, each
    with its element path. *)
Definition Schema (X : XmlLibrary) : Type := Document X -> list string.

(** The schema store: the schema a path leads to, or [None] when there
    is no such file or it cannot be read. *)
Definition SchemaStore (X : XmlLibrary) : Type := string -> option (Schema X).

(** Section 4.5 numbers the two stages but does not say when the schema
    reference is resolved: only once stage 1 has succeeded, or before
    the text is parsed. *)
Inductive Resolution : Type := AfterParsing | BeforeParsing.

Section Pain001.
Variable X : XmlLibrary.
Variable store : SchemaStore X.
Variable resolution : Resolution.

Definition schema_not_found {A} (path : string) : Py.Result A :=
  Py.Raise (Py.SchemaNotFoundError ("Schema not found: " +:+ path)).

(** Stage 1: a parse failure is the single issue of an invalid result. *)
Definition stage1 (xml : string)
    (stage2 : Document X -> Py.Result (bool * list string))
  : Py.Result (bool * list string) :=
  match parse X xml with
  | inr failure => Py.Return (false, [failure])
  | inl doc => stage2 doc
  end.

(** Modelled from the spec: the pain.001 validator of section 4.5,
    [validate_pain001_generated] of [swift_iso_validator], which is not
    among the sources. Stage 1 parses; a parse failure is the single
    issue of an invalid result and there is no stage 2. Stage 2 runs
    only when a schema reference is supplied: each violation is one
    issue. A reference that leads to no readable schema raises
    [SchemaNotFoundError], at the moment [resolution] names. *)
Definition validate_pain001_generated (xml : string)
    (schema_ref : option string) : Py.Result (bool * list string) :=
  match schema_ref with
  | None => stage1 xml (fun _ => Py.Return (true, []))
  | Some path =>
      let stage2 (schema : Schema X) (doc : Document X) :=
        let issues := schema doc in Py.Return (is_nil issues, issues) in
      match resolution with
      | BeforeParsing =>
          match store path with
          | None => schema_not_found path
          | Some schema => stage1 xml (stage2 schema)
          end
      | AfterParsing =>
          stage1 xml (fun doc =>
            match store path with
            | None => schema_not_found path
            | Some schema => stage2 schema doc
            end)
      end
  end.
End Pain001.

End SwiftIsoValidator.

(** ** The core behind the interface of the front ends *)

Section Core.
Variable today : SwiftMessages.Date.
Variable fresh_reference : string.
Variable created : string.
Variable X : SwiftIsoValidator.XmlLibrary.
Variable store : SwiftIsoValidator.SchemaStore X.
Variable resolution : SwiftIsoValidator.Resolution.
Variable accounts : list Account.
Variable has_paramiko : bool.

(** The imported functions as the modules above provide them. *)
Definition core : Backend := {|
  Payment := SwiftMessages.Payment;
  payment_from_transaction :=
    SwiftMessages.payment_from_transaction today fresh_reference;
  generate_mt103 := fun p => Py.Return (SwiftMessages.generate_mt103 p);
  generate_pain001 :=
    fun p => Py.Return (SwiftMessages.generate_pain001 created p);
  validate_mt103_text :=
    fun text => Py.Return (SwiftIsoValidator.validate_mt103_text text);
  validate_pain001_generated := fun xml path =>
    match SwiftIsoValidator.validate_pain001_generated X store resolution
            xml (Some path) with
    | Py.Return (v, issues) => Py.Return (v, Some issues)
    | Py.Raise e => Py.Raise e
    end;
  bank_accounts := Py.Return accounts;
  HAS_PARAMIKO := has_paramiko;
  ASSETS_DIR := "assets"
|}.
End Core.

(** ** Sample data *)

Module Sample.

(** The payment of the worked example. *)
Definition payment : SwiftMessages.Payment :=
  {| SwiftMessages.ordering_account := "DE89370400440532013000";
     SwiftMessages.ordering_name := "Acme GmbH";
     SwiftMessages.beneficiary_account := "FR1420041010050500013M02606";
     SwiftMessages.beneficiary_name := "Globex SA";
     SwiftMessages.beneficiary_bic := None;
     SwiftMessages.amount := decimal.Finite false 123456 (-2);
     SwiftMessages.currency := "EUR";
     SwiftMessages.value_date :=
       {| SwiftMessages.year := 2024; SwiftMessages.month := 6;
          SwiftMessages.day := 1 |};
     SwiftMessages.remittance_info := Some "Invoice 123";
     SwiftMessages.reference := "REF001" |}.

Definition today : SwiftMessages.Date :=
  {| SwiftMessages.year := 2024; SwiftMessages.month := 5;
     SwiftMessages.day := 31 |}.

(** A stand-in for the XML library in the examples: it takes a text for
    a document when it opens with [<] and closes with [>]. *)
Definition xml : SwiftIsoValidator.XmlLibrary :=
  {| SwiftIsoValidator.Document := string;
     SwiftIsoValidator.parse := fun text =>
       if String.prefix "<" text && Streamlit.endswith text ">"
       then inl text
       else inr "syntax error: line 1, column 0" |}.

(** A schema store with one schema, which accepts every document. *)
Definition store : SwiftIsoValidator.SchemaStore xml :=
  fun path => if String.eqb path "assets/schemas/pain.001.xsd"
              then Some (fun _ => []) else None.

(** The core with fixed surroundings. *)
Definition backend : Backend :=
  core today "REF-GENERATED" "2024-05-31T12:00:00" xml store
    SwiftIsoValidator.AfterParsing [] true.

(** The raw fields of the worked example as a user types them, with the
    given amount and beneficiary BIC. *)
Definition args (amount : decimal.Decimal) (bic : option string)
  : PaymentArgs :=
  {| account_number := "DE89370400440532013000";
     account_name := "Acme GmbH";
     arg_beneficiary_account := "FR1420041010050500013M02606";
     arg_beneficiary_name := "Globex SA";
     arg_amount := amount;
     arg_currency := "EUR";
     arg_value_date := Some "2024-06-01";
     arg_remittance_info := Some "Invoice 123";
     arg_beneficiary_bic := bic;
     arg_reference := Some "REF001" |}.

(** A window with the form of the worked example filled in. *)
Definition window : Gui.SwiftGUI :=
  foldr (fun '(w, t) g => Gui.set_text w t g)
    (@Gui.init backend "2024-05-31" "No logo")
    [(Gui.ordering_account_edit, "DE89370400440532013000");
     (Gui.ordering_name_edit, "Acme GmbH");
     (Gui.beneficiary_account_edit, "FR1420041010050500013M02606");
     (Gui.beneficiary_name_edit, "Globex SA");
     (Gui.amount_edit_edit, "1234.56");
     (Gui.currency_edit_edit, "EUR");
     (Gui.value_date_edit, "2024-06-01");
     (Gui.remittance_edit, "Invoice 123");
     (Gui.reference_edit_edit, "REF001")].

(** Dialog answers of a user who cancels everything. *)
Definition cancel : Gui.Inputs :=
  {| Gui.file_name := ""; Gui.file_data := Py.Return "";
     Gui.question_answer := Gui.No; Gui.item_choice := ("", false);
     Gui.smtp_host := ("", false); Gui.smtp_user := ("", false);
     Gui.smtp_passwd := ("", false); Gui.smtp_recipient := ("", false);
     Gui.sftp_host := ("", false); Gui.sftp_port := ("", false);
     Gui.sftp_user := ("", false); Gui.sftp_passwd := ("", false);
     Gui.sftp_remote_path := ("", false); Gui.io_failure := None;
     Gui.utcnow := "2024-05-31T12:00:00"; Gui.logo_rendering := "No logo";
     Gui.combo_index := 0%nat |}.

(** The same user, who names a file when asked for one. *)
Definition save_as (name : string) : Gui.Inputs :=
  {| Gui.file_name := name; Gui.file_data := Py.Return "";
     Gui.question_answer := Gui.No; Gui.item_choice := ("", false);
     Gui.smtp_host := ("", false); Gui.smtp_user := ("", false);
     Gui.smtp_passwd := ("", false); Gui.smtp_recipient := ("", false);
     Gui.sftp_host := ("", false); Gui.sftp_port := ("", false);
     Gui.sftp_user := ("", false); Gui.sftp_passwd := ("", false);
     Gui.sftp_remote_path := ("", false); Gui.io_failure := None;
     Gui.utcnow := "2024-05-31T12:00:00"; Gui.logo_rendering := "No logo";
     Gui.combo_index := 0%nat |}.

(** The widgets of a Streamlit run with the form of the worked example:
    the amount as typed, the buttons pressed and the files uploaded. *)
Definition run_with (amount : string) (generate validate send : bool)
    (xsd logo : option (string * string)) : Streamlit.Widgets :=
  {| Streamlit.create_demo := false;
     Streamlit.after_demo := Py.Return [];
     Streamlit.selected_account := "-- Select account --";
     Streamlit.uploaded_xsd := xsd;
     Streamlit.persisted_choice := "-- keep current --";
     Streamlit.logo_file := logo;
     Streamlit.ordering_name := "Acme GmbH";
     Streamlit.ordering_account := "DE89370400440532013000";
     Streamlit.beneficiary_name := "Globex SA";
     Streamlit.beneficiary_account := "FR1420041010050500013M02606";
     Streamlit.beneficiary_bic := "";
     Streamlit.amount_text := amount;
     Streamlit.currency := "EUR";
     Streamlit.value_date := "2024-06-01";
     Streamlit.remittance := "Invoice 123";
     Streamlit.reference := "REF001";
     Streamlit.fmt := "ISO20022 pain.001 (XML)";
     Streamlit.btn_generate := generate;
     Streamlit.btn_validate := validate;
     Streamlit.btn_download := false;
     Streamlit.btn_send_mock := send;
     Streamlit.override_checkbox := false;
     Streamlit.send_method := "Log locally";
     Streamlit.smtp_host := "smtp.example.com:587";
     Streamlit.smtp_user := ""; Streamlit.smtp_pass := "";
     Streamlit.recipient := "";
     Streamlit.send_email_now := false;
     Streamlit.sftp_host := ""; Streamlit.sftp_port := 22;
     Streamlit.sftp_user := ""; Streamlit.sftp_pass := "";
     Streamlit.remote_path := "/upload/message.txt";
     Streamlit.upload_now := false;
     Streamlit.io_failure := None;
     Streamlit.utcnow := "2024-05-31T12:00:00";
     Streamlit.now_stamp := "20240531120000" |}.

(** No button pressed. *)
Definition widgets : Streamlit.Widgets :=
  run_with "1234.56" false false false None None.

(** A payment that meets every constraint of the data model and whose
    ordering name reads like the start of a field. *)
Definition tagged_name : SwiftMessages.Payment :=
  {| SwiftMessages.ordering_account := "DE89370400440532013000";
     SwiftMessages.ordering_name := ":20:X";
     SwiftMessages.beneficiary_account := "FR1420041010050500013M02606";
     SwiftMessages.beneficiary_name := "Globex SA";
     SwiftMessages.beneficiary_bic := Some "DEUTDEFF";
     SwiftMessages.amount := decimal.Finite false 123456 (-2);
     SwiftMessages.currency := "EUR";
     SwiftMessages.value_date :=
       {| SwiftMessages.year := 2024; SwiftMessages.month := 6;
          SwiftMessages.day := 1 |};
     SwiftMessages.remittance_info := None;
     SwiftMessages.reference := "REF001" |}.

(** The payment of the worked example under another reference. *)
Definition referenced (reference : string) : SwiftMessages.Payment :=
  {| SwiftMessages.ordering_account := "DE89370400440532013000";
     SwiftMessages.ordering_name := "Acme GmbH";
     SwiftMessages.beneficiary_account := "FR1420041010050500013M02606";
     SwiftMessages.beneficiary_name := "Globex SA";
     SwiftMessages.beneficiary_bic := None;
     SwiftMessages.amount := decimal.Finite false 123456 (-2);
     SwiftMessages.currency := "EUR";
     SwiftMessages.value_date :=
       {| SwiftMessages.year := 2024; SwiftMessages.month := 6;
          SwiftMessages.day := 1 |};
     SwiftMessages.remittance_info := Some "Invoice 123";
     SwiftMessages.reference := reference |}.

(** The raw fields of the worked example with an ordering account of 36
    characters. *)
Definition long_account : PaymentArgs :=
  {| account_number := "DE8937040044053201300000000000000000";
     account_name := "Acme GmbH";
     arg_beneficiary_account := "FR1420041010050500013M02606";
     arg_beneficiary_name := "Globex SA";
     arg_amount := decimal.Finite false 123456 (-2);
     arg_currency := "EUR";
     arg_value_date := Some "2024-06-01";
     arg_remittance_info := Some "Invoice 123";
     arg_beneficiary_bic := None;
     arg_reference := Some "REF001" |}.

(** A fresh session on an empty disk. *)
Definition fresh : Streamlit.World :=
  {| Streamlit.session_state := ∅;
     Streamlit.fs := {| Streamlit.files := ∅; Streamlit.dirs := ∅ |} |}.

(** A session that holds an XML preview and the verdict of an earlier
    validation, after the schema it was validated against has gone. *)
Definition stale : Streamlit.World :=
  {| Streamlit.session_state :=
       <["preview_content" := Streamlit.VStr "<Document/>"]>
         (<["last_format" := Streamlit.VStr "XML"]>
            (<["validation_result" :=
                 Streamlit.VDict {| valid := true; errors := [] |}]>
               (<["schema_path" := Streamlit.VStr "assets/schemas/gone.xsd"]>
                  (<["logo_path" := Streamlit.VNone]> ∅))));
     Streamlit.fs := {| Streamlit.files := ∅; Streamlit.dirs := ∅ |} |}.

(** A run in which only the given buttons are pressed. *)
Definition press (generate validate send : bool) : Streamlit.Widgets :=
  run_with "1234.56" generate validate send None None.

(** A run in which a schema and a logo are uploaded. *)
Definition uploads : Streamlit.Widgets :=
  run_with "1234.56" false false false
    (Some ("pain.001.xsd", "<xs:schema/>")) (Some ("logo.png", "PNG")).

End Sample.

(** ** The build helper ([build_dist.py]) *)

Module BuildDist.

Definition APP_NAME : string := "swift_alliance_gui".
Definition ENTRY_SCRIPT : string := "swift_alliance_gui.py".
Definition LOGO_FILENAMES : list string :=
  ["swift_logo.png"; "swift_logo.svg"; "swift_logo.jpg"].

(** What the script prints or does to the outside world. *)
Inductive Effect : Type :=
| Print (text : string)
| Call (args : list string)
| Copy2 (src dst : string).

(** The surroundings of one run: the directory of the script's assets,
    [os.pathsep], which paths exist before [PyInstaller] runs and which
    after it has run, whether [PyInstaller] can be imported, what
    [subprocess.call] returns and the exception, if any, that
    [shutil.copy2] raises. *)
Record Env : Type := {
  ASSETS_DIR : string;
  pathsep : string;
  path_exists : string -> bool;
  path_exists_built : string -> bool;
  has_pyinstaller : bool;
  call_result : Z;
  copy_failure : option Py.Exn
}.

(** The loop of [find_logo] over the candidate names: the path of the
    first one that exists. *)
Fixpoint first_existing (exists_ : string -> bool) (dir : string)
    (names : list string) : option string :=
  match names with
  | [] => None
  | fname :: rest =>
      let path := Gui.path_join dir fname in
      if exists_ path then Some path else first_existing exists_ dir rest
  end.

(** [find_logo], with [os.path.exists] as it answers when the function
    is called. *)
Definition find_logo (exists_ : string -> bool) (dir : string)
  : option string :=
  first_existing exists_ dir LOGO_FILENAMES.

(** [if not logo_path] *)
Definition no_logo (logo_path : option string) : bool :=
  negb (Py.truthy_opt logo_path).

(** A run of a function that may leave through [sys.exit]: its effects and
    the exit code, if it exited. *)
Definition Run : Type := list Effect * option Z.

(** The arguments handed to [subprocess.call]. *)
Definition pyinstaller_args (env : Env) : list string :=
  ["pyinstaller"; "--noconfirm"; "--name"; APP_NAME; "--onedir";
   "--add-data"; ASSETS_DIR env +:+ pathsep env +:+ "assets"; ENTRY_SCRIPT].

Definition build_with_pyinstaller (env : Env) : Run :=
  if negb (has_pyinstaller env) then
    ([Print "PyInstaller not found. Install with: pip install pyinstaller"],
     Some 1)
  else
    let logo_path := find_logo (path_exists env) (ASSETS_DIR env) in
    let found :=
      if no_logo logo_path then
        Print "Warning: No logo found in assets/. You should add swift_logo.png or swift_logo.svg to ./assets/"
      else Print ("Found logo: " +:+ default "" logo_path) in
    let ret := call_result env in
    if negb (ret =? 0)%Z then
      ([found; Print "Running PyInstaller..."; Call (pyinstaller_args env);
        Print "PyInstaller failed."], Some ret)
    else
      ([found; Print "Running PyInstaller..."; Call (pyinstaller_args env);
        Print ("Build completed. Dist folder available at ./dist/" +:+ APP_NAME)],
       None).

(** [os.path.join("dist", APP_NAME, name)] *)
Definition in_dist (name : string) : string :=
  Gui.path_join (Gui.path_join "dist" APP_NAME) name.

(** [extract_logo_to_dist]; it runs after the build. *)
Definition extract_logo_to_dist (env : Env) : list Effect :=
  let logo_path := find_logo (path_exists_built env) (ASSETS_DIR env) in
  if no_logo logo_path then
    [Print "No logo to extract; skipping extraction step."]
  else if negb (path_exists_built env (in_dist "assets")) then
    [Print "Dist assets folder not found; build may have failed or different layout used."]
  else
    let src := default "" logo_path in
    let dst := in_dist (Gui.basename src) in
    match copy_failure env with
    | None => [Copy2 src dst; Print ("Copied logo to: " +:+ dst)]
    | Some e => [Print ("Failed to copy logo to dist: " +:+ Py.str_exn e)]
    end.

Definition main (env : Env) : Run :=
  let '(built, exit) := build_with_pyinstaller env in
  match exit with
  | Some code => (built, Some code)
  | None =>
      (built ++ extract_logo_to_dist env
       ++ [Print "Build helper finished. Please verify the distribution and contained assets."],
       None)
  end.

Definition is_copy (e : Effect) : bool :=
  match e with Copy2 _ _ => true | _ => false end.

Definition is_call (e : Effect) : bool :=
  match e with Call _ => true | _ => false end.

End BuildDist.

(** ** The Streamlit wrapper ([run_streamlit_wrapper.py]) *)

Module Wrapper.

(** [BASE_DIR = os.path.dirname(__file__) or os.getcwd()] *)
Definition BASE_DIR (script_dir cwd : string) : string :=
  Py.or_str script_dir cwd.

(** [if BASE_DIR not in sys.path: sys.path.insert(0, BASE_DIR)] *)
Definition ensure_on_path (base : string) (sys_path : list string)
  : list string :=
  if bool_decide (base ∈ sys_path) then sys_path else base :: sys_path.

End Wrapper.

(** ** Vocabulary of the further properties *)

(** The relation between two states of which the second satisfies [P]
    whenever the first does. *)
Definition carries {S : Type} (P : S -> Prop) : S -> S -> Prop :=
  fun s s' => P s -> P s'.

(** The relation between any state and a state that satisfies [Q]. *)
Definition reaches {S : Type} (Q : S -> Prop) : S -> S -> Prop :=
  fun _ s' => Q s'.

(** The status label and the issue list agree with the stored result. *)
Definition label_agrees (g : Gui.SwiftGUI) : Prop :=
  (valid (Gui.last_validation_result g) = true <->
   fst (Gui.validation_status_label g) = "Validation status: VALID")
  /\ (valid (Gui.last_validation_result g) = true ->
      Gui.validation_list g = "No validation issues found.").

(** The schema attribute and its label go together, and the attribute is
    never the empty string. *)
Definition schema_shown (g : Gui.SwiftGUI) : Prop :=
  match Gui.schema_path g with
  | None => Gui.schema_label g = "No schema selected"
  | Some p => Py.truthy p = true /\ Gui.schema_label g = Gui.basename p
  end.

(** The schema setting of the window: the path and what the label shows. *)
Definition schema_setting (g : Gui.SwiftGUI) : option string * string :=
  (Gui.schema_path g, Gui.schema_label g).

(** What an event does to the schema setting: nothing, unless it is a
    click on the schema button answered with a file name, which becomes
    the path and whose base name the label shows. *)
Definition schema_after (ev : Gui.Event) (g : Gui.SwiftGUI)
  : option string * string :=
  match ev with
  | Gui.Fire Gui.schema_select_btn_clicked i =>
      if Py.truthy (Gui.file_name i)
      then (Some (Gui.file_name i), Gui.basename (Gui.file_name i))
      else schema_setting g
  | _ => schema_setting g
  end.

(** The error box of [on_generate]. *)
Definition is_error_box (e : Gui.Effect) : bool :=
  match e with
  | Gui.MessageBox Gui.Critical "Error" _ => true
  | _ => false
  end.

(** The question [on_send] asks before it sends a message that is not
    valid. *)
Definition is_question (e : Gui.Effect) : bool :=
  match e with
  | Gui.MessageBox Gui.Question _ _ => true
  | _ => false
  end.

(** The entry [on_send] and the Streamlit send branch append to the log. *)
Definition log_entry (now content : string) : string :=
  "----- " +:+ now +:+ " -----" +:+ Py.nl +:+ content +:+ Py.nl +:+ Py.nl.

(** The body of the mail both front ends send. *)
Definition mail_body (content : string) : string :=
  "Subject: SWIFT Message" +:+ Py.nl +:+ Py.nl +:+ content.

(** An effect of the window that writes or sends something carries the
    given message: written as it is in text mode, appended to the log as
    an entry, sent as the body of the mail, or uploaded as it is. *)
Definition carries_message (content now : string) (e : Gui.Effect) : Prop :=
  match e with
  | Gui.WriteFile path mode data =>
      (mode = "w" /\ data = content)
      \/ (mode = "a" /\ path = "swift_send_log.txt"
          /\ data = log_entry now content)
  | Gui.Sendmail _ _ _ _ _ msg => msg = mail_body content
  | Gui.SftpPut _ _ _ _ _ data => data = content
  | _ => True
  end.

(** The same for an effect of the Streamlit script, which may also offer
    the message for download. *)
Definition carries_preview (content now : string) (e : Streamlit.Effect)
  : Prop :=
  match e with
  | Streamlit.WriteFile path mode data =>
      mode = "a" /\ path = "swift_send_log.txt"
      /\ data = log_entry now content
  | Streamlit.Sendmail _ _ _ _ _ msg => msg = mail_body content
  | Streamlit.SftpPut _ _ _ _ _ data => data = content
  | Streamlit.DownloadButton data _ => data = content
  | _ => True
  end.


(** No key of the first world is missing in the second. *)
Definition keeps_keys (w w' : Streamlit.World) : Prop :=
  forall k, is_Some (Streamlit.session_state w !! k) ->
            is_Some (Streamlit.session_state w' !! k).

(** The session state holds the key. *)
Definition has_key (k : string) (w : Streamlit.World) : Prop :=
  is_Some (Streamlit.session_state w !! k).

(** The optional keyword arguments of a call of the builder. *)
Definition optional_args (a : PaymentArgs) : list (option string) :=
  [arg_value_date a; arg_remittance_info a; arg_beneficiary_bic a;
   arg_reference a].

(** An argument is either absent or a non-empty text without white space
    around it. *)
Definition clean (o : option string) : Prop :=
  match o with
  | Some v => Py.truthy v = true /\ Py.strip v = v
  | None => True
  end.

(** From a state that satisfies [I], the handler ends in a state that
    satisfies [I] and every effect of it satisfies [P]. *)
Definition maintains {S E A : Type} (I : S -> Prop) (P : E -> Prop)
    (m : Eff.Handler S E A) : Prop :=
  forall s, I s -> I (Eff.state_of (m s)) /\ Forall P (Eff.effects_of (m s)).

(** The preview the session state holds is the given text. *)
Definition previews (content : string) (w : Streamlit.World) : Prop :=
  Streamlit.get_str w "preview_content" "" = content.

(** Some payment for which a generator of the backend returned the text. *)
Definition generated `{B : Backend} (text : string) : Prop :=
  exists payment,
    generate_mt103 payment = Py.Return text
    \/ generate_pain001 payment = Py.Return text.

(** The preview is empty or holds a generated text. *)
Definition preview_generated `{B : Backend} (g : Gui.SwiftGUI) : Prop :=
  Gui.preview g = "" \/ generated (Gui.preview g).

(** A transport effect carries a generated text. *)
Definition carries_generated `{B : Backend} (e : Gui.Effect) : Prop :=
  Gui.is_transport e = true ->
  exists text now, generated text /\ carries_message text now e.

(** The path is the directory joined with a name without a slash. *)
Definition directly_in (dir path : string) : Prop :=
  exists name, Py.free_of "/" name = true /\ path = Gui.path_join dir name.

(** What the window writes is written in binary mode, to a file directly
    in its assets directory. *)
Definition copies_into_assets `{B : Backend} (e : Gui.Effect) : Prop :=
  match e with
  | Gui.WriteFile path mode _ => mode = "wb" /\ directly_in ASSETS_DIR path
  | _ => True
  end.

(** What the script writes is written in binary mode, to a file directly
    in its assets directory or in the schema directory below it. *)
Definition stores_in_assets `{B : Backend} (e : Streamlit.Effect) : Prop :=
  match e with
  | Streamlit.WriteFile path mode _ =>
      mode = "wb"
      /\ (directly_in ASSETS_DIR path
          \/ directly_in (Gui.path_join ASSETS_DIR "schemas") path)
  | _ => True
  end.

(** ** Further sample data *)

Module Scenario.

(** The session of [Sample.stale] on a disk where the schema file exists
    but is no schema the validator can read. *)
Definition unreadable : Streamlit.World :=
  {| Streamlit.session_state := Streamlit.session_state Sample.stale;
     Streamlit.fs :=
       {| Streamlit.files := {["assets/schemas/gone.xsd" := "<xs:schema/>"]};
          Streamlit.dirs := ∅ |} |}.

(** Dialog answers of a user who accepts every dialog of the send
    action, with the given choice of method. *)
Definition accept (choice : string) : Gui.Inputs :=
  {| Gui.file_name := "out.txt"; Gui.file_data := Py.Return "";
     Gui.question_answer := Gui.Yes; Gui.item_choice := (choice, true);
     Gui.smtp_host := ("smtp.example.com:587", true);
     Gui.smtp_user := ("ops", true);
     Gui.smtp_passwd := ("secret", true);
     Gui.smtp_recipient := ("desk@example.com", true);
     Gui.sftp_host := ("sftp.example.com", true);
     Gui.sftp_port := (" 22 ", true);
     Gui.sftp_user := ("ops", true);
     Gui.sftp_passwd := ("secret", true);
     Gui.sftp_remote_path := ("/upload/message.txt", true);
     Gui.io_failure := None;
     Gui.utcnow := "2024-05-31T12:00:00";
     Gui.logo_rendering := "No logo"; Gui.combo_index := 0%nat |}.

(** The window after an MT103 message was generated and found valid, the
    format was switched to XML and a schema file was selected that the
    validator cannot find. *)
Definition switched : Gui.SwiftGUI :=
  fst (@Gui.run Sample.backend
         [Gui.Check_ true;
          Gui.Fire Gui.btn_generate_clicked Sample.cancel;
          Gui.Check_ false;
          Gui.Fire Gui.schema_select_btn_clicked
            (Sample.save_as "assets/schemas/gone.xsd")]
         Sample.window).

(** Surroundings of a build in which [PyInstaller] succeeds and the SVG
    logo is the only logo in the assets. *)
Definition build : BuildDist.Env :=
  {| BuildDist.ASSETS_DIR := "assets";
     BuildDist.pathsep := ":";
     BuildDist.path_exists := fun p => String.eqb p "assets/swift_logo.svg";
     BuildDist.path_exists_built := fun p =>
       String.eqb p "assets/swift_logo.svg"
       || String.eqb p "dist/swift_alliance_gui/assets";
     BuildDist.has_pyinstaller := true;
     BuildDist.call_result := 0;
     BuildDist.copy_failure := None |}.

(** A run in which the message is mailed although it is not valid: the
    send button is pressed, the override box ticked, the method is
    "Email (SMTP)" and 'Send email now' is pressed. *)
Definition mail : Streamlit.Widgets :=
  {| Streamlit.create_demo := false;
     Streamlit.after_demo := Py.Return [];
     Streamlit.selected_account := "-- Select account --";
     Streamlit.uploaded_xsd := None;
     Streamlit.persisted_choice := "-- keep current --";
     Streamlit.logo_file := None;
     Streamlit.ordering_name := "Acme GmbH";
     Streamlit.ordering_account := "DE89370400440532013000";
     Streamlit.beneficiary_name := "Globex SA";
     Streamlit.beneficiary_account := "FR1420041010050500013M02606";
     Streamlit.beneficiary_bic := "";
     Streamlit.amount_text := "1234.56";
     Streamlit.currency := "EUR";
     Streamlit.value_date := "2024-06-01";
     Streamlit.remittance := "Invoice 123";
     Streamlit.reference := "REF001";
     Streamlit.fmt := "ISO20022 pain.001 (XML)";
     Streamlit.btn_generate := false;
     Streamlit.btn_validate := false;
     Streamlit.btn_download := false;
     Streamlit.btn_send_mock := true;
     Streamlit.override_checkbox := true;
     Streamlit.send_method := "Email (SMTP)";
     Streamlit.smtp_host := "smtp.example.com:587";
     Streamlit.smtp_user := "ops"; Streamlit.smtp_pass := "secret";
     Streamlit.recipient := "desk@example.com";
     Streamlit.send_email_now := true;
     Streamlit.sftp_host := ""; Streamlit.sftp_port := 22;
     Streamlit.sftp_user := ""; Streamlit.sftp_pass := "";
     Streamlit.remote_path := "/upload/message.txt";
     Streamlit.upload_now := false;
     Streamlit.io_failure := None;
     Streamlit.utcnow := "2024-05-31T12:00:00";
     Streamlit.now_stamp := "20240531120000" |}.

(** A session on a disk where the schema directory holds one schema, a
    file that is none and a directory named like a schema, and another
    directory holds another schema. *)
Definition shelf : Streamlit.World :=
  {| Streamlit.session_state := Streamlit.session_state Sample.stale;
     Streamlit.fs :=
       {| Streamlit.files :=
            {["assets/schemas/pain.001.xsd" := "<xs:schema/>";
              "assets/schemas/notes.txt" := "to do";
              "assets/old/pain.008.xsd" := "<xs:schema/>"]};
          Streamlit.dirs :=
            {["assets"; "assets/schemas"; "assets/schemas/archive.xsd"]} |} |}.

(** A run in which the given account is picked in the box of the
    accounts, the given name in the box of the persisted schemas, and
    nothing else is done. *)
Definition pick (account name : string) : Streamlit.Widgets :=
  {| Streamlit.create_demo := false;
     Streamlit.after_demo := Py.Return [];
     Streamlit.selected_account := account;
     Streamlit.uploaded_xsd := None;
     Streamlit.persisted_choice := name;
     Streamlit.logo_file := None;
     Streamlit.ordering_name := "";
     Streamlit.ordering_account := "";
     Streamlit.beneficiary_name := "";
     Streamlit.beneficiary_account := "";
     Streamlit.beneficiary_bic := "";
     Streamlit.amount_text := "0.00";
     Streamlit.currency := "USD";
     Streamlit.value_date := "2024-05-31";
     Streamlit.remittance := "";
     Streamlit.reference := "";
     Streamlit.fmt := "ISO20022 pain.001 (XML)";
     Streamlit.btn_generate := false;
     Streamlit.btn_validate := false;
     Streamlit.btn_download := false;
     Streamlit.btn_send_mock := false;
     Streamlit.override_checkbox := false;
     Streamlit.send_method := "Log locally";
     Streamlit.smtp_host := "smtp.example.com:587";
     Streamlit.smtp_user := ""; Streamlit.smtp_pass := "";
     Streamlit.recipient := "";
     Streamlit.send_email_now := false;
     Streamlit.sftp_host := ""; Streamlit.sftp_port := 22;
     Streamlit.sftp_user := ""; Streamlit.sftp_pass := "";
     Streamlit.remote_path := "/upload/message.txt";
     Streamlit.upload_now := false;
     Streamlit.io_failure := None;
     Streamlit.utcnow := "2024-05-31T12:00:00";
     Streamlit.now_stamp := "20240531120000" |}.

(** A run in which only a persisted schema is picked. *)
Definition choose (name : string) : Streamlit.Widgets :=
  pick "-- Select account --" name.

(** A ledger with two accounts of one customer: a balance with three
    decimals, and a balance beyond the precision of the context. *)
Definition ledger : list Account :=
  [ {| acc_number := "ACC-2"; acc_type := "savings";
       acc_balance := decimal.Finite false 1 30;
       acc_currency := "EUR"; acc_customer_id := "C-1";
       acc_customer := Some ("Ada", "Lovelace") |};
    {| acc_number := "ACC-1"; acc_type := "checking";
       acc_balance := decimal.Finite false 1234565 (-3);
       acc_currency := "USD"; acc_customer_id := "C-1";
       acc_customer := Some ("Ada", "Lovelace") |} ].

(** The backend of the samples over that ledger. *)
Definition banked : Backend :=
  {| Payment := @Payment Sample.backend;
     payment_from_transaction := @payment_from_transaction Sample.backend;
     generate_mt103 := @generate_mt103 Sample.backend;
     generate_pain001 := @generate_pain001 Sample.backend;
     validate_mt103_text := @validate_mt103_text Sample.backend;
     validate_pain001_generated := @validate_pain001_generated Sample.backend;
     bank_accounts := Py.Return ledger;
     HAS_PARAMIKO := true;
     ASSETS_DIR := "assets" |}.
(** The configuration on disk names a logo. *)
Definition with_logo : gmap string Streamlit.Value :=
  Streamlit.settings Streamlit.VNone (Streamlit.VStr "assets/logo.png").


End Scenario.

(** * Properties *)

(** ** Numbers as text *)

(** [int] skips its own white space only, takes single underscores
    between digits and converts at most 4300 digits. *)
Example int_examples :
  Num.int_of_str " 22 " = Some 22
  /\ Num.int_of_str "-0_7" = Some (-7)
  /\ Num.int_of_str (String (ascii_of_N 160) "22") = Some 22
  /\ Num.int_of_str (String (ascii_of_N 28) "22") = None
  /\ Num.int_of_str "2 2" = None
  /\ Num.int_of_str "22_" = None
  /\ Num.int_of_str (SwiftMessages.zeros 4300) = Some 0
  /\ Num.int_of_str (SwiftMessages.zeros 4301) = None
  /\ Gui.py_int "5 87"
     = Py.Raise (Py.ValueError "invalid literal for int() with base 10: '5 87'")
  /\ Gui.py_int (String "'" (String (ascii_of_N 9) ""))
     = Py.Raise (Py.ValueError
         (String.append "invalid literal for int() with base 10: "
            (String Py.QUOTE (String "'" (String "\" (String "t"
               (String Py.QUOTE ""))))))).
Proof. vm_compute. repeat split. Qed.

(** [Decimal] converts a text exactly or not at all; [str] and
    [quantize] follow the default context. *)
Example decimal_examples :
  decimal.of_string "1234.56" = Some (decimal.Finite false 123456 (-2))
  /\ decimal.of_string "1e999999999999999999"
     = Some (decimal.Finite false 1 999999999999999999)
  /\ decimal.of_string "1e1000000000000000000" = None
  /\ decimal.of_string "10e999999999999999999" = None
  /\ decimal.of_string "0e-1999999999999999998" = None
  /\ decimal.to_str (decimal.Finite true 5 (-3)) = "-0.005"
  /\ decimal.to_str (decimal.Finite false 5 (-8)) = "5E-8"
  /\ decimal.to_str (decimal.Finite false 12 3) = "1.2E+4"
  /\ decimal.quantize2 (decimal.Finite false 1234565 (-3))
     = Py.Return (decimal.Finite false 123456 (-2))
  /\ decimal.quantize2 (decimal.Finite false 1234575 (-3))
     = Py.Return (decimal.Finite false 123458 (-2))
  /\ decimal.format_2f (decimal.Finite false 1 30)
     = "1000000000000000000000000000000.00".
Proof. vm_compute. repeat split. Qed.


(** ** Reasoning about handlers *)

Section HandlerLogic.
Context {S E : Type}.
Implicit Types R : S -> S -> Prop.
Implicit Types P : E -> Prop.

Lemma preserves_ret R `{!Reflexive R} {A} (a : A) :
  Eff.preserves R (Eff.ret (E := E) a).
Proof. intros s. reflexivity. Qed.

Lemma preserves_get R `{!Reflexive R} :
  Eff.preserves R (Eff.get (S := S) (E := E)).
Proof. intros s. reflexivity. Qed.

Lemma preserves_emit R `{!Reflexive R} (e : E) :
  Eff.preserves R (Eff.emit (S := S) e).
Proof. intros s. reflexivity. Qed.

Lemma preserves_raise R `{!Reflexive R} {A} (e : Py.Exn) :
  Eff.preserves R (Eff.raise (S := S) (E := E) (A := A) e).
Proof. intros s. reflexivity. Qed.

Lemma preserves_lift R `{!Reflexive R} {A} (r : Py.Result A) :
  Eff.preserves R (Eff.lift (S := S) (E := E) r).
Proof. intros s. reflexivity. Qed.

Lemma preserves_modify R (f : S -> S) :
  (forall s, R s (f s)) -> Eff.preserves R (Eff.modify (E := E) f).
Proof. intros H s. apply H. Qed.

Lemma preserves_bind R `{!Transitive R} {A B}
    (m : Eff.Handler S E A) (k : A -> Eff.Handler S E B) :
  Eff.preserves R m -> (forall a, Eff.preserves R (k a)) ->
  Eff.preserves R (Eff.bind m k).
Proof.
  intros Hm Hk s. unfold Eff.bind. specialize (Hm s).
  destruct (m s) as [[[a|e] s1] es1]; simpl in *; [|exact Hm].
  specialize (Hk a s1). destruct (k a s1) as [[r s2] es2]; simpl in *.
  by etrans.
Qed.

Lemma preserves_when R `{!Reflexive R} (b : bool) (m : Eff.Handler S E unit) :
  Eff.preserves R m -> Eff.preserves R (Eff.when b m).
Proof. destruct b; [done|]. intros _. by apply preserves_ret. Qed.

Lemma preserves_try_except R `{!Transitive R} {A}
    (m : Eff.Handler S E A) (h : Py.Exn -> Eff.Handler S E A) :
  Eff.preserves R m -> (forall e, Eff.preserves R (h e)) ->
  Eff.preserves R (Eff.try_except m h).
Proof.
  intros Hm Hh s. unfold Eff.try_except. specialize (Hm s).
  destruct (m s) as [[[a|e] s1] es1]; simpl in *; [exact Hm|].
  destruct e;
    lazymatch goal with
    | |- context [h ?e s1] =>
        specialize (Hh e s1); destruct (h e s1) as [[r s2] es2];
        simpl in *; by etrans
    | |- _ => exact Hm
    end.
Qed.

Lemma preserves_try_except_schema R `{!Transitive R} {A}
    (m : Eff.Handler S E A) (h : Py.Exn -> Eff.Handler S E A) :
  Eff.preserves R m -> (forall e, Eff.preserves R (h e)) ->
  Eff.preserves R (Eff.try_except_schema m h).
Proof.
  intros Hm Hh s. unfold Eff.try_except_schema. specialize (Hm s).
  destruct (m s) as [[[a|e] s1] es1]; simpl in *; [exact Hm|].
  destruct e; try exact Hm.
  specialize (Hh (Py.SchemaNotFoundError msg) s1).
  destruct (h _ s1) as [[r s2] es2]; simpl in *; by etrans.
Qed.

Lemma emits_ret P {A} (a : A) : Eff.emits P (Eff.ret (S := S) a).
Proof. intros s. constructor. Qed.

Lemma emits_get P : Eff.emits P (Eff.get (S := S)).
Proof. intros s. constructor. Qed.

Lemma emits_emit P (e : E) : P e -> Eff.emits P (Eff.emit (S := S) e).
Proof. intros H s. by repeat constructor. Qed.

Lemma emits_raise P {A} (e : Py.Exn) :
  Eff.emits P (Eff.raise (S := S) (A := A) e).
Proof. intros s. constructor. Qed.

Lemma emits_lift P {A} (r : Py.Result A) : Eff.emits P (Eff.lift (S := S) r).
Proof. intros s. constructor. Qed.

Lemma emits_modify P (f : S -> S) : Eff.emits P (Eff.modify f).
Proof. intros s. constructor. Qed.

Lemma emits_bind P {A B}
    (m : Eff.Handler S E A) (k : A -> Eff.Handler S E B) :
  Eff.emits P m -> (forall a, Eff.emits P (k a)) ->
  Eff.emits P (Eff.bind m k).
Proof.
  intros Hm Hk s. unfold Eff.bind. specialize (Hm s).
  destruct (m s) as [[[a|e] s1] es1]; simpl in *; [|exact Hm].
  specialize (Hk a s1). destruct (k a s1) as [[r s2] es2]; simpl in *.
  by apply Forall_app.
Qed.

Lemma emits_when P (b : bool) (m : Eff.Handler S E unit) :
  Eff.emits P m -> Eff.emits P (Eff.when b m).
Proof. destruct b; [done|]. intros _. apply emits_ret. Qed.

Lemma emits_try_except P {A}
    (m : Eff.Handler S E A) (h : Py.Exn -> Eff.Handler S E A) :
  Eff.emits P m -> (forall e, Eff.emits P (h e)) ->
  Eff.emits P (Eff.try_except m h).
Proof.
  intros Hm Hh s. unfold Eff.try_except. specialize (Hm s).
  destruct (m s) as [[[a|e] s1] es1]; simpl in *; [exact Hm|].
  destruct e;
    lazymatch goal with
    | |- context [h ?e s1] =>
        specialize (Hh e s1); destruct (h e s1) as [[r s2] es2];
        simpl in *; by apply Forall_app
    | |- _ => exact Hm
    end.
Qed.

Lemma emits_try_except_schema P {A}
    (m : Eff.Handler S E A) (h : Py.Exn -> Eff.Handler S E A) :
  Eff.emits P m -> (forall e, Eff.emits P (h e)) ->
  Eff.emits P (Eff.try_except_schema m h).
Proof.
  intros Hm Hh s. unfold Eff.try_except_schema. specialize (Hm s).
  destruct (m s) as [[[a|e] s1] es1]; simpl in *; [exact Hm|].
  destruct e; try exact Hm.
  specialize (Hh (Py.SchemaNotFoundError msg) s1).
  destruct (h _ s1) as [[r s2] es2]; simpl in *; by apply Forall_app.
Qed.
Lemma returns_ret {A} (a : A) : Eff.returns (Eff.ret (S := S) (E := E) a).
Proof. intros s. by exists a. Qed.

Lemma returns_get : Eff.returns (Eff.get (S := S) (E := E)).
Proof. intros s. by exists s. Qed.

Lemma returns_emit (e : E) : Eff.returns (Eff.emit (S := S) e).
Proof. intros s. by exists tt. Qed.

Lemma returns_modify (f : S -> S) : Eff.returns (Eff.modify (E := E) f).
Proof. intros s. by exists tt. Qed.

Lemma returns_bind {A B}
    (m : Eff.Handler S E A) (k : A -> Eff.Handler S E B) :
  Eff.returns m -> (forall a, Eff.returns (k a)) ->
  Eff.returns (Eff.bind m k).
Proof.
  intros Hm Hk s. unfold Eff.bind. destruct (Hm s) as [a Ha].
  destruct (m s) as [[r s1] es1]; simpl in *; subst r.
  destruct (Hk a s1) as [b Hb].
  destruct (k a s1) as [[r s2] es2]; simpl in *. by exists b.
Qed.

Lemma returns_when (b : bool) (m : Eff.Handler S E unit) :
  Eff.returns m -> Eff.returns (Eff.when b m).
Proof. destruct b; [done|]. intros _. apply returns_ret. Qed.
End HandlerLogic.

(** One step of a frame proof: the rule for the construct at the head of
    the handler, or a case split on what it branches on. *)
Ltac frame_step :=
  lazymatch goal with
  | |- Eff.preserves _ (Eff.bind _ _) =>
      apply preserves_bind; [apply _| |intros ?]
  | |- Eff.preserves _ (Eff.ret _) => apply preserves_ret, _
  | |- Eff.preserves _ Eff.get => apply preserves_get, _
  | |- Eff.preserves _ (Eff.emit _) => apply preserves_emit, _
  | |- Eff.preserves _ (Eff.raise _) => apply preserves_raise, _
  | |- Eff.preserves _ (Eff.lift _) => apply preserves_lift, _
  | |- Eff.preserves _ (Eff.modify _) => apply preserves_modify; intros ?
  | |- Eff.preserves _ (Eff.when _ _) => apply preserves_when; [apply _|]
  | |- Eff.preserves _ (Eff.try_except _ _) =>
      apply preserves_try_except; [apply _| |intros ?]
  | |- Eff.preserves _ (Eff.try_except_schema _ _) =>
      apply preserves_try_except_schema; [apply _| |intros ?]
  | |- Eff.returns (Eff.bind _ _) => apply returns_bind; [|intros ?]
  | |- Eff.returns (Eff.ret _) => apply returns_ret
  | |- Eff.returns Eff.get => apply returns_get
  | |- Eff.returns (Eff.emit _) => apply returns_emit
  | |- Eff.returns (Eff.modify _) => apply returns_modify
  | |- Eff.returns (Eff.when _ _) => apply returns_when
  | |- Eff.emits _ (Eff.bind _ _) => apply emits_bind; [|intros ?]
  | |- Eff.emits _ (Eff.ret _) => apply emits_ret
  | |- Eff.emits _ Eff.get => apply emits_get
  | |- Eff.emits _ (Eff.emit _) => apply emits_emit
  | |- Eff.emits _ (Eff.raise _) => apply emits_raise
  | |- Eff.emits _ (Eff.lift _) => apply emits_lift
  | |- Eff.emits _ (Eff.modify _) => apply emits_modify
  | |- Eff.emits _ (Eff.when _ _) => apply emits_when
  | |- Eff.emits _ (Eff.try_except _ _) => apply emits_try_except; [|intros ?]
  | |- Eff.emits _ (Eff.try_except_schema _ _) =>
      apply emits_try_except_schema; [|intros ?]
  | |- _ (if ?b then _ else _) => destruct b
  | |- _ (match ?x with _ => _ end) => destruct x
  | |- _ (let '(_, _) := ?x in _) => destruct x
  end.

Global Instance keeps_refl {S T} (f : S -> T) : Reflexive (Eff.keeps f).
Proof. by intros s. Qed.

Global Instance keeps_trans {S T} (f : S -> T) : Transitive (Eff.keeps f).
Proof. unfold Eff.keeps. intros s1 s2 s3 H1 H2. congruence. Qed.

(** ** The window: what each slot leaves alone *)

Section GuiFrame.
Context `{B : Backend}.

Abbreviation verdict := (Eff.keeps Gui.last_validation_result).

Lemma namespace_on_validate_clicked :
  Gui.class_namespace !! "on_validate_clicked"
  = Some Gui.def_on_validate_clicked_415.
Proof. reflexivity. Qed.

Lemma slot_validate i :
  Gui.slot Gui.btn_validate_clicked i = Gui.on_validate_clicked_pass.
Proof. reflexivity. Qed.

Lemma load_accounts_verdict : Eff.preserves verdict Gui._load_accounts.
Proof. unfold Gui._load_accounts. repeat frame_step; done. Qed.

Lemma on_account_changed_verdict n :
  Eff.preserves verdict (Gui.on_account_changed n).
Proof. unfold Gui.on_account_changed. repeat frame_step; done. Qed.

Lemma on_save_verdict i : Eff.preserves verdict (Gui.on_save i).
Proof.
  unfold Gui.on_save, Gui.write_file. repeat frame_step; done.
Qed.

Lemma ask_verdict title label answer k :
  (forall t, Eff.preserves verdict (k t)) ->
  Eff.preserves verdict (Gui.ask title label answer k).
Proof. intros Hk. unfold Gui.ask. repeat frame_step; auto. Qed.

Lemma send_via_smtp_verdict i content :
  Eff.preserves verdict (Gui._send_via_smtp i content).
Proof.
  unfold Gui._send_via_smtp.
  repeat (apply ask_verdict; intros ?). repeat frame_step; done.
Qed.

Lemma send_via_sftp_verdict i content :
  Eff.preserves verdict (Gui._send_via_sftp i content).
Proof.
  unfold Gui._send_via_sftp. frame_step; [frame_step|].
  repeat (apply ask_verdict; intros ?). repeat frame_step; done.
Qed.

Lemma on_send_verdict i : Eff.preserves verdict (Gui.on_send i).
Proof.
  unfold Gui.on_send, Gui.write_file.
  repeat first
    [ apply send_via_smtp_verdict | apply send_via_sftp_verdict
    | frame_step ]; done.
Qed.

Lemma select_schema_file_verdict i :
  Eff.preserves verdict (Gui.select_schema_file i).
Proof. unfold Gui.select_schema_file. repeat frame_step; done. Qed.

Lemma on_load_logo_verdict i : Eff.preserves verdict (Gui.on_load_logo i).
Proof.
  unfold Gui.on_load_logo, Gui._load_logo_preview, Gui.write_file.
  repeat frame_step; done.
Qed.

(** Every event but a click on [Generate Preview] leaves the stored
    validation result as it was. *)
Lemma step_verdict ev :
  Gui.is_generate ev = false -> Eff.preserves verdict (Gui.step ev).
Proof.
  destruct ev as [s i|w t|mt]; simpl.
  - destruct s; intros Hs; try discriminate Hs.
    + apply load_accounts_verdict.
    + apply on_load_logo_verdict.
    + apply select_schema_file_verdict.
    + rewrite slot_validate. apply preserves_ret, _.
    + apply on_save_verdict.
    + apply on_send_verdict.
    + change (Eff.preserves verdict
                (Eff.bind Eff.get (fun g => Gui.on_account_changed
                   (mjoin (snd <$> Gui.account_combo g !! Gui.combo_index i))))).
      repeat frame_step. apply on_account_changed_verdict.
  - intros _. by apply preserves_modify.
  - intros _. by apply preserves_modify.
Qed.

Lemma run_verdict evs g :
  forallb (fun ev => negb (Gui.is_generate ev)) evs = true ->
  Gui.last_validation_result (fst (Gui.run evs g))
  = Gui.last_validation_result g.
Proof.
  revert g. induction evs as [|ev evs IH]; intros g Hevs; [done|].
  simpl in Hevs. apply andb_prop in Hevs as [Hev Hevs].
  apply negb_true_iff in Hev.
  pose proof (step_verdict ev Hev g) as Hstep. simpl.
  destruct (Gui.step ev g) as [[r g1] es1]; simpl in *.
  specialize (IH g1 Hevs).
  destruct (Gui.run evs g1) as [g2 es2]; simpl in *.
  unfold Eff.keeps in Hstep. congruence.
Qed.
End GuiFrame.

(** C7. In the PyQt window the name [on_validate_clicked] is bound twice in
    the class body and the later binding, whose body is [pass], is the one
    the 'Validate Now' button is connected to: a click leaves the whole
    window, the stored validation result, the status label and the issue
    list included, exactly as it was and shows nothing. No event other than
    a click on 'Generate Preview' changes the stored result that gates
    sending, so after any sequence of such events it is still the one the
    last generation left. *)
Theorem validate_now_does_nothing `{B : Backend}
    (evs : list Gui.Event) (g : Gui.SwiftGUI)
    (Hevs : forallb (fun ev => negb (Gui.is_generate ev)) evs = true) :
  Gui.class_body !! 6%nat = Some ("on_validate_clicked", Gui.def_on_validate_clicked_252)
  /\ Gui.class_body !! 13%nat = Some ("on_validate_clicked", Gui.def_on_validate_clicked_415)
  /\ Gui.class_namespace !! Gui.connected Gui.btn_validate_clicked
     = Some Gui.def_on_validate_clicked_415
  /\ (forall i, Gui.step (Gui.Fire Gui.btn_validate_clicked i) g
                = (Py.Return tt, g, []))
  /\ Gui.last_validation_result (fst (Gui.run evs g))
     = Gui.last_validation_result g.
Proof.
  repeat split; try reflexivity. by apply run_verdict.
Qed.

Lemma validate_now_does_nothing_witness :
  let evs := [Gui.Fire Gui.btn_validate_clicked Sample.cancel;
              Gui.Type_ Gui.amount_edit_edit "99";
              Gui.Fire Gui.btn_send_clicked Sample.cancel] in
  forallb (fun ev => negb (Gui.is_generate ev)) evs = true
  /\ Gui.last_validation_result
       (fst (@Gui.run Sample.backend evs Sample.window))
     = Gui.last_validation_result Sample.window.
Proof.
  split; [reflexivity|].
  apply (@validate_now_does_nothing Sample.backend). reflexivity.
Defined.

(** ** Stripping *)

Lemma lstrip_blank s : Py.all Py.isspace s = true -> Py.lstrip s = "".
Proof.
  induction s as [|c s IH]; simpl; [done|].
  intros [Hc Hs]%andb_prop. rewrite Hc. auto.
Qed.

Lemma lstrip_head s c r :
  Py.lstrip s = String c r -> Py.isspace c = false.
Proof.
  induction s as [|c' s IH]; simpl; [done|].
  destruct (Py.isspace c') eqn:Hc'; [done|]. by intros [= -> _].
Qed.

Lemma lstrip_not_blank s :
  Py.all Py.isspace s = false -> Py.lstrip s <> "".
Proof.
  induction s as [|c s IH]; simpl; [done|].
  destruct (Py.isspace c); simpl; [done|]. by intros _.
Qed.

Lemma rstrip_head c r :
  Py.isspace c = false -> exists r', Py.rstrip (String c r) = String c r'.
Proof.
  intros Hc. simpl. destruct (Py.rstrip r); [rewrite Hc|]; eauto.
Qed.

Lemma rstrip_idem s : Py.rstrip (Py.rstrip s) = Py.rstrip s.
Proof.
  induction s as [|c s IH]; simpl; [done|].
  destruct (Py.rstrip s) as [|c' r] eqn:Hr.
  - destruct (Py.isspace c) eqn:Hc; simpl; [done|]. by rewrite Hc.
  - simpl in *. by rewrite IH.
Qed.

Lemma strip_blank s :
  Py.strip s = (if Py.all Py.isspace s then "" else Py.strip s)
  /\ (Py.all Py.isspace s = false -> Py.truthy (Py.strip s) = true).
Proof.
  unfold Py.strip. destruct (Py.all Py.isspace s) eqn:Hs.
  - by rewrite lstrip_blank.
  - split; [done|]. intros _.
    destruct (Py.lstrip s) as [|c r] eqn:Hl.
    + by apply lstrip_not_blank in Hs.
    + apply lstrip_head in Hl as Hc.
      by destruct (rstrip_head c r Hc) as [r' ->].
Qed.

Lemma strip_idem s : Py.strip (Py.strip s) = Py.strip s.
Proof.
  unfold Py.strip. destruct (Py.lstrip s) as [|c r] eqn:Hl; [done|].
  apply lstrip_head in Hl.
  destruct (rstrip_head c r Hl) as [r' Hr]. rewrite Hr.
  simpl Py.lstrip. rewrite Hl, <- Hr. apply rstrip_idem.
Qed.

(** What [text.strip() or "USD"] is. *)
Lemma strip_or_USD s :
  Py.or_str (Py.strip s) "USD"
  = if Py.all Py.isspace s then "USD" else Py.strip s.
Proof.
  unfold Py.or_str. destruct (strip_blank s) as [H1 H2].
  destruct (Py.all Py.isspace s).
  - by rewrite H1.
  - by rewrite H2.
Qed.

(** C8, as amended. Whenever one of the two front ends calls the Payment
    builder, the currency it passes is "USD" when the currency field is
    empty or holds only whitespace, and otherwise the content of the field
    with its leading and trailing whitespace removed; removing it once more
    changes nothing, so a field without such whitespace is passed as it
    is. *)
Theorem currency_passed_to_builder `{B : Backend}
    (g : Gui.SwiftGUI) (i : Streamlit.Widgets) (w : Streamlit.World)
    (a b : decimal.Decimal)
    (Hg : decimal.of_string (Py.strip (Gui.amount_edit g)) = Some a)
    (Hi : decimal.of_string (Py.strip (Streamlit.amount_text i)) = Some b) :
  Gui._collect_payment g = payment_from_transaction (Gui.payment_args g a)
  /\ arg_currency (Gui.payment_args g a)
     = (if Py.all Py.isspace (Gui.currency_edit g) then "USD"
        else Py.strip (Gui.currency_edit g))
  /\ Eff.result_of (Streamlit._build_payment_dict i w)
     = Py.bind (payment_from_transaction (Streamlit.payment_args i b))
               (fun p => Py.Return (Some p))
  /\ arg_currency (Streamlit.payment_args i b)
     = (if Py.all Py.isspace (Streamlit.currency i) then "USD"
        else Py.strip (Streamlit.currency i))
  /\ (forall s, Py.strip (Py.strip s) = Py.strip s).
Proof.
  repeat split.
  - unfold Gui._collect_payment. by rewrite Hg.
  - apply strip_or_USD.
  - unfold Streamlit._build_payment_dict. rewrite Hi.
    unfold Eff.bind, Eff.lift, Eff.result_of.
    by destruct (payment_from_transaction _).
  - apply strip_or_USD.
  - apply strip_idem.
Qed.

Lemma currency_passed_to_builder_witness :
  arg_currency (Gui.payment_args
                  (Gui.set_text Gui.currency_edit_edit "   " Sample.window)
                  (decimal.Finite false 123456 (-2))) = "USD"
  /\ arg_currency (Streamlit.payment_args Sample.widgets
                     (decimal.Finite false 123456 (-2))) = "EUR".
Proof.
  destruct (@currency_passed_to_builder Sample.backend
              (Gui.set_text Gui.currency_edit_edit "   " Sample.window)
              Sample.widgets Sample.fresh
              (decimal.Finite false 123456 (-2))
              (decimal.Finite false 123456 (-2))
              eq_refl eq_refl) as (_ & Hg & _ & Hi & _).
  split; [exact Hg | exact Hi].
Defined.

(** C8 as stated fails: a currency field that is not blank but carries
    whitespace around the code is not passed through unchanged. *)
Lemma padded_currency_is_not_passed_unchanged :
  let g := Gui.set_text Gui.currency_edit_edit " EUR" Sample.window in
  Py.all Py.isspace (Gui.currency_edit g) = false
  /\ arg_currency (Gui.payment_args g (decimal.Finite false 123456 (-2)))
     = "EUR"
  /\ arg_currency (Gui.payment_args g (decimal.Finite false 123456 (-2)))
     <> Gui.currency_edit g.
Proof. repeat split. discriminate. Qed.

(** ** Generation without a schema *)

(** C3. When an XML preview is generated and no schema is configured, the
    caller itself records an invalid result with one explanatory issue. In
    the PyQt window: the preview is the generated document, the stored
    result is invalid with the issue "No pain.001 XSD selected...", the
    status label reads INVALID. In the Streamlit script: the preview is
    stored and the validation result in the session state is invalid with
    the issue "No schema uploaded for validation.". *)
Theorem no_schema_records_invalid `{B : Backend}
    (g : Gui.SwiftGUI) (payment : Payment) (xml : string)
    (i : Streamlit.Widgets) (w : Streamlit.World)
    (payment' : Payment) (xml' : string)
    (Hfmt : Gui.format_group g <> 0)
    (Hpay : Gui._collect_payment g = Py.Return payment)
    (Hxml : generate_pain001 payment = Py.Return xml)
    (Hschema : Py.truthy_opt (Gui.schema_path g) = false)
    (Hfmt' : Py.startswith (Streamlit.fmt i) "ISO20022" = true)
    (Hpay' : Streamlit._build_payment_dict i w
             = (Py.Return (Some payment'), w, []))
    (Hxml' : generate_pain001 payment' = Py.Return xml')
    (Hschema' : Streamlit.value_truthy
                  (Streamlit.dict_get (Streamlit.session_state w) "schema_path")
                = false) :
  let g' := Eff.state_of (Gui.on_generate g) in
  let w' := Eff.state_of (Streamlit.generate_branch i w) in
  Gui.preview g' = xml
  /\ Gui.last_validation_result g'
     = {| valid := false;
          errors := ["No pain.001 XSD selected. Please select an XSD to validate."] |}
  /\ fst (Gui.validation_status_label g') = "Validation status: INVALID"
  /\ Eff.result_of (Gui.on_generate g) = Py.Return tt
  /\ Streamlit.session_state w' !! "preview_content" = Some (Streamlit.VStr xml')
  /\ Streamlit.session_state w' !! "validation_result"
     = Some (Streamlit.VDict
               {| valid := false;
                  errors := ["No schema uploaded for validation."] |})
  /\ Eff.result_of (Streamlit.generate_branch i w) = Py.Return tt.
Proof.
  assert (Z.eqb (Gui.format_group g) 0 = false) as Hz by by apply Z.eqb_neq.
  unfold Gui.on_generate, Streamlit.generate_branch, Eff.try_except,
    Eff.bind, Eff.lift, Eff.get, Eff.modify, Eff.emit, Eff.state_of,
    Eff.result_of, Gui._set_validation_result, Streamlit.set_result.
  rewrite Hpay, Hz, Hxml, Hpay', Hfmt', Hxml'. simpl.
  rewrite Hschema. simpl.
  assert (Streamlit.dict_get
            (<["last_format":=Streamlit.VStr "XML"]>
               (<["preview_content":=Streamlit.VStr xml']>
                  (Streamlit.session_state w))) "schema_path"
          = Streamlit.dict_get (Streamlit.session_state w) "schema_path")
    as ->.
  { unfold Streamlit.dict_get. by rewrite !lookup_insert_ne. }
  rewrite Hschema'. simpl.
  repeat split.
  - by rewrite lookup_insert_ne, lookup_insert_ne, lookup_insert_eq.
  - by rewrite lookup_insert_eq.
Qed.

Lemma no_schema_records_invalid_witness :
  Gui.last_validation_result
    (Eff.state_of (@Gui.on_generate Sample.backend Sample.window))
  = {| valid := false;
       errors := ["No pain.001 XSD selected. Please select an XSD to validate."] |}
  /\ Streamlit.session_state
       (Eff.state_of
          (@Streamlit.generate_branch Sample.backend Sample.widgets Sample.fresh))
     !! "validation_result"
     = Some (Streamlit.VDict
               {| valid := false;
                  errors := ["No schema uploaded for validation."] |}).
Proof.
  destruct (@no_schema_records_invalid Sample.backend
              Sample.window Sample.payment
              (SwiftMessages.generate_pain001 "2024-05-31T12:00:00" Sample.payment)
              Sample.widgets Sample.fresh Sample.payment
              (SwiftMessages.generate_pain001 "2024-05-31T12:00:00" Sample.payment))
    as (_ & Hg & _ & _ & _ & Hw & _).
  - discriminate.
  - reflexivity.
  - reflexivity.
  - reflexivity.
  - reflexivity.
  - reflexivity.
  - reflexivity.
  - reflexivity.
  - split; [exact Hg | exact Hw].
Defined.

(** ** The send gate *)

(** C1, as amended. In the send action of either front end no transport
    runs while the last stored validation result is invalid unless the
    user confirms the override: in the PyQt window a transport effect of
    [on_send] implies that the question was shown first and answered Yes,
    and on any other answer the window is unchanged and nothing but the
    question (or the nothing-to-send warning) is shown; in the Streamlit
    script a transport effect of the send branch implies that the override
    box was ticked, and otherwise the run stops with the world unchanged
    and nothing shown (or warns that there is nothing to send). *)
Theorem send_is_gated `{B : Backend}
    (i : Gui.Inputs) (g : Gui.SwiftGUI)
    (j : Streamlit.Widgets) (w : Streamlit.World)
    (Hg : valid (Gui.last_validation_result g) = false)
    (Hw : valid (Streamlit.get_result w) = false) :
  let question :=
    Gui.MessageBox Gui.Question "Validation failed"
      ("Message is not valid. Sending may be rejected by partners."
       +:+ Py.nl +:+ "Do you want to override and continue?") in
  (Gui.question_answer i = Gui.No ->
     Gui.on_send i g = (Py.Return tt, g, [question])
     \/ Gui.on_send i g
        = (Py.Return tt, g,
           [Gui.MessageBox Gui.Warning "Nothing to send"
              "Generate a message first."]))
  /\ (existsb Gui.is_transport (Eff.effects_of (Gui.on_send i g)) = true ->
      Gui.question_answer i = Gui.Yes
      /\ head (Eff.effects_of (Gui.on_send i g)) = Some question)
  /\ (Streamlit.override_checkbox j = false ->
      Streamlit.send_branch j w = (Py.Raise Py.StopException, w, [])
      \/ Streamlit.send_branch j w
         = (Py.Return tt, w,
            [Streamlit.St Streamlit.warning
               "Nothing to send. Generate a preview first."]))
  /\ (existsb Streamlit.is_transport
        (Eff.effects_of (Streamlit.send_branch j w)) = true ->
      Streamlit.override_checkbox j = true).
Proof.
  intros question.
  assert (Hno : Gui.question_answer i = Gui.No ->
     Gui.on_send i g = (Py.Return tt, g, [question])
     \/ Gui.on_send i g
        = (Py.Return tt, g,
           [Gui.MessageBox Gui.Warning "Nothing to send"
              "Generate a message first."])).
  { intros Hans. unfold Gui.on_send, Eff.bind, Eff.get, Eff.emit, Eff.ret.
    rewrite Hg, Hans. destruct (Py.truthy (Gui.preview g)); simpl; auto. }
  assert (Hstop : Streamlit.override_checkbox j = false ->
      Streamlit.send_branch j w = (Py.Raise Py.StopException, w, [])
      \/ Streamlit.send_branch j w
         = (Py.Return tt, w,
            [Streamlit.St Streamlit.warning
               "Nothing to send. Generate a preview first."])).
  { intros Hbox.
    unfold Streamlit.send_branch, Eff.bind, Eff.get, Eff.emit, Eff.raise.
    rewrite Hw, Hbox.
    destruct (Py.truthy (Streamlit.get_str w "preview_content" ""));
      simpl; auto. }
  split; [exact Hno|]. split; [|split; [exact Hstop|]].
  - intros Ht. destruct (Gui.question_answer i) eqn:Hans.
    + split; [done|]. revert Ht.
      unfold Gui.on_send, Eff.bind, Eff.get, Eff.emit, Eff.ret, Eff.effects_of.
      rewrite Hg, Hans.
      destruct (Py.truthy (Gui.preview g)); simpl; [|done].
      match goal with
      | |- context [match ?x with (_, _) => _ end] => by destruct x as [[? ?] ?]
      end.
    + destruct (Hno eq_refl) as [H|H]; by rewrite H in Ht.
  - intros Ht. destruct (Streamlit.override_checkbox j); [done|].
    destruct (Hstop eq_refl) as [H|H]; by rewrite H in Ht.
Qed.

Lemma send_is_gated_witness :
  let g := Eff.state_of (@Gui.on_generate Sample.backend Sample.window) in
  let w := Eff.state_of
             (@Streamlit.generate_branch Sample.backend Sample.widgets
                Sample.fresh) in
  valid (Gui.last_validation_result g) = false
  /\ valid (Streamlit.get_result w) = false
  /\ Eff.state_of (@Gui.on_send Sample.backend Sample.cancel g) = g
  /\ existsb Gui.is_transport
       (Eff.effects_of (@Gui.on_send Sample.backend Sample.cancel g)) = false
  /\ @Streamlit.send_branch Sample.backend Sample.widgets w
     = (Py.Raise Py.StopException, w, []).
Proof.
  intros g w.
  destruct (@send_is_gated Sample.backend Sample.cancel g Sample.widgets w
              eq_refl eq_refl) as (Hno & _ & Hstop & _).
  split; [reflexivity|]. split; [reflexivity|].
  destruct (Hno eq_refl) as [H|H]; [|discriminate H].
  destruct (Hstop eq_refl) as [H'|H']; [|discriminate H'].
  rewrite H, H'. by repeat split.
Defined.

(** C1 as stated fails: the 'Save Message' button of the PyQt window
    writes the previewed message to a file while the stored validation
    result is invalid, and asks for no confirmation. *)
Lemma save_message_is_not_gated :
  let g := Eff.state_of (@Gui.on_generate Sample.backend Sample.window) in
  valid (Gui.last_validation_result g) = false
  /\ Eff.effects_of
       (@Gui.step Sample.backend
          (Gui.Fire Gui.btn_save_clicked (Sample.save_as "out.xml")) g)
     = [Gui.FileDialog "Save Message";
        Gui.WriteFile "out.xml" "w" (Gui.preview g);
        Gui.ShowMessage "Saved to out.xml" 5000]
  /\ Gui.is_transport (Gui.WriteFile "out.xml" "w" (Gui.preview g)) = true.
Proof. repeat split. Qed.

(** ** The Streamlit script: what each part leaves alone *)

Section StreamlitFrame.
Context `{B : Backend}.
Variable config : gmap string Streamlit.Value.
Variable i : Streamlit.Widgets.

Abbreviation same_verdict := (Eff.keeps Streamlit.verdict).

Lemma set_item_verdict k v w :
  k <> "validation_result" ->
  Eff.keeps Streamlit.verdict w (Streamlit.set_item k v w).
Proof.
  intros Hk. unfold Eff.keeps, Streamlit.verdict, Streamlit.set_item. simpl.
  by rewrite lookup_insert_ne.
Qed.

Lemma setdefault_verdict k v :
  k <> "validation_result" ->
  Eff.preserves same_verdict (Streamlit.setdefault k v).
Proof.
  intros Hk. unfold Streamlit.setdefault. repeat frame_step.
  by apply set_item_verdict.
Qed.

Lemma write_file_verdict path mode data :
  Eff.preserves same_verdict (Streamlit.write_file path mode data).
Proof. unfold Streamlit.write_file. repeat frame_step; done. Qed.

Lemma save_config_verdict :
  Eff.preserves same_verdict Streamlit.save_config_from_session.
Proof. unfold Streamlit.save_config_from_session. repeat frame_step. Qed.

Lemma load_settings_verdict :
  Eff.preserves same_verdict (Streamlit.load_settings config).
Proof.
  unfold Streamlit.load_settings.
  repeat first [ by apply setdefault_verdict | frame_step ]; done.
Qed.

Lemma accounts_panel_verdict :
  Eff.preserves same_verdict (Streamlit.accounts_panel i).
Proof. unfold Streamlit.accounts_panel. repeat frame_step. Qed.

Lemma schema_panel_verdict :
  Eff.preserves same_verdict (Streamlit.schema_panel i).
Proof.
  unfold Streamlit.schema_panel.
  repeat first
    [ apply write_file_verdict | apply save_config_verdict
    | by apply set_item_verdict | frame_step ]; done.
Qed.

Lemma logo_panel_verdict :
  Eff.preserves same_verdict (Streamlit.logo_panel i).
Proof.
  unfold Streamlit.logo_panel.
  repeat first
    [ apply write_file_verdict | apply save_config_verdict
    | by apply set_item_verdict | frame_step ]; done.
Qed.

(** The session defaults set a verdict only where there is none. *)
Lemma compose_panel_verdict w v :
  Streamlit.verdict w = Some v ->
  Streamlit.verdict (Eff.state_of (Streamlit.compose_panel w)) = Some v.
Proof.
  unfold Streamlit.compose_panel, Streamlit.setdefault, Streamlit.verdict,
    Eff.state_of, Eff.bind, Eff.get, Eff.emit, Eff.modify, Eff.ret.
  intros Hv. simpl.
  repeat (case_match; simpl in *; simplify_eq);
    rewrite ?lookup_insert_ne by done; try done.
  all: try (rewrite lookup_insert_ne in * by done; congruence).
Qed.

Lemma write_issues_verdict k es :
  Eff.preserves same_verdict (Streamlit.write_issues k es).
Proof.
  revert k. induction es as [|e es IH]; intros k; simpl; repeat frame_step.
  apply IH.
Qed.

Lemma display_panel_verdict : Eff.preserves same_verdict Streamlit.display_panel.
Proof.
  unfold Streamlit.display_panel.
  repeat first [ apply write_issues_verdict | frame_step ].
Qed.

Lemma download_branch_verdict :
  Eff.preserves same_verdict (Streamlit.download_branch i).
Proof. unfold Streamlit.download_branch. repeat frame_step. Qed.

Lemma send_branch_verdict :
  Eff.preserves same_verdict (Streamlit.send_branch i).
Proof. unfold Streamlit.send_branch. repeat frame_step; done. Qed.

Lemma footer_verdict : Eff.preserves same_verdict (Streamlit.footer i).
Proof.
  unfold Streamlit.footer.
  repeat first
    [ apply display_panel_verdict | apply download_branch_verdict
    | apply send_branch_verdict | frame_step ].
Qed.

Lemma setdefault_returns k v : Eff.returns (Streamlit.setdefault k v).
Proof. unfold Streamlit.setdefault. repeat frame_step. Qed.

(** The panels return when the accounts panel does: the ledger can be
    read and the balance shown. *)
Lemma panels_returns :
  Eff.returns (Streamlit.accounts_panel i) ->
  Eff.returns (Streamlit.panels config i).
Proof.
  intros Hacc.
  unfold Streamlit.panels, Streamlit.load_settings,
    Streamlit.schema_panel, Streamlit.logo_panel, Streamlit.compose_panel,
    Streamlit.write_file, Streamlit.save_config_from_session.
  repeat first [ apply setdefault_returns | exact Hacc | frame_step ].
Qed.

(** A verdict in the session state survives the panels. *)
Lemma panels_verdict w v :
  Streamlit.verdict w = Some v ->
  Streamlit.verdict (Eff.state_of (Streamlit.panels config i w)) = Some v.
Proof.
  intros Hv.
  assert (Eff.preserves same_verdict
            (Eff.bind (Streamlit.load_settings config) (fun _ =>
             Eff.bind (Streamlit.accounts_panel i) (fun _ =>
             Eff.bind (Streamlit.schema_panel i) (fun _ =>
             Streamlit.logo_panel i))))) as Hpre.
  { repeat first
      [ apply load_settings_verdict | apply accounts_panel_verdict
      | apply schema_panel_verdict | apply logo_panel_verdict | frame_step ]. }
  specialize (Hpre w). unfold Eff.keeps in Hpre.
  unfold Streamlit.panels, Eff.state_of.
  unfold Eff.bind in *.
  destruct (Streamlit.load_settings config w) as [[[[]|e0] w0] es0];
    simpl in *; [|congruence].
  destruct (Streamlit.accounts_panel i w0) as [[[[]|e1] w1] es1];
    simpl in *; [|congruence].
  destruct (Streamlit.schema_panel i w1) as [[[[]|e2] w2] es2];
    simpl in *; [|congruence].
  destruct (Streamlit.logo_panel i w2) as [[[[]|e3] w3] es3];
    simpl in *; [|congruence].
  pose proof (compose_panel_verdict w3 v) as Hc.
  unfold Eff.state_of in Hc.
  destruct (Streamlit.compose_panel w3) as [[r4 w4] es4]; simpl in *.
  apply Hc. congruence.
Qed.
End StreamlitFrame.

(** ** Manual validation without a schema *)

(** C9. In a run of the Streamlit script in which 'Validate Current
    Preview' is pressed (and 'Generate Preview' is not), the preview is
    XML, and the schema path in the session state is unset or names no
    file on disk, the validate branch only shows the error "No persisted
    schema...": it changes nothing in the session state or on disk. The
    validation result stored before the run is still the stored result
    after the whole run, so the verdict that gates sending is the old
    one; and the error is among what the run shows whenever the run gets
    as far as the buttons, that is, when the panels above them return. *)
Theorem manual_validation_without_schema `{B : Backend}
    (config : gmap string Streamlit.Value) (i : Streamlit.Widgets)
    (w w1 : Streamlit.World) (v : Streamlit.Value)
    (Hgen : Streamlit.btn_generate i = false)
    (Hval : Streamlit.btn_validate i = true)
    (Hv : Streamlit.verdict w = Some v)
    (Hw1 : w1 = Eff.state_of (Streamlit.panels config i w))
    (Hcontent : Py.truthy (Streamlit.get_str w1 "preview_content" "") = true)
    (Hxml : Streamlit.dict_get (Streamlit.session_state w1) "last_format"
            = Streamlit.VStr "XML")
    (Hschema :
       Streamlit.value_truthy
         (Streamlit.dict_get (Streamlit.session_state w1) "schema_path") = false
       \/ Streamlit.path_exists (Streamlit.fs w1)
            (Streamlit.str_or_None
               (Streamlit.dict_get (Streamlit.session_state w1) "schema_path"))
          = false) :
  let shown :=
    Streamlit.St Streamlit.error
      "No persisted schema. Upload a pain.001 XSD on the left to validate XML." in
  Streamlit.validate_branch w1 = (Py.Return tt, w1, [shown])
  /\ Streamlit.verdict (Eff.state_of (Streamlit.script config i w)) = Some v
  /\ (Eff.result_of (Streamlit.panels config i w) = Py.Return tt ->
      shown ∈ Eff.effects_of (Streamlit.script config i w))
  /\ Streamlit.get_result (Eff.state_of (Streamlit.script config i w))
     = Streamlit.get_result w.
Proof.
  intros shown.
  assert (Hbranch : Streamlit.validate_branch w1 = (Py.Return tt, w1, [shown])).
  { unfold Streamlit.validate_branch, Eff.bind, Eff.get, Eff.emit.
    rewrite Hcontent, Hxml. simpl.
    destruct Hschema as [-> | ->]; simpl; [done|].
    by rewrite orb_true_r. }
  assert (Hv1 : Streamlit.verdict w1 = Some v).
  { subst w1. by apply panels_verdict. }
  pose proof (footer_verdict i w1) as Hfoot. unfold Eff.keeps in Hfoot.
  assert (Hrun :
            Streamlit.verdict (Eff.state_of (Streamlit.script config i w))
            = Some v
            /\ (Eff.result_of (Streamlit.panels config i w) = Py.Return tt ->
                shown ∈ Eff.effects_of (Streamlit.script config i w))).
  { unfold Streamlit.script, Eff.bind, Eff.state_of, Eff.effects_of,
      Eff.result_of in *.
    destruct (Streamlit.panels config i w) as [[[[]|e0] w0] es0];
      simpl in *; subst w0.
    - rewrite Hgen, Hval. simpl. unfold Eff.ret. rewrite Hbranch.
      destruct (Streamlit.footer i w1) as [[r2 w2] es2]; simpl in *.
      split; [congruence|]. intros _.
      rewrite elem_of_app, elem_of_cons; auto.
    - split; [exact Hv1|]. intros H. discriminate H. }
  destruct Hrun as [Hv2 Hshown].
  split; [exact Hbranch|]. split; [exact Hv2|]. split; [exact Hshown|].
  unfold Streamlit.get_result. unfold Streamlit.verdict in *.
  by rewrite Hv2, Hv.
Qed.

Lemma manual_validation_without_schema_witness :
  let i := Sample.press false true false in
  Streamlit.verdict Sample.stale
  = Some (Streamlit.VDict {| valid := true; errors := [] |})
  /\ Streamlit.verdict
       (Eff.state_of (@Streamlit.script Sample.backend ∅ i Sample.stale))
     = Some (Streamlit.VDict {| valid := true; errors := [] |})
  /\ Streamlit.St Streamlit.error
       "No persisted schema. Upload a pain.001 XSD on the left to validate XML."
     ∈ Eff.effects_of (@Streamlit.script Sample.backend ∅ i Sample.stale).
Proof.
  intros i. split; [reflexivity|].
  pose proof (@manual_validation_without_schema Sample.backend ∅ i
                Sample.stale _ _ eq_refl eq_refl eq_refl eq_refl
                eq_refl eq_refl (or_intror eq_refl)) as H.
  split; [exact (proj1 (proj2 H))|].
  exact (proj1 (proj2 (proj2 H)) eq_refl).
Defined.

(** ** Persisting the configuration *)

Section SaveConfig.
Context `{B : Backend}.
Variable config : gmap string Streamlit.Value.
Variable i : Streamlit.Widgets.

Lemma selectbox_choice options choice :
  Streamlit.selectbox ("-- keep current --" :: options) choice
  = (if bool_decide (choice ∈ "-- keep current --" :: options) then choice
     else "-- keep current --").
Proof. unfold Streamlit.selectbox. by case_bool_decide. Qed.

(** A file name that ends in [.xsd] is neither empty nor the first
    option of the box. *)
Lemma xsd_name_is_a_choice f :
  Streamlit.endswith (Py.lower f) ".xsd" = true ->
  Py.truthy f = true /\ String.eqb f "-- keep current --" = false.
Proof.
  intros H. split.
  - by destruct f.
  - destruct (String.eqb f "-- keep current --") eqn:Hf; [|done].
    apply String.eqb_eq in Hf. subst f. vm_compute in H. discriminate H.
Qed.

Lemma schema_panel_disk w :
  Streamlit.fs (Eff.state_of (Streamlit.schema_panel i w))
  = match Streamlit.uploaded_xsd i with
    | Some (name, data) =>
        Streamlit.write
          (Gui.path_join (Gui.path_join ASSETS_DIR "schemas")
             (Gui.basename name)) data
          (Streamlit.makedirs (Gui.path_join ASSETS_DIR "schemas")
             (Streamlit.fs w))
    | None => Streamlit.fs w
    end.
Proof.
  unfold Streamlit.schema_panel, Streamlit.save_config_from_session,
    Streamlit.write_file, Eff.bind, Eff.get, Eff.emit, Eff.modify, Eff.ret,
    Eff.state_of.
  destruct (Streamlit.uploaded_xsd i) as [[name data]|]; simpl.
  all: repeat (case_match; simpl in *; simplify_eq); reflexivity.
Qed.

Lemma schema_panel_saved w :
  let schemas_dir := Gui.path_join ASSETS_DIR "schemas" in
  let logo := Streamlit.dict_get (Streamlit.session_state w) "logo_path" in
  let disk := Streamlit.fs (Eff.state_of (Streamlit.schema_panel i w)) in
  Streamlit.saved (Eff.effects_of (Streamlit.schema_panel i w))
  = match Streamlit.uploaded_xsd i with
    | Some (name, _) =>
        [Streamlit.settings
           (Streamlit.VStr (Gui.path_join schemas_dir (Gui.basename name)))
           logo]
    | None => []
    end
    ++ (if Streamlit.isdir disk schemas_dir
           && bool_decide
                (Streamlit.persisted_choice i
                 ∈ filter (fun f => Streamlit.endswith (Py.lower f) ".xsd" = true)
                     (Streamlit.listdir disk schemas_dir))
        then [Streamlit.settings
                (Streamlit.VStr
                   (Gui.path_join schemas_dir (Streamlit.persisted_choice i)))
                logo]
        else []).
Proof.
  intros schemas_dir logo disk. subst disk logo.
  rewrite schema_panel_disk.
  unfold Streamlit.schema_panel, Streamlit.save_config_from_session,
    Streamlit.write_file, Eff.bind, Eff.get, Eff.emit, Eff.modify, Eff.ret,
    Eff.effects_of, Streamlit.saved.
  fold schemas_dir.
  destruct (Streamlit.uploaded_xsd i) as [[name data]|]; simpl.
  all: match goal with
       | |- context [Streamlit.isdir ?f ?d] =>
           destruct (Streamlit.isdir f d) eqn:Hdir; simpl
       end.
  all: match goal with
       | |- context [filter ?p ?l] =>
           remember (filter p l) as available eqn:Hav
       | |- _ => idtac
       end.
  all: rewrite ?selectbox_choice.
  all: unfold Streamlit.settings, Streamlit.dict_get.
  all: try (simpl; by rewrite ?lookup_insert_eq, ?lookup_insert_ne by done).
  all: destruct (decide (Streamlit.persisted_choice i ∈ available)) as [Hin|Hnin].
  all: try (rewrite (bool_decide_true
                       (Streamlit.persisted_choice i
                        ∈ "-- keep current --" :: available)) by set_solver;
            rewrite (bool_decide_true
                       (Streamlit.persisted_choice i ∈ available)) by done;
            destruct available as [|f fs]; [by apply elem_of_nil in Hin|];
            rewrite Hav in Hin; apply list_elem_of_filter in Hin as [Hx _];
            destruct (xsd_name_is_a_choice _ Hx) as [-> ->];
            simpl; by rewrite ?lookup_insert_eq, ?lookup_insert_ne by done).
  all: rewrite (bool_decide_false (Streamlit.persisted_choice i ∈ available))
         by done.
  all: destruct available as [|f fs];
         [simpl; by rewrite ?lookup_insert_eq, ?lookup_insert_ne by done|].
  all: case_bool_decide as Hopt;
         [|simpl; by rewrite ?lookup_insert_eq, ?lookup_insert_ne by done].
  all: apply elem_of_cons in Hopt as [->|Hopt]; [|done].
  all: simpl; by rewrite ?lookup_insert_eq, ?lookup_insert_ne by done.
Qed.

Lemma logo_panel_saved w :
  Streamlit.saved (Eff.effects_of (Streamlit.logo_panel i w))
  = match Streamlit.logo_file i with
    | Some (name, _) =>
        [Streamlit.settings
           (Streamlit.dict_get (Streamlit.session_state w) "schema_path")
           (Streamlit.VStr (Gui.path_join ASSETS_DIR (Gui.basename name)))]
    | None => []
    end.
Proof.
  unfold Streamlit.logo_panel, Streamlit.save_config_from_session,
    Streamlit.write_file, Eff.bind, Eff.get, Eff.emit, Eff.modify, Eff.ret,
    Eff.effects_of, Streamlit.saved, Streamlit.settings, Streamlit.dict_get.
  destruct (Streamlit.logo_file i) as [[name data]|]; simpl; [|done].
  by rewrite ?lookup_insert_eq, ?lookup_insert_ne by done.
Qed.

Lemma save_config_both_keys :
  Eff.emits Streamlit.both_keys Streamlit.save_config_from_session.
Proof.
  unfold Streamlit.save_config_from_session. repeat frame_step.
  unfold Streamlit.both_keys. rewrite !dom_insert_L, dom_empty_L. set_solver.
Qed.

Lemma write_issues_both_keys k es :
  Eff.emits Streamlit.both_keys (Streamlit.write_issues k es).
Proof.
  revert k. induction es as [|e es IH]; intros k; simpl; repeat frame_step;
    [done|]. apply IH.
Qed.

Lemma setdefault_both_keys k v :
  Eff.emits Streamlit.both_keys (Streamlit.setdefault k v).
Proof. unfold Streamlit.setdefault. repeat frame_step. Qed.

(** Whatever the script saves has both keys. *)
Lemma script_both_keys :
  Eff.emits Streamlit.both_keys (Streamlit.script config i).
Proof.
  unfold Streamlit.script, Streamlit.panels, Streamlit.footer,
    Streamlit.load_settings, Streamlit.accounts_panel, Streamlit.schema_panel,
    Streamlit.logo_panel, Streamlit.compose_panel, Streamlit.generate_branch,
    Streamlit.validate_branch, Streamlit.display_panel,
    Streamlit.download_branch, Streamlit.send_branch,
    Streamlit._build_payment_dict, Streamlit.set_result, Streamlit.write_file.
  repeat first
    [ apply save_config_both_keys | apply write_issues_both_keys
    | apply setdefault_both_keys | frame_step ]; done.
Qed.
End SaveConfig.

(** C10, as amended. Every call of [save_config] in the Streamlit
    script passes a dictionary with exactly the keys [schema_path] and
    [logo_path]. The schema panel saves, for an uploaded schema, the path
    of the file in [assets/schemas] under its base name and, for a name
    picked among the [.xsd] entries of that directory, the path of that
    entry, each together with the logo path the session state held on
    entry, and nothing else; the logo panel saves, for an uploaded logo,
    the path of the file in [assets] under its base name together with
    the schema path the session state held on entry, and nothing else.
    The other setting is written as the session state holds it. *)
Theorem save_config_writes_both_settings `{B : Backend}
    (config : gmap string Streamlit.Value) (i : Streamlit.Widgets)
    (w : Streamlit.World) :
  let schemas_dir := Gui.path_join ASSETS_DIR "schemas" in
  let schema := Streamlit.dict_get (Streamlit.session_state w) "schema_path" in
  let logo := Streamlit.dict_get (Streamlit.session_state w) "logo_path" in
  let disk := Streamlit.fs (Eff.state_of (Streamlit.schema_panel i w)) in
  Forall (fun cfg => dom cfg = {["schema_path"; "logo_path"]})
    (Streamlit.saved (Eff.effects_of (Streamlit.script config i w)))
  /\ Streamlit.saved (Eff.effects_of (Streamlit.schema_panel i w))
     = match Streamlit.uploaded_xsd i with
       | Some (name, _) =>
           [Streamlit.settings
              (Streamlit.VStr (Gui.path_join schemas_dir (Gui.basename name)))
              logo]
       | None => []
       end
       ++ (if Streamlit.isdir disk schemas_dir
              && bool_decide
                   (Streamlit.persisted_choice i
                    ∈ filter
                        (fun f => Streamlit.endswith (Py.lower f) ".xsd" = true)
                        (Streamlit.listdir disk schemas_dir))
           then [Streamlit.settings
                   (Streamlit.VStr
                      (Gui.path_join schemas_dir (Streamlit.persisted_choice i)))
                   logo]
           else [])
  /\ Streamlit.saved (Eff.effects_of (Streamlit.logo_panel i w))
     = match Streamlit.logo_file i with
       | Some (name, _) =>
           [Streamlit.settings schema
              (Streamlit.VStr (Gui.path_join ASSETS_DIR (Gui.basename name)))]
       | None => []
       end.
Proof.
  intros schemas_dir schema logo disk.
  split; [|split; [apply schema_panel_saved | apply logo_panel_saved]].
  pose proof (script_both_keys config i w) as H.
  unfold Eff.effects_of, Streamlit.saved.
  induction H as [|e es He Hes IH]; simpl; [constructor|].
  destruct e; simpl; try exact IH. by constructor.
Qed.

(** A schema picked among the persisted ones, and a schema and a logo
    uploaded in one run. *)
Lemma save_config_writes_both_settings_witness :
  Streamlit.saved
    (Eff.effects_of
       (@Streamlit.schema_panel Sample.backend
          (Scenario.choose "pain.001.xsd") Scenario.shelf))
  = [Streamlit.settings (Streamlit.VStr "assets/schemas/pain.001.xsd")
       Streamlit.VNone]
  /\ Streamlit.saved
       (Eff.effects_of
          (@Streamlit.schema_panel Sample.backend
             (Scenario.choose "notes.txt") Scenario.shelf)) = []
  /\ Streamlit.saved
       (Eff.effects_of
          (@Streamlit.schema_panel Sample.backend
             (Scenario.choose "pain.008.xsd") Scenario.shelf)) = []
  /\ Streamlit.saved
       (Eff.effects_of
          (@Streamlit.schema_panel Sample.backend
             (Scenario.choose "archive.xsd") Scenario.shelf))
     = [Streamlit.settings (Streamlit.VStr "assets/schemas/archive.xsd")
          Streamlit.VNone]
  /\ Streamlit.saved
       (Eff.effects_of
          (@Streamlit.script Sample.backend ∅ Sample.uploads Sample.stale))
     = [Streamlit.settings (Streamlit.VStr "assets/schemas/pain.001.xsd")
          Streamlit.VNone;
        Streamlit.settings (Streamlit.VStr "assets/schemas/pain.001.xsd")
          (Streamlit.VStr "assets/logo.png")].
Proof.
  split; [|split; [|split; [|split]]].
  - rewrite (proj1 (proj2 (@save_config_writes_both_settings Sample.backend ∅
                             (Scenario.choose "pain.001.xsd") Scenario.shelf))).
    reflexivity.
  - rewrite (proj1 (proj2 (@save_config_writes_both_settings Sample.backend ∅
                             (Scenario.choose "notes.txt") Scenario.shelf))).
    reflexivity.
  - rewrite (proj1 (proj2 (@save_config_writes_both_settings Sample.backend ∅
                             (Scenario.choose "pain.008.xsd") Scenario.shelf))).
    reflexivity.
  - rewrite (proj1 (proj2 (@save_config_writes_both_settings Sample.backend ∅
                             (Scenario.choose "archive.xsd") Scenario.shelf))).
    reflexivity.
  - reflexivity.
Defined.

(** C10 as stated fails: the session state keeps a key it already holds
    whatever the configuration on disk says (lines 44 to 47), so a session
    that holds no logo, run when the configuration names one, saves an
    uploaded schema together with no logo. *)
Lemma saving_a_schema_clears_the_logo_on_disk :
  let i := Sample.run_with "1234.56" false false false
             (Some ("pain.001.xsd", "<xs:schema/>")) None in
  Streamlit.dict_get Scenario.with_logo "logo_path"
  = Streamlit.VStr "assets/logo.png"
  /\ Streamlit.dict_get (Streamlit.session_state Sample.stale) "logo_path"
     = Streamlit.VNone
  /\ Streamlit.saved
       (Eff.effects_of
          (@Streamlit.script Sample.backend Scenario.with_logo i Sample.stale))
     = [Streamlit.settings (Streamlit.VStr "assets/schemas/pain.001.xsd")
          Streamlit.VNone].
Proof. repeat split. Qed.

(** ** Rejected input *)

(** A four-character code has not the shape of a bank identifier. *)
Lemma bic_shape_length b :
  SwiftMessages.bic_shape b = true ->
  String.length b = 8%nat \/ String.length b = 11%nat.
Proof.
  unfold SwiftMessages.bic_shape.
  intros [[H _]%andb_prop _]%andb_prop.
  apply orb_prop in H as [H|H]; apply Nat.eqb_eq in H; auto.
Qed.

(** The builder either returns a Payment or raises an [InputError]. *)
Lemma builder_raises_InputError today fresh a e :
  SwiftMessages.payment_from_transaction today fresh a = Py.Raise e ->
  exists msg, e = Py.InputError msg.
Proof.
  unfold SwiftMessages.payment_from_transaction.
  repeat case_match; intros [= <-]; eauto.
Qed.

(** What the builder returns satisfies what it checked. *)
Lemma builder_checks today fresh a p :
  SwiftMessages.payment_from_transaction today fresh a = Py.Return p ->
  (exists c e, arg_amount a = decimal.Finite false c e /\ (c <> 0)%N)
  /\ match arg_beneficiary_bic a with
     | Some b => SwiftMessages.bic_shape b = true
     | None => True
     end.
Proof.
  unfold SwiftMessages.payment_from_transaction.
  repeat case_match; intros [= <-]; simplify_eq; split; eauto.
  all: eexists _, _; split; [done|]; by apply N.eqb_neq.
Qed.

(** C6, as amended. An amount of "-5" and a four-character beneficiary BIC
    are rejected by the Payment Model with an [InputError], whatever the
    other fields are, and no Payment is returned. An amount of "abc" does
    not reach the Payment Model: the collector of the PyQt window raises
    [ValueError] and the generate handler shows it and leaves the window
    unchanged; the collector of the Streamlit script shows an error and
    returns [None], and the run stops with the world unchanged. *)
Theorem rejected_input `{B : Backend}
    (today : SwiftMessages.Date) (fresh : string)
    (a a' : PaymentArgs) (bic : string)
    (g : Gui.SwiftGUI) (i : Streamlit.Widgets) (w : Streamlit.World)
    (Hneg : decimal.of_string "-5" = Some (arg_amount a))
    (Hbic : arg_beneficiary_bic a' = Some bic)
    (Hlen : String.length bic = 4%nat)
    (Hg : Gui.amount_edit g = "abc")
    (Hi : Streamlit.amount_text i = "abc") :
  (exists msg, SwiftMessages.payment_from_transaction today fresh a
               = Py.Raise (Py.InputError msg))
  /\ (exists msg, SwiftMessages.payment_from_transaction today fresh a'
                  = Py.Raise (Py.InputError msg))
  /\ Gui._collect_payment g
     = Py.Raise (Py.ValueError "Invalid amount (use numbers like 1234.56)")
  /\ Gui.on_generate g
     = (Py.Return tt, g,
        [Gui.MessageBox Gui.Critical "Error"
           "Invalid amount (use numbers like 1234.56)"])
  /\ Streamlit._build_payment_dict i w
     = (Py.Return None, w,
        [Streamlit.St Streamlit.error "Invalid amount. Use numbers like 1234.56"])
  /\ Streamlit.generate_branch i w
     = (Py.Raise Py.StopException, w,
        [Streamlit.St Streamlit.error "Invalid amount. Use numbers like 1234.56"]).
Proof.
  assert (Hc : Gui._collect_payment g
     = Py.Raise (Py.ValueError "Invalid amount (use numbers like 1234.56)")).
  { unfold Gui._collect_payment. by rewrite Hg. }
  assert (Hb : Streamlit._build_payment_dict i w
     = (Py.Return None, w,
        [Streamlit.St Streamlit.error "Invalid amount. Use numbers like 1234.56"])).
  { unfold Streamlit._build_payment_dict. by rewrite Hi. }
  repeat split.
  - destruct (SwiftMessages.payment_from_transaction today fresh a)
      as [p|e] eqn:Hp.
    + apply builder_checks in Hp as [(c & e & Ha & _) _].
      rewrite Ha in Hneg. discriminate Hneg.
    + destruct (builder_raises_InputError _ _ _ _ Hp) as [msg ->]. eauto.
  - destruct (SwiftMessages.payment_from_transaction today fresh a')
      as [p|e] eqn:Hp.
    + apply builder_checks in Hp as [_ Hs]. rewrite Hbic in Hs.
      apply bic_shape_length in Hs. lia.
    + destruct (builder_raises_InputError _ _ _ _ Hp) as [msg ->]. eauto.
  - exact Hc.
  - unfold Gui.on_generate, Eff.try_except, Eff.bind, Eff.get, Eff.lift.
    by rewrite Hc.
  - exact Hb.
  - unfold Streamlit.generate_branch, Eff.bind. by rewrite Hb.
Qed.

Lemma rejected_input_witness :
  SwiftMessages.payment_from_transaction Sample.today "REF-GENERATED"
    (Sample.args (decimal.Finite true 5 0) None)
  = Py.Raise (Py.InputError "amount must be positive")
  /\ (exists msg,
        SwiftMessages.payment_from_transaction Sample.today "REF-GENERATED"
          (Sample.args (decimal.Finite false 123456 (-2)) (Some "DEUT"))
        = Py.Raise (Py.InputError msg)).
Proof.
  split; [reflexivity|].
  exact (proj1 (proj2 (@rejected_input Sample.backend Sample.today
            "REF-GENERATED" (Sample.args (decimal.Finite true 5 0) None)
            (Sample.args (decimal.Finite false 123456 (-2)) (Some "DEUT"))
            "DEUT"
            (Gui.set_text Gui.amount_edit_edit "abc" Sample.window)
            (Sample.run_with "abc" true false false None None) Sample.fresh
            eq_refl eq_refl eq_refl eq_refl eq_refl))).
Defined.

(** C6 as stated fails for the amount "abc": the Streamlit collector
    raises nothing, it returns [None]; the PyQt collector raises a
    [ValueError], which is no [InputError]; in neither front end is the
    Payment Model called. *)
Lemma abc_raises_no_InputError :
  Eff.result_of
    (@Streamlit._build_payment_dict Sample.backend
       (Sample.run_with "abc" true false false None None) Sample.fresh)
  = Py.Return None
  /\ @Gui._collect_payment Sample.backend
       (Gui.set_text Gui.amount_edit_edit "abc" Sample.window)
     = Py.Raise (Py.ValueError "Invalid amount (use numbers like 1234.56)")
  /\ (forall msg,
        @Gui._collect_payment Sample.backend
          (Gui.set_text Gui.amount_edit_edit "abc" Sample.window)
        <> Py.Raise (Py.InputError msg)).
Proof. repeat split. intros msg. discriminate. Qed.

(** ** The worked example *)

Lemma append_cons c s t : String c s +:+ t = String c (s +:+ t).
Proof. reflexivity. Qed.

Lemma append_nil_l t : "" +:+ t = t.
Proof. reflexivity. Qed.

Lemma append_assoc a b c : (a +:+ b) +:+ c = a +:+ (b +:+ c).
Proof. induction a as [|x a IH]; [done|]. by rewrite !append_cons, IH. Qed.

Lemma contains_append a b p :
  Py.contains b p = true -> Py.contains (a +:+ b) p = true.
Proof.
  intros H. induction a as [|c a IH]; [done|].
  rewrite append_cons. simpl. rewrite IH. apply orb_true_r.
Qed.

(** C5. The raw fields of the worked example build the Payment of the
    example; its MT103 text consists of the nine lines below, among them
    [:32A:240601EUR1234,56] and the [:50K:] line with
    [/DE89370400440532013000] followed by the line [Acme GmbH]; its
    pain.001 document, whatever the creation timestamp, contains
    [<InstdAmt Ccy="EUR">1234.56</InstdAmt>] and
    [<EndToEndId>REF001</EndToEndId>]. *)
Theorem worked_example (created : string) :
  (amount ← decimal.of_string "1234.56";
   Some (SwiftMessages.payment_from_transaction Sample.today "REF-GENERATED"
           (Sample.args amount None)))
  = Some (Py.Return Sample.payment)
  /\ Py.split Py.LF (SwiftMessages.generate_mt103 Sample.payment)
     = [":20:REF001"; ":23B:CRED"; ":32A:240601EUR1234,56";
        ":50K:/DE89370400440532013000"; "Acme GmbH";
        ":59:/FR1420041010050500013M02606"; "Globex SA";
        ":70:Invoice 123"; ":71A:OUR"]
  /\ ":32A:240601EUR1234,56"
     ∈ Py.split Py.LF (SwiftMessages.generate_mt103 Sample.payment)
  /\ Py.contains (SwiftMessages.generate_pain001 created Sample.payment)
       ("<InstdAmt Ccy=" +:+ SwiftMessages.q +:+ "EUR" +:+ SwiftMessages.q
        +:+ ">1234.56</InstdAmt>") = true
  /\ Py.contains (SwiftMessages.generate_pain001 created Sample.payment)
       "<EndToEndId>REF001</EndToEndId>" = true.
Proof.
  split; [reflexivity|]. split; [reflexivity|].
  split; [vm_compute; set_solver|].
  unfold SwiftMessages.generate_pain001, SwiftMessages.el, SwiftMessages.text_el.
  simpl. rewrite !append_assoc.
  split; do 2 apply contains_append; reflexivity.
Qed.

(** ** A schema that cannot be found *)

(** C4, as amended. Validating a text against a schema path that leads
    to no readable schema raises [SchemaNotFoundError] whenever the text
    parses, whichever XML library parses it and whenever the reference
    is resolved; for a text that does not parse the call either raises
    the same error or, when it parses first, returns the parse failure
    as the single issue of an invalid result. What becomes of the error
    is the caller's doing: the first [on_validate_clicked] of the window
    and the validate branch of the Streamlit script show it as a schema
    error and leave the stored result alone, whereas the generate branch
    of the script catches it and records an invalid result whose only
    issue is the text of the error. *)
Theorem missing_schema_raises `{B : Backend}
    (X : SwiftIsoValidator.XmlLibrary) (store : SwiftIsoValidator.SchemaStore X)
    (resolution : SwiftIsoValidator.Resolution) :
  (forall text path,
     store path = None ->
     let result :=
       SwiftIsoValidator.validate_pain001_generated X store resolution text
         (Some path) in
     (forall doc, SwiftIsoValidator.parse X text = inl doc ->
        result = Py.Raise (Py.SchemaNotFoundError
                             ("Schema not found: " +:+ path)))
     /\ (result = Py.Raise (Py.SchemaNotFoundError
                              ("Schema not found: " +:+ path))
         \/ exists failure,
              SwiftIsoValidator.parse X text = inr failure
              /\ resolution = SwiftIsoValidator.AfterParsing
              /\ result = Py.Return (false, [failure])))
  /\ (forall (g : Gui.SwiftGUI) sp msg,
        Py.truthy (Gui.preview g) = true ->
        Z.eqb (Gui.format_group g) 0 = false ->
        Gui.schema_path g = Some sp ->
        Py.truthy sp = true ->
        validate_pain001_generated (Gui.preview g) sp
        = Py.Raise (Py.SchemaNotFoundError msg) ->
        Gui.on_validate_clicked_manual g
        = (Py.Return tt, g, [Gui.MessageBox Gui.Critical "Schema error" msg]))
  /\ (forall (w : Streamlit.World) content sp msg,
        Streamlit.get_str w "preview_content" "" = content ->
        Py.truthy content = true ->
        Streamlit.dict_get (Streamlit.session_state w) "last_format"
        = Streamlit.VStr "XML" ->
        Streamlit.dict_get (Streamlit.session_state w) "schema_path"
        = Streamlit.VStr sp ->
        Py.truthy sp = true ->
        Streamlit.path_exists (Streamlit.fs w) sp = true ->
        validate_pain001_generated content sp
        = Py.Raise (Py.SchemaNotFoundError msg) ->
        Streamlit.validate_branch w
        = (Py.Return tt, w,
           [Streamlit.St Streamlit.error ("Schema error: " +:+ msg)]))
  /\ (forall (i : Streamlit.Widgets) (w : Streamlit.World) payment xml sp msg,
        Streamlit._build_payment_dict i w = (Py.Return (Some payment), w, []) ->
        Py.startswith (Streamlit.fmt i) "ISO20022" = true ->
        generate_pain001 payment = Py.Return xml ->
        Streamlit.dict_get (Streamlit.session_state w) "schema_path"
        = Streamlit.VStr sp ->
        Py.truthy sp = true ->
        Streamlit.path_exists (Streamlit.fs w) sp = true ->
        validate_pain001_generated xml sp
        = Py.Raise (Py.SchemaNotFoundError msg) ->
        Eff.result_of (Streamlit.generate_branch i w) = Py.Return tt
        /\ Streamlit.get_result (Eff.state_of (Streamlit.generate_branch i w))
           = {| valid := false; errors := [msg] |}).
Proof.
  split; [|split; [|split]].
  - intros text path Hstore result. subst result.
    unfold SwiftIsoValidator.validate_pain001_generated,
      SwiftIsoValidator.stage1, SwiftIsoValidator.schema_not_found.
    rewrite Hstore.
    destruct resolution, (SwiftIsoValidator.parse X text) as [doc|failure];
      (split; [intros doc' Hdoc; congruence|]); eauto.
  - intros g sp msg Hcontent Hfmt Hsp Htruthy Herr.
    unfold Gui.on_validate_clicked_manual, Eff.try_except_schema, Eff.bind,
      Eff.get, Eff.lift, Eff.emit.
    rewrite Hcontent, Hfmt, Hsp. simpl. rewrite Htruthy. simpl.
    by rewrite Herr.
  - intros w content sp msg Hcontent Hsome Hxml Hsp Htruthy Hexists Herr.
    unfold Streamlit.validate_branch, Eff.try_except_schema, Eff.bind, Eff.get,
      Eff.lift, Eff.emit.
    rewrite Hcontent, Hsome, Hxml, Hsp. simpl.
    rewrite Htruthy, Hexists. simpl. by rewrite Herr.
  - intros i w payment xml sp msg Hpay Hfmt Hgen Hsp Htruthy Hexists Herr.
    unfold Streamlit.generate_branch, Streamlit.set_result,
      Eff.try_except_schema, Eff.bind, Eff.get, Eff.lift, Eff.emit, Eff.modify,
      Eff.state_of, Eff.result_of, Streamlit.get_result.
    rewrite Hpay, Hfmt, Hgen. simpl.
    assert (Streamlit.dict_get
              (<["last_format":=Streamlit.VStr "XML"]>
                 (<["preview_content":=Streamlit.VStr xml]>
                    (Streamlit.session_state w))) "schema_path"
            = Streamlit.VStr sp) as ->.
    { rewrite <- Hsp. unfold Streamlit.dict_get. by rewrite !lookup_insert_ne. }
    simpl. rewrite Htruthy, Hexists, Herr. simpl.
    split; [done|]. by rewrite lookup_insert_eq.
Qed.

Lemma missing_schema_raises_witness :
  let xml := SwiftMessages.generate_pain001 "2024-05-31T12:00:00" Sample.payment in
  Sample.store "assets/schemas/gone.xsd" = None
  /\ SwiftIsoValidator.validate_pain001_generated Sample.xml Sample.store
       SwiftIsoValidator.BeforeParsing xml (Some "assets/schemas/gone.xsd")
     = Py.Raise (Py.SchemaNotFoundError
                   "Schema not found: assets/schemas/gone.xsd")
  /\ @Streamlit.validate_branch Sample.backend Scenario.unreadable
     = (Py.Return tt, Scenario.unreadable,
        [Streamlit.St Streamlit.error
           "Schema error: Schema not found: assets/schemas/gone.xsd"]).
Proof.
  intros xml.
  pose proof (@missing_schema_raises Sample.backend Sample.xml Sample.store
                SwiftIsoValidator.BeforeParsing) as (Hv & _ & Hs & _).
  split; [reflexivity|]. split.
  - exact (proj1 (Hv xml "assets/schemas/gone.xsd" eq_refl) xml eq_refl).
  - exact (Hs Scenario.unreadable "<Document/>" "assets/schemas/gone.xsd"
             "Schema not found: assets/schemas/gone.xsd"
             eq_refl eq_refl eq_refl eq_refl eq_refl eq_refl eq_refl).
Defined.

(** C4 as stated fails in the Streamlit script: when 'Generate Preview'
    meets a schema file that exists and that the validator cannot read,
    the validator raises [SchemaNotFoundError], and the generate branch
    (lines 198 to 200) reports just that as an invalid validation result
    with the text of the error as its issue. *)
Lemma generate_branch_reports_the_error_as_invalid :
  let i := Sample.press true false false in
  let xml := SwiftMessages.generate_pain001 "2024-05-31T12:00:00" Sample.payment in
  @validate_pain001_generated Sample.backend xml "assets/schemas/gone.xsd"
  = Py.Raise (Py.SchemaNotFoundError
                "Schema not found: assets/schemas/gone.xsd")
  /\ Eff.result_of (@Streamlit.generate_branch Sample.backend i
                      Scenario.unreadable) = Py.Return tt
  /\ Streamlit.session_state
       (Eff.state_of (@Streamlit.generate_branch Sample.backend i
                        Scenario.unreadable)) !! "preview_content"
     = Some (Streamlit.VStr xml)
  /\ Streamlit.get_result
       (Eff.state_of (@Streamlit.generate_branch Sample.backend i
                        Scenario.unreadable))
     = {| valid := false;
          errors := ["Schema not found: assets/schemas/gone.xsd"] |}.
Proof. repeat split. Qed.

(** ** Strings *)

Lemma length_append a b :
  String.length (a +:+ b) = (String.length a + String.length b)%nat.
Proof. induction a as [|c a IH]; [done|]. rewrite append_cons. simpl. lia. Qed.

Lemma all_append p a b : Py.all p (a +:+ b) = Py.all p a && Py.all p b.
Proof.
  induction a as [|c a IH]; [done|]. rewrite append_cons. simpl.
  by rewrite IH, andb_assoc.
Qed.

Lemma all_impl (p q : ascii -> bool) s :
  (forall c, p c = true -> q c = true) ->
  Py.all p s = true -> Py.all q s = true.
Proof.
  intros Hpq. induction s as [|c s IH]; simpl; [done|].
  intros [Hc Hs]%andb_prop. rewrite (Hpq c Hc). auto.
Qed.

Lemma all_substring p n m s :
  Py.all p s = true -> Py.all p (String.substring n m s) = true.
Proof.
  revert n m. induction s as [|c s IH]; intros n m Hs.
  - by destruct n, m.
  - simpl in Hs. apply andb_prop in Hs as [Hc Hs].
    destruct n as [|n]; simpl.
    + destruct m as [|m]; simpl; [done|]. rewrite Hc. simpl. auto.
    + auto.
Qed.

Lemma substring_length n m s : (String.length (String.substring n m s) <= m)%nat.
Proof.
  revert n m. induction s as [|c s IH]; intros n m.
  - destruct n, m; simpl; lia.
  - destruct n as [|n]; simpl.
    + destruct m as [|m]; simpl; [lia|]. specialize (IH 0%nat m). lia.
    + apply IH.
Qed.

Lemma split_by_nonempty p s : Py.split_by p s <> [].
Proof. induction s as [|c s IH]; simpl; [done|]. repeat case_match; done. Qed.

(** A text without separators is its own single piece. *)
Lemma split_by_free p s :
  Py.all (fun c => negb (p c)) s = true -> Py.split_by p s = [s].
Proof.
  induction s as [|c s IH]; simpl; [done|].
  intros [Hc Hs]%andb_prop. apply negb_true_iff in Hc. rewrite Hc, IH; done.
Qed.

(** The first separator ends the first piece. *)
Lemma split_by_sep p a c b :
  Py.all (fun c => negb (p c)) a = true -> p c = true ->
  Py.split_by p (a +:+ String c b) = a :: Py.split_by p b.
Proof.
  intros Ha Hc. induction a as [|x a IH].
  - rewrite append_nil_l. simpl. by rewrite Hc.
  - simpl in Ha. apply andb_prop in Ha as [Hx Ha]. apply negb_true_iff in Hx.
    rewrite append_cons. simpl. rewrite Hx, IH; done.
Qed.

(** The pieces are made of the characters that are no separators. *)
Lemma split_by_pieces p q s :
  Py.all (fun c => p c || q c) s = true ->
  Forall (fun w => Py.all q w = true) (Py.split_by p s).
Proof.
  induction s as [|c s IH]; simpl; [by repeat constructor|].
  intros [Hc Hs]%andb_prop. specialize (IH Hs).
  destruct (p c) eqn:Hp.
  - by constructor.
  - simpl in Hc. destruct (Py.split_by p s) as [|w ws]; simpl.
    + repeat constructor. simpl. by rewrite Hc.
    + inversion IH; subst. constructor; [|done]. simpl. by rewrite Hc.
Qed.

Lemma free_of_not_sep c s :
  Py.free_of c s = true ->
  Py.all (fun x => negb (Ascii.eqb c x)) s = true.
Proof.
  apply all_impl. intros x Hx. by rewrite Ascii.eqb_sym.
Qed.

(** Splitting at line breaks undoes joining with line breaks, for lines
    that hold none. *)
Lemma split_join lines :
  lines <> [] ->
  Forall (fun l => Py.free_of Py.LF l = true) lines ->
  Py.split Py.LF (Py.join Py.nl lines) = lines.
Proof.
  unfold Py.split, Py.join.
  induction lines as [|l ls IH]; [done|]. intros _ Hall.
  inversion Hall as [|? ? Hl Hls]; subst.
  apply free_of_not_sep in Hl.
  destruct ls as [|l' ls]; simpl.
  - by apply split_by_free.
  - unfold Py.nl. rewrite append_cons, append_nil_l.
    rewrite split_by_sep; [|done|apply Ascii.eqb_refl].
    f_equal. by apply IH.
Qed.

Lemma split_by_app_sep p a c b :
  p c = true ->
  Py.split_by p (a +:+ String c b) = Py.split_by p a ++ Py.split_by p b.
Proof.
  intros Hc. induction a as [|x a IH].
  - rewrite append_nil_l. simpl. by rewrite Hc.
  - rewrite append_cons. simpl. rewrite IH.
    destruct (p x); [done|].
    pose proof (split_by_nonempty p a) as Hne.
    by destruct (Py.split_by p a).
Qed.

(** A prefix without separators joins the first piece. *)
Lemma split_by_prefix p a s :
  Py.all (fun c => negb (p c)) a = true ->
  Py.split_by p (a +:+ s)
  = match Py.split_by p s with
    | w :: ws => (a +:+ w) :: ws
    | [] => [a]
    end.
Proof.
  intros Ha. induction a as [|x a IH].
  - rewrite append_nil_l. pose proof (split_by_nonempty p s).
    by destruct (Py.split_by p s).
  - simpl in Ha. apply andb_prop in Ha as [Hx Ha]. apply negb_true_iff in Hx.
    rewrite append_cons. simpl. rewrite Hx, (IH Ha).
    by destruct (Py.split_by p s).
Qed.

(** Splitting at line breaks undoes joining with line breaks for all
    lines but the first, when they hold none. *)
Lemma split_join_head l0 rest :
  rest <> [] ->
  Forall (fun l => Py.free_of Py.LF l = true) rest ->
  Py.split Py.LF (Py.join Py.nl (l0 :: rest)) = Py.split Py.LF l0 ++ rest.
Proof.
  intros Hne Hall. rewrite <- (split_join rest Hne Hall) at 2.
  destruct rest as [|l1 ls]; [done|].
  unfold Py.split, Py.join.
  change (String.concat Py.nl (l0 :: l1 :: ls))
    with (l0 +:+ Py.nl +:+ String.concat Py.nl (l1 :: ls)).
  unfold Py.nl at 1. rewrite append_cons, append_nil_l.
  by rewrite split_by_app_sep by apply Ascii.eqb_refl.
Qed.

(** ** Line wrapping *)

Section Wrap.
Variable q : ascii -> bool.
Hypothesis q_space : q " " = true.

Lemma chunks_all n s :
  Py.all q s = true ->
  Forall (fun w => Py.all q w = true) (SwiftMessages.chunks n s).
Proof.
  intros Hs. unfold SwiftMessages.chunks. apply List.Forall_map.
  apply Forall_forall. intros k _. by apply all_substring.
Qed.

Lemma fill_all n cur ws :
  Py.all q cur = true -> Forall (fun w => Py.all q w = true) ws ->
  Forall (fun w => Py.all q w = true) (SwiftMessages.fill n cur ws).
Proof.
  revert cur. induction ws as [|w ws IH]; intros cur Hcur Hws; simpl.
  - by repeat constructor.
  - apply Forall_cons in Hws as [Hw Hws]. case_match.
    + apply IH; [|done]. rewrite !all_append. simpl.
      by rewrite Hcur, q_space, Hw.
    + apply Forall_cons. split; [done|]. by apply IH.
Qed.

Lemma wrap_all n text :
  Py.all (fun c => Py.isspace c || q c) text = true ->
  Forall (fun w => Py.all q w = true) (SwiftMessages.wrap n text).
Proof.
  intros Htext. unfold SwiftMessages.wrap.
  assert (Forall (fun w => Py.all q w = true)
            (flat_map (SwiftMessages.chunks n) (Py.words text))) as Hall.
  { apply List.Forall_flat_map. unfold Py.words.
    apply Forall_forall. intros w [_ Hw]%list_elem_of_filter.
    apply chunks_all.
    pose proof (split_by_pieces Py.isspace q text Htext) as Hp.
    rewrite Forall_forall in Hp. by apply Hp. }
  destruct (flat_map _ _) as [|w ws]; [constructor|].
  inversion Hall; subst. by apply fill_all.
Qed.
End Wrap.

Lemma chunks_length n s :
  Forall (fun w => (String.length w <= n)%nat) (SwiftMessages.chunks n s).
Proof.
  unfold SwiftMessages.chunks. apply List.Forall_map.
  apply Forall_forall. intros k _. apply substring_length.
Qed.

Lemma fill_length n cur ws :
  (String.length cur <= n)%nat ->
  Forall (fun w => (String.length w <= n)%nat) ws ->
  Forall (fun w => (String.length w <= n)%nat) (SwiftMessages.fill n cur ws).
Proof.
  revert cur. induction ws as [|w ws IH]; intros cur Hcur Hws; simpl.
  - by repeat constructor.
  - inversion Hws; subst. case_match eqn:Hfit.
    + apply IH; [|done]. apply Nat.leb_le in Hfit.
      rewrite !length_append. simpl. lia.
    + constructor; [done|]. by apply IH.
Qed.

(** No wrapped line is longer than the width. *)
Lemma wrap_length n text :
  Forall (fun w => (String.length w <= n)%nat) (SwiftMessages.wrap n text).
Proof.
  unfold SwiftMessages.wrap.
  assert (Forall (fun w => (String.length w <= n)%nat)
            (flat_map (SwiftMessages.chunks n) (Py.words text))) as Hall.
  { apply List.Forall_flat_map, Forall_forall. intros w _. apply chunks_length. }
  destruct (flat_map _ _) as [|w ws]; [constructor|].
  inversion Hall; subst. by apply fill_length.
Qed.

(** A wrapped field has at most four lines of at most 35 characters. *)
Lemma wrap_field_shape text :
  (length (SwiftMessages.wrap_field text) <= 4)%nat
  /\ Forall (fun w => (String.length w <= 35)%nat) (SwiftMessages.wrap_field text).
Proof.
  unfold SwiftMessages.wrap_field. split.
  - rewrite length_take. lia.
  - apply Forall_take, wrap_length.
Qed.

(** No wrapped line holds a line break. *)
Lemma wrap_field_one_line text :
  Forall (fun w => Py.free_of Py.LF w = true) (SwiftMessages.wrap_field text).
Proof.
  unfold SwiftMessages.wrap_field, Py.free_of. apply Forall_take.
  apply wrap_all; [done|].
  induction text as [|c s IH]; simpl; [done|]. rewrite IH, andb_true_r.
  destruct (Ascii.eqb c Py.LF) eqn:Hc; simpl; [|apply orb_true_r].
  apply Ascii.eqb_eq in Hc. by subst c.
Qed.

(** The lines of a text without colons start no field. *)
Lemma wrap_field_no_tag text :
  Py.free_of ":" text = true ->
  SwiftIsoValidator.no_tag_lines (SwiftMessages.wrap_field text) = true.
Proof.
  intros Htext. unfold SwiftIsoValidator.no_tag_lines.
  apply forallb_forall. intros l Hl%list_elem_of_In.
  assert (Forall (fun w => Py.free_of ":" w = true)
            (SwiftMessages.wrap_field text)) as Hall.
  { unfold SwiftMessages.wrap_field, Py.free_of. apply Forall_take.
    apply wrap_all; [done|]. revert Htext. apply all_impl.
    intros c ->. apply orb_true_r. }
  rewrite Forall_forall in Hall. specialize (Hall l Hl).
  destruct l as [|c l]; [done|]. simpl in Hall.
  apply andb_prop in Hall as [Hc _]. apply negb_true_iff in Hc.
  unfold SwiftIsoValidator.tag_of.
  destruct c as [[] [] [] [] [] [] [] []]; try done.
Qed.

(** ** The value of [:32A:] *)

Lemma digit_isdigit k : Py.isdigit (SwiftMessages.digit k) = true.
Proof.
  unfold SwiftMessages.digit.
  pose proof (Nat.mod_upper_bound k 10 ltac:(lia)) as Hk.
  destruct (k mod 10)%nat as [|[|[|[|[|[|[|[|[|[|j]]]]]]]]]]; try reflexivity.
  lia.
Qed.

Lemma zeros_digits n : Py.all Py.isdigit (SwiftMessages.zeros n) = true.
Proof. induction n as [|n IH]; simpl; [done|]. exact IH. Qed.

Lemma string_of_uint_digits d :
  Py.all Py.isdigit (NilEmpty.string_of_uint d) = true.
Proof. induction d; simpl; try done. Qed.

Lemma str_of_N_digits n : Py.all Py.isdigit (Num.str_of_N n) = true.
Proof.
  unfold Num.str_of_N, NilZero.string_of_uint.
  destruct (N.to_uint n) eqn:Hd; try done; rewrite <- Hd;
    apply string_of_uint_digits.
Qed.

Lemma str_of_N_truthy n : Py.truthy (Num.str_of_N n) = true.
Proof.
  unfold Num.str_of_N, NilZero.string_of_uint. by destruct (N.to_uint n).
Qed.

Lemma zfill_digits w s :
  Py.all Py.isdigit s = true -> Py.all Py.isdigit (SwiftMessages.zfill w s) = true.
Proof.
  intros Hs. unfold SwiftMessages.zfill.
  by rewrite all_append, zeros_digits, Hs.
Qed.

Lemma eat_all n p a b :
  String.length a = n -> Py.all p a = true ->
  SwiftIsoValidator.eat n p (a +:+ b) = Some b.
Proof.
  revert n. induction a as [|c a IH]; intros n Hn Ha; simpl in Hn; subst n.
  - done.
  - simpl in Ha. apply andb_prop in Ha as [Hc Ha].
    rewrite append_cons. simpl. rewrite Hc. by apply IH.
Qed.

Lemma span_all p a b :
  Py.all p a = true ->
  match b with EmptyString => true | String c _ => negb (p c) end = true ->
  Num.span p (a +:+ b) = (a, b).
Proof.
  intros Ha Hb. induction a as [|c a IH].
  - rewrite append_nil_l. destruct b as [|c b]; [done|]. simpl.
    apply negb_true_iff in Hb. by rewrite Hb.
  - simpl in Ha. apply andb_prop in Ha as [Hc Ha].
    rewrite append_cons. simpl. by rewrite Hc, IH.
Qed.

Lemma int_frac_digits c e :
  Py.all Py.isdigit (snd (SwiftMessages.int_frac c e)) = true.
Proof.
  unfold SwiftMessages.int_frac. case_match; simpl; [done|].
  apply zfill_digits, str_of_N_digits.
Qed.

(** The generator writes every finite amount as digits, a comma, digits. *)
Lemma amount_shape_format sign c e :
  SwiftIsoValidator.amount_shape
    (SwiftMessages.format_amount_mt (decimal.Finite sign c e)) = true.
Proof.
  unfold SwiftMessages.format_amount_mt, SwiftIsoValidator.amount_shape.
  pose proof (int_frac_digits c e) as Hfr.
  destruct (SwiftMessages.int_frac c e) as [ip fr]; simpl in Hfr.
  change ("," +:+ fr +:+ SwiftMessages.zeros (2 - String.length fr))
    with (String "," (fr +:+ SwiftMessages.zeros (2 - String.length fr))).
  rewrite span_all; [|apply str_of_N_digits|done].
  rewrite str_of_N_truthy. simpl.
  by rewrite all_append, Hfr, zeros_digits.
Qed.

Lemma pad2_digits n :
  String.length (SwiftMessages.pad2 n) = 2%nat
  /\ Py.all Py.isdigit (SwiftMessages.pad2 n) = true.
Proof.
  split; [reflexivity|]. unfold SwiftMessages.pad2. cbn [Py.all].
  by rewrite !digit_isdigit.
Qed.

Lemma yymmdd_eaten d rest :
  SwiftIsoValidator.eat 6 Py.isdigit (SwiftMessages.yymmdd d +:+ rest)
  = Some rest.
Proof.
  unfold SwiftMessages.yymmdd.
  destruct (pad2_digits (SwiftMessages.year d mod 100)) as [Ly Dy].
  destruct (pad2_digits (SwiftMessages.month d)) as [Lm Dm].
  destruct (pad2_digits (SwiftMessages.day d)) as [Ld Dd].
  apply eat_all.
  - rewrite !length_append, Ly, Lm, Ld. reflexivity.
  - by rewrite !all_append, Dy, Dm, Dd.
Qed.

Lemma value_32A_written (d : SwiftMessages.Date) cur sign c e :
  SwiftMessages.currency_shape cur = true ->
  SwiftIsoValidator.value_32A_shape
    (SwiftMessages.yymmdd d +:+ cur
     +:+ SwiftMessages.format_amount_mt (decimal.Finite sign c e)) = true.
Proof.
  unfold SwiftMessages.currency_shape.
  intros [Hlen Hup]%andb_prop. apply Nat.eqb_eq in Hlen.
  unfold SwiftIsoValidator.value_32A_shape.
  rewrite yymmdd_eaten, eat_all; [|done..].
  apply amount_shape_format.
Qed.

(** ** Scanning the lines of a text *)

Lemma tags_of_more more rest :
  SwiftIsoValidator.no_tag_lines more = true ->
  SwiftIsoValidator.tags_of (more ++ rest) = SwiftIsoValidator.tags_of rest.
Proof.
  unfold SwiftIsoValidator.tags_of, SwiftIsoValidator.no_tag_lines.
  induction more as [|l more IH]; simpl; [done|].
  destruct (SwiftIsoValidator.tag_of l); simpl; [done|]. exact IH.
Qed.

Lemma value_issues_more more rest :
  SwiftIsoValidator.no_tag_lines more = true ->
  SwiftIsoValidator.value_issues (more ++ rest)
  = SwiftIsoValidator.value_issues rest.
Proof.
  unfold SwiftIsoValidator.value_issues, SwiftIsoValidator.no_tag_lines.
  induction more as [|l more IH]; simpl; [done|].
  destruct (SwiftIsoValidator.tag_of l); simpl; [done|]. exact IH.
Qed.

Lemma too_long_fits tag content :
  (String.length content <= 35)%nat ->
  SwiftIsoValidator.too_long tag content = [].
Proof.
  intros H. unfold SwiftIsoValidator.too_long.
  apply Nat.ltb_ge in H. by rewrite H, andb_false_r.
Qed.

Lemma length_issues_more cur more rest :
  SwiftIsoValidator.no_tag_lines more = true ->
  Forall (fun l => (String.length l <= 35)%nat) more ->
  SwiftIsoValidator.length_issues cur (more ++ rest)
  = SwiftIsoValidator.length_issues cur rest.
Proof.
  unfold SwiftIsoValidator.no_tag_lines.
  induction more as [|l more IH]; simpl; [done|].
  intros Hno Hlen. inversion Hlen; subst.
  destruct (SwiftIsoValidator.tag_of l); simpl in *; [done|].
  rewrite IH by done. destruct cur; [|done]. by rewrite too_long_fits.
Qed.

Lemma length_issues_more_plain tag more rest :
  SwiftIsoValidator.no_tag_lines more = true ->
  SwiftIsoValidator.mem tag SwiftIsoValidator.wrapped_tags = false ->
  SwiftIsoValidator.length_issues (Some tag) (more ++ rest)
  = SwiftIsoValidator.length_issues (Some tag) rest.
Proof.
  unfold SwiftIsoValidator.no_tag_lines. intros Hno Hplain.
  induction more as [|l more IH]; [done|].
  cbn [forallb] in Hno. apply andb_prop in Hno as [Hl Hno].
  rewrite <- app_comm_cons. cbn [SwiftIsoValidator.length_issues].
  destruct (SwiftIsoValidator.tag_of l); [done|].
  rewrite (IH Hno). unfold SwiftIsoValidator.too_long. by rewrite Hplain.
Qed.

(** The reference field with the lines that continue it. *)
Lemma length_issues_reference cur r0 rs rest :
  SwiftIsoValidator.no_tag_lines rs = true ->
  SwiftIsoValidator.length_issues cur (SwiftMessages.field ":20:" r0 rs rest)
  = SwiftIsoValidator.length_issues (Some ":20:") rest.
Proof.
  intros Hno. unfold SwiftMessages.field.
  change (SwiftIsoValidator.length_issues cur ((":20:" +:+ r0) :: rs ++ rest))
    with (SwiftIsoValidator.too_long ":20:" r0
          ++ SwiftIsoValidator.length_issues (Some ":20:") (rs ++ rest)).
  by rewrite length_issues_more_plain.
Qed.

(** What the three scans see of one field. *)
Lemma scan_field tag content more rest cur :
  SwiftIsoValidator.tag_of (tag +:+ content) = Some (tag, content) ->
  SwiftIsoValidator.no_tag_lines more = true ->
  Forall (fun l => (String.length l <= 35)%nat) more ->
  SwiftIsoValidator.tags_of (SwiftMessages.field tag content more rest)
  = tag :: SwiftIsoValidator.tags_of rest
  /\ SwiftIsoValidator.value_issues (SwiftMessages.field tag content more rest)
     = (if String.eqb tag ":32A:"
           && negb (SwiftIsoValidator.value_32A_shape content)
        then ["Invalid value in tag :32A:"] else [])
       ++ SwiftIsoValidator.value_issues rest
  /\ SwiftIsoValidator.length_issues cur
       (SwiftMessages.field tag content more rest)
     = SwiftIsoValidator.too_long tag content
       ++ SwiftIsoValidator.length_issues (Some tag) rest.
Proof.
  intros Htag Hno Hlen. unfold SwiftMessages.field. repeat split.
  - unfold SwiftIsoValidator.tags_of. simpl. rewrite Htag. simpl.
    f_equal. by apply tags_of_more.
  - unfold SwiftIsoValidator.value_issues. simpl. rewrite Htag.
    f_equal. by apply value_issues_more.
  - simpl. rewrite Htag. f_equal. by apply length_issues_more.
Qed.

(** The text of a payment, field by field. *)
Lemma mt103_lines_fields p :
  SwiftMessages.mt103_lines p
  = SwiftMessages.field ":20:" (SwiftMessages.reference p) []
      (SwiftMessages.field ":23B:" "CRED" []
      (SwiftMessages.field ":32A:"
         (SwiftMessages.yymmdd (SwiftMessages.value_date p)
          +:+ SwiftMessages.currency p
          +:+ SwiftMessages.format_amount_mt (SwiftMessages.amount p)) []
      (SwiftMessages.field ":50K:" ("/" +:+ SwiftMessages.ordering_account p)
         (SwiftMessages.wrap_field (SwiftMessages.ordering_name p))
      (match SwiftMessages.beneficiary_bic p with
       | Some b =>
           SwiftMessages.field ":59:" b
             (("/" +:+ SwiftMessages.beneficiary_account p)
              :: SwiftMessages.wrap_field (SwiftMessages.beneficiary_name p))
       | None =>
           SwiftMessages.field ":59:" ("/" +:+ SwiftMessages.beneficiary_account p)
             (SwiftMessages.wrap_field (SwiftMessages.beneficiary_name p))
       end
      (match SwiftMessages.wrap_field
               (default "" (SwiftMessages.remittance_info p)) with
       | [] => SwiftMessages.field ":71A:" "OUR" [] []
       | r :: rs =>
           SwiftMessages.field ":70:" r rs
             (SwiftMessages.field ":71A:" "OUR" [] [])
       end))))).
Proof.
  unfold SwiftMessages.mt103_lines, SwiftMessages.field, SwiftMessages.tagged.
  destruct (SwiftMessages.beneficiary_bic p);
    destruct (SwiftMessages.wrap_field (default "" _));
    simpl; rewrite <- ?app_assoc; reflexivity.
Qed.

(** ** The generated text under the validator *)

Lemma upper_or_digit_plain s :
  Py.all SwiftMessages.upper_or_digit s = true -> Py.free_of Py.LF s = true.
Proof.
  apply all_impl. intros c Hc.
  destruct c as [[] [] [] [] [] [] [] []]; done.
Qed.

Lemma upper_plain s : Py.all Py.isupper s = true -> Py.free_of Py.LF s = true.
Proof.
  apply all_impl. intros c Hc.
  destruct c as [[] [] [] [] [] [] [] []]; done.
Qed.

Lemma digits_plain s : Py.all Py.isdigit s = true -> Py.free_of Py.LF s = true.
Proof.
  apply all_impl. intros c Hc.
  destruct c as [[] [] [] [] [] [] [] []]; done.
Qed.

Lemma free_of_append c a b :
  Py.free_of c (a +:+ b) = Py.free_of c a && Py.free_of c b.
Proof. apply all_append. Qed.

Lemma format_amount_mt_plain d :
  Py.free_of Py.LF (SwiftMessages.format_amount_mt d) = true.
Proof.
  destruct d as [sign c e| |]; try done.
  unfold SwiftMessages.format_amount_mt.
  pose proof (int_frac_digits c e) as Hfr.
  destruct (SwiftMessages.int_frac c e) as [ip fr]; simpl in Hfr.
  rewrite !free_of_append.
  rewrite (digits_plain _ (str_of_N_digits ip)), (digits_plain _ Hfr),
    (digits_plain _ (zeros_digits _)).
  reflexivity.
Qed.

Lemma yymmdd_plain d : Py.free_of Py.LF (SwiftMessages.yymmdd d) = true.
Proof.
  unfold SwiftMessages.yymmdd. rewrite !free_of_append.
  by rewrite !(digits_plain _ (proj2 (pad2_digits _))).
Qed.

(** What a valid payment guarantees about the fields the generator copies
    into the text. *)
Lemma valid_payment_fields p :
  SwiftMessages.valid_payment p = true ->
  ((String.length (SwiftMessages.ordering_account p) <= 34)%nat
   /\ Py.free_of Py.LF (SwiftMessages.ordering_account p) = true)
  /\ ((String.length (SwiftMessages.beneficiary_account p) <= 34)%nat
      /\ Py.free_of Py.LF (SwiftMessages.beneficiary_account p) = true)
  /\ match SwiftMessages.beneficiary_bic p with
     | Some b => (String.length b <= 11)%nat /\ Py.free_of Py.LF b = true
     | None => True
     end
  /\ SwiftMessages.currency_shape (SwiftMessages.currency p) = true
  /\ exists sign c e, SwiftMessages.amount p = decimal.Finite sign c e.
Proof.
  unfold SwiftMessages.valid_payment, SwiftMessages.iban_shape.
  intros H.
  repeat match goal with
         | H : _ && _ = true |- _ => apply andb_prop in H as [? ?]
         end.
  repeat match goal with
         | H : (_ <=? _)%nat = true |- _ => apply Nat.leb_le in H
         end.
  repeat split; try done; try by apply upper_or_digit_plain.
  - destruct (SwiftMessages.beneficiary_bic p) as [b|]; [|done].
    match goal with H : SwiftMessages.bic_shape b = true |- _ =>
      pose proof (bic_shape_length b H) as Hlen;
      unfold SwiftMessages.bic_shape in H;
      apply andb_prop in H as [[_ H]%andb_prop _]
    end.
    split; [lia|]. by apply upper_or_digit_plain.
  - destruct (SwiftMessages.amount p) as [[] c e| |]; try done. eauto.
Qed.

Lemma field_one_line tag content more rest :
  Py.free_of Py.LF tag = true -> Py.free_of Py.LF content = true ->
  Forall (fun l => Py.free_of Py.LF l = true) more ->
  Forall (fun l => Py.free_of Py.LF l = true) rest ->
  Forall (fun l => Py.free_of Py.LF l = true)
    (SwiftMessages.field tag content more rest).
Proof.
  intros Ht Hc Hm Hr. unfold SwiftMessages.field.
  constructor; [by rewrite free_of_append, Ht, Hc|]. by apply Forall_app.
Qed.

Lemma tags_of_field tag content more rest :
  SwiftIsoValidator.tag_of (tag +:+ content) = Some (tag, content) ->
  SwiftIsoValidator.no_tag_lines more = true ->
  SwiftIsoValidator.tags_of (SwiftMessages.field tag content more rest)
  = tag :: SwiftIsoValidator.tags_of rest.
Proof.
  intros Htag Hno. unfold SwiftMessages.field, SwiftIsoValidator.tags_of.
  simpl. rewrite Htag. simpl. f_equal. by apply tags_of_more.
Qed.

Lemma value_issues_field tag content more rest :
  SwiftIsoValidator.tag_of (tag +:+ content) = Some (tag, content) ->
  SwiftIsoValidator.no_tag_lines more = true ->
  (String.eqb tag ":32A:"
   && negb (SwiftIsoValidator.value_32A_shape content) = false) ->
  SwiftIsoValidator.value_issues (SwiftMessages.field tag content more rest)
  = SwiftIsoValidator.value_issues rest.
Proof.
  intros Htag Hno Hok. unfold SwiftMessages.field, SwiftIsoValidator.value_issues.
  simpl. rewrite Htag, Hok. simpl. by apply value_issues_more.
Qed.

Lemma length_issues_field cur tag content more rest :
  SwiftIsoValidator.tag_of (tag +:+ content) = Some (tag, content) ->
  SwiftIsoValidator.no_tag_lines more = true ->
  Forall (fun l => (String.length l <= 35)%nat) more ->
  (SwiftIsoValidator.mem tag SwiftIsoValidator.wrapped_tags = false
   \/ (String.length content <= 35)%nat) ->
  SwiftIsoValidator.length_issues cur
    (SwiftMessages.field tag content more rest)
  = SwiftIsoValidator.length_issues (Some tag) rest.
Proof.
  intros Htag Hno Hlen Hok. unfold SwiftMessages.field. simpl. rewrite Htag.
  rewrite length_issues_more by done.
  destruct Hok as [Hok|Hok]; [|by rewrite too_long_fits].
  unfold SwiftIsoValidator.too_long. by rewrite Hok.
Qed.

Lemma no_tag_lines_slash a more :
  SwiftIsoValidator.no_tag_lines more = true ->
  SwiftIsoValidator.no_tag_lines (("/" +:+ a) :: more) = true.
Proof. intros H. exact H. Qed.

Lemma no_tag_lines_tail l more :
  SwiftIsoValidator.no_tag_lines (l :: more) = true ->
  SwiftIsoValidator.no_tag_lines more = true.
Proof.
  unfold SwiftIsoValidator.no_tag_lines. simpl. by intros [_ H]%andb_prop.
Qed.

Lemma slash_length a :
  (String.length a <= 34)%nat -> (String.length ("/" +:+ a) <= 35)%nat.
Proof. rewrite length_append. simpl. lia. Qed.

(** The side conditions of the three scans of a generated field. *)
Ltac side :=
  solve
    [ reflexivity
    | assumption
    | apply no_tag_lines_slash; assumption
    | constructor
    | constructor; assumption
    | left; reflexivity
    | right; assumption
    | right; lia
    | match goal with H : _ = true |- _ => rewrite H; reflexivity end ].

(** The text generated for a valid payment, seen by the validator: its
    tags are the tags written, and neither the value check nor the
    length check raises an issue. *)
Lemma generated_text_scans p :
  SwiftMessages.valid_payment p = true ->
  SwiftIsoValidator.no_tag_lines (SwiftIsoValidator.continuation (SwiftMessages.reference p))
  = true ->
  SwiftIsoValidator.no_tag_lines
    (SwiftMessages.wrap_field (SwiftMessages.ordering_name p)) = true ->
  SwiftIsoValidator.no_tag_lines
    (SwiftMessages.wrap_field (SwiftMessages.beneficiary_name p)) = true ->
  SwiftIsoValidator.no_tag_lines
    (SwiftMessages.wrap_field
       (default "" (SwiftMessages.remittance_info p))) = true ->
  SwiftIsoValidator.tags_of (Py.split Py.LF (SwiftMessages.generate_mt103 p))
  = SwiftMessages.tags_written p
  /\ SwiftIsoValidator.value_issues
       (Py.split Py.LF (SwiftMessages.generate_mt103 p)) = []
  /\ SwiftIsoValidator.length_issues None
       (Py.split Py.LF (SwiftMessages.generate_mt103 p)) = [].
Proof.
  intros Hvalid Href Hon Hbn Hrm.
  destruct (valid_payment_fields p Hvalid)
    as ((Loa & Poa) & (Lba & Pba) & Hbic & Hcur & (sign & c & e & Hamt)).
  pose proof (proj2 (wrap_field_shape (SwiftMessages.ordering_name p))) as Won.
  pose proof (proj2 (wrap_field_shape (SwiftMessages.beneficiary_name p))) as Wbn.
  pose proof (proj2 (wrap_field_shape
                       (default "" (SwiftMessages.remittance_info p)))) as Wrm.
  pose proof (wrap_field_one_line (SwiftMessages.ordering_name p)) as Oon.
  pose proof (wrap_field_one_line (SwiftMessages.beneficiary_name p)) as Obn.
  pose proof (wrap_field_one_line
                (default "" (SwiftMessages.remittance_info p))) as Orm.
  pose proof (value_32A_written (SwiftMessages.value_date p) _ sign c e Hcur)
    as H32.
  pose proof (slash_length _ Loa) as Soa.
  pose proof (slash_length _ Lba) as Sba.
  unfold SwiftIsoValidator.continuation in Href.
  destruct (Py.split Py.LF (SwiftMessages.reference p)) as [|r0 rs] eqn:Hsplit;
    [by apply split_by_nonempty in Hsplit|].
  cbn [tail] in Href.
  unfold SwiftMessages.generate_mt103, SwiftMessages.tags_written.
  rewrite mt103_lines_fields, Hamt.
  destruct (SwiftMessages.wrap_field
              (default "" (SwiftMessages.remittance_info p))) as [|r rs'];
    destruct (SwiftMessages.beneficiary_bic p) as [b|].
  all: try (apply Forall_cons in Orm as [Or Ors];
            apply Forall_cons in Wrm as [Wr Wrs];
            apply no_tag_lines_tail in Hrm).
  all: try match type of Hbic with _ /\ _ => destruct Hbic as [Lb Pb] end.
  all: match goal with
       | |- context [Py.split Py.LF
                       (Py.join Py.nl
                          (SwiftMessages.field ":20:" ?r [] ?rest))] =>
           assert (Py.split Py.LF
                     (Py.join Py.nl (SwiftMessages.field ":20:" r [] rest))
                   = SwiftMessages.field ":20:" r0 rs rest) as ->
       end.
  1,3,5,7:
    match goal with
    | |- Py.split Py.LF (Py.join Py.nl (SwiftMessages.field _ ?r [] ?rest)) = _ =>
        change (SwiftMessages.field ":20:" r [] rest)
          with ((":20:" +:+ r) :: rest);
        rewrite split_join_head;
          [ unfold Py.split; rewrite split_by_prefix by reflexivity;
            fold (Py.split Py.LF r); rewrite Hsplit; reflexivity
          | discriminate
          | ]
    end.
  1-4: repeat apply field_one_line; try done;
         rewrite ?free_of_append, ?yymmdd_plain, ?format_amount_mt_plain,
           ?Poa, ?Pba, ?(upper_plain _ (proj2 (proj1 (andb_true_iff _ _) Hcur)));
         try done; try (by constructor); try tauto.
  all: split; [rewrite !tags_of_field by side; reflexivity|].
  all: split; [rewrite !value_issues_field by side; reflexivity|].
  all: rewrite length_issues_reference by assumption.
  all: rewrite !length_issues_field by side; reflexivity.
Qed.

(** A text without line break has no further lines. *)
Lemma continuation_of_a_line text :
  Py.free_of Py.LF text = true -> SwiftIsoValidator.continuation text = [].
Proof.
  intros H. unfold SwiftIsoValidator.continuation, Py.split.
  by rewrite split_by_free by by apply free_of_not_sep.
Qed.

(** C2, as amended. For every Payment that meets the constraints of the
    data model, the accounts being of the IBAN shape, and for which no
    line of the reference after its first and no wrapped line of the
    ordering name, the beneficiary name or the remittance text starts like
    a field tag (as is the case for a reference in one line and for names
    and remittance text without a colon), the text the MT103 generator
    writes has, as the tags at the start of its lines, [:20:], [:23B:],
    [:32A:], [:50K:], [:59:], then [:70:] when there is remittance text,
    then [:71A:], each once and in this order, and the MT103 validator
    returns valid with no issue for that text. *)
Theorem generated_mt103_is_valid (p : SwiftMessages.Payment)
    (Hvalid : SwiftMessages.valid_payment p = true)
    (Href : SwiftIsoValidator.no_tag_lines
              (SwiftIsoValidator.continuation (SwiftMessages.reference p))
            = true)
    (Hon : SwiftIsoValidator.no_tag_lines
             (SwiftMessages.wrap_field (SwiftMessages.ordering_name p)) = true)
    (Hbn : SwiftIsoValidator.no_tag_lines
             (SwiftMessages.wrap_field (SwiftMessages.beneficiary_name p)) = true)
    (Hrm : SwiftIsoValidator.no_tag_lines
             (SwiftMessages.wrap_field
                (default "" (SwiftMessages.remittance_info p))) = true) :
  SwiftIsoValidator.tags_of
    (Py.split Py.LF (SwiftMessages.generate_mt103 p))
  = SwiftMessages.tags_written p
  /\ (forall t, t ∈ SwiftIsoValidator.mandatory_tags ->
        SwiftIsoValidator.count t
          (SwiftIsoValidator.tags_of
             (Py.split Py.LF (SwiftMessages.generate_mt103 p))) = 1%nat)
  /\ SwiftIsoValidator.validate_mt103_text (SwiftMessages.generate_mt103 p)
     = (true, [])
  /\ (forall text,
        Py.free_of ":" text = true ->
        SwiftIsoValidator.no_tag_lines (SwiftMessages.wrap_field text) = true)
  /\ (forall text,
        Py.free_of Py.LF text = true ->
        SwiftIsoValidator.no_tag_lines (SwiftIsoValidator.continuation text)
        = true).
Proof.
  destruct (generated_text_scans p Hvalid Href Hon Hbn Hrm)
    as (Ht & Hv & Hlen).
  split; [exact Ht|]. split; [|split; [|split]].
  - intros t Hin. rewrite Ht. unfold SwiftMessages.tags_written.
    unfold SwiftIsoValidator.mandatory_tags in Hin.
    apply list_elem_of_In in Hin. simpl in Hin.
    destruct (SwiftMessages.wrap_field (default "" _));
      intuition subst; reflexivity.
  - unfold SwiftIsoValidator.validate_mt103_text.
    rewrite Ht, Hv, Hlen. unfold SwiftMessages.tags_written.
    by destruct (SwiftMessages.wrap_field (default "" _)).
  - apply wrap_field_no_tag.
  - intros text Htext. by rewrite continuation_of_a_line.
Qed.

(** The payment of the worked example, and the same payment under a
    reference of two lines. *)
Lemma generated_mt103_is_valid_witness :
  SwiftMessages.valid_payment Sample.payment = true
  /\ SwiftIsoValidator.tags_of
       (Py.split Py.LF (SwiftMessages.generate_mt103 Sample.payment))
     = [":20:"; ":23B:"; ":32A:"; ":50K:"; ":59:"; ":70:"; ":71A:"]
  /\ SwiftIsoValidator.validate_mt103_text
       (SwiftMessages.generate_mt103 Sample.payment) = (true, [])
  /\ SwiftIsoValidator.validate_mt103_text
       (SwiftMessages.generate_mt103
          (Sample.referenced ("A" +:+ Py.nl +:+ "B"))) = (true, []).
Proof.
  destruct (generated_mt103_is_valid Sample.payment
              eq_refl eq_refl eq_refl eq_refl eq_refl) as (Ht & _ & Hv & _).
  destruct (generated_mt103_is_valid
              (Sample.referenced ("A" +:+ Py.nl +:+ "B"))
              eq_refl eq_refl eq_refl eq_refl eq_refl) as (_ & _ & Hv' & _).
  split; [reflexivity|]. split; [exact Ht|]. split; [exact Hv | exact Hv'].
Defined.

(** C2 as stated fails. A Payment that meets every constraint of the data
    model and whose ordering name is [:20:X] yields a text in which the
    tag [:20:] starts two lines, and so does one whose reference has
    [:20:B] as its second line; the validator rejects both texts. And the
    builder, which checks an account only for being non-empty, returns a
    Payment with an account of 36 characters, whose account line the
    validator finds too long. *)
Lemma tag_in_a_name_breaks_the_text :
  (SwiftMessages.valid_payment Sample.tagged_name = true
   /\ Py.split Py.LF (SwiftMessages.generate_mt103 Sample.tagged_name)
      = [":20:REF001"; ":23B:CRED"; ":32A:240601EUR1234,56";
         ":50K:/DE89370400440532013000"; ":20:X"; ":59:DEUTDEFF";
         "/FR1420041010050500013M02606"; "Globex SA"; ":71A:OUR"]
   /\ SwiftIsoValidator.count ":20:"
        (SwiftIsoValidator.tags_of
           (Py.split Py.LF (SwiftMessages.generate_mt103 Sample.tagged_name)))
      = 2%nat
   /\ SwiftIsoValidator.validate_mt103_text
        (SwiftMessages.generate_mt103 Sample.tagged_name)
      = (false,
         ["Tag :20: appears more than once";
          "Tags are not in the order :20: :23B: :32A: :50K: :59: :70: :71A:"]))
  /\ (let p := Sample.referenced ("A" +:+ Py.nl +:+ ":20:B") in
      SwiftMessages.valid_payment p = true
      /\ SwiftIsoValidator.count ":20:"
           (SwiftIsoValidator.tags_of
              (Py.split Py.LF (SwiftMessages.generate_mt103 p))) = 2%nat
      /\ SwiftIsoValidator.validate_mt103_text (SwiftMessages.generate_mt103 p)
         = (false, ["Tag :20: appears more than once"]))
  /\ (exists p,
        SwiftMessages.payment_from_transaction Sample.today "REF-GENERATED"
          Sample.long_account = Py.Return p
        /\ String.length (SwiftMessages.ordering_account p) = 36%nat
        /\ SwiftMessages.valid_payment p = false
        /\ SwiftIsoValidator.validate_mt103_text (SwiftMessages.generate_mt103 p)
           = (false, ["Line longer than 35 characters in tag :50K:"])).
Proof.
  split; [repeat split|]. split; [repeat split|].
  eexists. split; [reflexivity|]. repeat split.
Qed.

(** * Further properties *)

(** ** Further rules for handlers *)

Global Instance carries_refl {S} (P : S -> Prop) : Reflexive (carries P).
Proof. unfold carries. intros s. auto. Qed.

Global Instance carries_trans {S} (P : S -> Prop) : Transitive (carries P).
Proof. unfold carries. intros s1 s2 s3 H1 H2. auto. Qed.

Global Instance reaches_trans {S} (Q : S -> Prop) : Transitive (reaches Q).
Proof. unfold reaches. intros s1 s2 s3 H1 H2. auto. Qed.

Section HandlerRules.
Context {S E : Type}.

Lemma preserves_weaken (R R' : S -> S -> Prop) {A} (m : Eff.Handler S E A) :
  (forall s s', R s s' -> R' s s') -> Eff.preserves R m -> Eff.preserves R' m.
Proof. intros HR Hm s. apply HR, Hm. Qed.

(** A handler that leaves the state as it is preserves every reflexive
    relation. *)
Lemma preserves_eq (R : S -> S -> Prop) `{!Reflexive R} {A}
    (m : Eff.Handler S E A) :
  Eff.preserves eq m -> Eff.preserves R m.
Proof. apply preserves_weaken. by intros s s' <-. Qed.




(** Reading the state and going on is going on with the state. *)
Lemma bind_get {A} (k : S -> Eff.Handler S E A) (s : S) :
  Eff.bind Eff.get k s = k s s.
Proof.
  unfold Eff.bind, Eff.get. by destruct (k s s) as [[r s2] es2].
Qed.

(** A sequence depends on its first part only through what that part does
    in the state at hand. *)
Lemma bind_ext_l {A C} (m m' : Eff.Handler S E A)
    (k : A -> Eff.Handler S E C) (s : S) :
  m s = m' s -> Eff.bind m k s = Eff.bind m' k s.
Proof. intros Hm. unfold Eff.bind. by rewrite Hm. Qed.
End HandlerRules.

(** ** The window: sending and saving leave it alone *)

Section GuiUnchanged.
Context `{B : Backend}.

Lemma ask_unchanged title label answer k :
  (forall t, Eff.preserves eq (k t)) ->
  Eff.preserves eq (Gui.ask title label answer k).
Proof. intros Hk. unfold Gui.ask. repeat frame_step; auto. Qed.

Lemma send_via_smtp_unchanged i content :
  Eff.preserves eq (Gui._send_via_smtp i content).
Proof.
  unfold Gui._send_via_smtp.
  repeat (apply ask_unchanged; intros ?). repeat frame_step; done.
Qed.

Lemma send_via_sftp_unchanged i content :
  Eff.preserves eq (Gui._send_via_sftp i content).
Proof.
  unfold Gui._send_via_sftp. frame_step; [frame_step|].
  repeat (apply ask_unchanged; intros ?). repeat frame_step; done.
Qed.

Lemma on_send_unchanged i : Eff.preserves eq (Gui.on_send i).
Proof.
  unfold Gui.on_send, Gui.write_file.
  repeat first
    [ apply send_via_smtp_unchanged | apply send_via_sftp_unchanged
    | frame_step ]; done.
Qed.

Lemma on_save_unchanged i : Eff.preserves eq (Gui.on_save i).
Proof. unfold Gui.on_save, Gui.write_file. repeat frame_step; done. Qed.
End GuiUnchanged.

(** ** The window: invariants of the event loop *)

Section GuiInvariant.
Context `{B : Backend} (P : Gui.SwiftGUI -> Prop).
Hypothesis Hcombo : forall items g, P g -> P (Gui.set_account_combo items g).
Hypothesis Hordering :
  forall n a c g, P g -> P (Gui.set_ordering n a c g).
Hypothesis Hschema :
  forall p g, Py.truthy p = true -> P g ->
              P (Gui.set_schema p (Gui.basename p) g).
Hypothesis Hlogo : forall l g, P g -> P (Gui.set_logo_label l g).
Hypothesis Hpreview : forall t g, P g -> P (Gui.set_preview t g).
Hypothesis Hresult :
  forall v errs g,
    P g -> P (Eff.state_of (Gui._set_validation_result v errs g)).
Hypothesis Htext : forall w t g, P g -> P (Gui.set_text w t g).
Hypothesis Hformat : forall id g, P g -> P (Gui.set_format id g).

Lemma load_accounts_carries : Eff.preserves (carries P) Gui._load_accounts.
Proof. unfold Gui._load_accounts. frame_step. unfold carries. auto. Qed.

Lemma on_account_changed_carries n :
  Eff.preserves (carries P) (Gui.on_account_changed n).
Proof.
  unfold Gui.on_account_changed. repeat frame_step. unfold carries. auto.
Qed.

Lemma select_schema_file_carries i :
  Eff.preserves (carries P) (Gui.select_schema_file i).
Proof.
  unfold Gui.select_schema_file. frame_step; [frame_step|].
  destruct (Py.truthy (Gui.file_name i)) eqn:Ht; repeat frame_step.
  unfold carries. auto.
Qed.

Lemma on_load_logo_carries i :
  Eff.preserves (carries P) (Gui.on_load_logo i).
Proof.
  unfold Gui.on_load_logo, Gui._load_logo_preview, Gui.write_file.
  repeat frame_step. unfold carries. auto.
Qed.

Lemma set_validation_result_carries v errs :
  Eff.preserves (carries P) (Gui._set_validation_result v errs).
Proof. intros g. unfold carries. apply Hresult. Qed.

Lemma on_generate_carries : Eff.preserves (carries P) Gui.on_generate.
Proof.
  unfold Gui.on_generate.
  repeat first [ apply set_validation_result_carries | frame_step ];
    unfold carries; auto.
Qed.

(** Every event but a click on [Generate Preview] carries a property
    that the setters of the other slots carry. *)
Lemma idle_step_carries ev :
  Gui.is_generate ev = false -> Eff.preserves (carries P) (Gui.step ev).
Proof.
  destruct ev as [s i|w t|mt]; simpl.
  - destruct s; intros Hs; try discriminate Hs.
    + apply load_accounts_carries.
    + apply on_load_logo_carries.
    + apply select_schema_file_carries.
    + rewrite slot_validate. apply preserves_ret, _.
    + apply (preserves_eq _), on_save_unchanged.
    + apply (preserves_eq _), on_send_unchanged.
    + change (Eff.preserves (carries P)
                (Eff.bind Eff.get (fun g => Gui.on_account_changed
                   (mjoin (snd <$> Gui.account_combo g !! Gui.combo_index i))))).
      repeat frame_step. apply on_account_changed_carries.
  - intros _. apply preserves_modify. unfold carries. auto.
  - intros _. apply preserves_modify. unfold carries. auto.
Qed.

Lemma step_carries ev : Eff.preserves (carries P) (Gui.step ev).
Proof.
  destruct (Gui.is_generate ev) eqn:Hev; [|by apply idle_step_carries].
  destruct ev as [[] i| |]; try discriminate Hev. apply on_generate_carries.
Qed.

Lemma idle_run_carries evs g :
  forallb (fun ev => negb (Gui.is_generate ev)) evs = true ->
  P g -> P (fst (Gui.run evs g)).
Proof.
  revert g. induction evs as [|ev evs IH]; intros g Hevs Hg; [done|].
  simpl in Hevs. apply andb_prop in Hevs as [Hev Hevs].
  apply negb_true_iff in Hev.
  pose proof (idle_step_carries ev Hev g Hg) as Hstep. simpl.
  destruct (Gui.step ev g) as [[r g1] es1]; simpl in *.
  specialize (IH g1 Hevs Hstep).
  by destruct (Gui.run evs g1) as [g2 es2].
Qed.

Lemma run_carries evs g : P g -> P (fst (Gui.run evs g)).
Proof.
  revert g. induction evs as [|ev evs IH]; intros g Hg; [done|].
  pose proof (step_carries ev g Hg) as Hstep. simpl.
  destruct (Gui.step ev g) as [[r g1] es1]; simpl in *.
  specialize (IH g1 Hstep).
  by destruct (Gui.run evs g1) as [g2 es2].
Qed.
End GuiInvariant.

(** X1. Whatever happens to the window after it is built, the status
    label reads "Validation status: VALID" exactly when the stored
    validation result, the one [on_send] consults, is valid, and then the
    issue pane reads "No validation issues found.". *)
Theorem status_label_agrees_with_result `{B : Backend}
    (today logo : string) (evs : list Gui.Event) :
  label_agrees (fst (Gui.run evs (Gui.init today logo))).
Proof.
  apply run_carries; try done.
  intros v errs g _. unfold label_agrees. destruct v; simpl; split; done.
Qed.

Section GuiSchema.
Context `{B : Backend}.

Abbreviation setting := (Eff.keeps schema_setting).

Lemma load_accounts_setting : Eff.preserves setting Gui._load_accounts.
Proof. unfold Gui._load_accounts. repeat frame_step; done. Qed.

Lemma on_account_changed_setting n :
  Eff.preserves setting (Gui.on_account_changed n).
Proof. unfold Gui.on_account_changed. repeat frame_step; done. Qed.

Lemma on_load_logo_setting i : Eff.preserves setting (Gui.on_load_logo i).
Proof.
  unfold Gui.on_load_logo, Gui._load_logo_preview, Gui.write_file.
  repeat frame_step; done.
Qed.

Lemma set_validation_result_setting v errs :
  Eff.preserves setting (Gui._set_validation_result v errs).
Proof. unfold Gui._set_validation_result. repeat frame_step; done. Qed.

Lemma on_generate_setting : Eff.preserves setting Gui.on_generate.
Proof.
  unfold Gui.on_generate, Gui._collect_payment.
  repeat first [ apply set_validation_result_setting | frame_step ]; done.
Qed.

Lemma unchanged_setting {A} (m : Gui.Handler A) :
  Eff.preserves eq m -> Eff.preserves setting m.
Proof. apply preserves_weaken. by intros g g' ->. Qed.

Lemma step_schema_setting ev g :
  schema_setting (Eff.state_of (Gui.step ev g)) = schema_after ev g.
Proof.
  destruct ev as [s i|w t|mt]; simpl; [|done..].
  destruct s.
  - apply load_accounts_setting.
  - apply on_load_logo_setting.
  - change (Gui.slot Gui.schema_select_btn_clicked i)
      with (Gui.select_schema_file i).
    unfold Gui.select_schema_file, Eff.bind, Eff.emit, Eff.modify, Eff.ret,
      Eff.state_of.
    by destruct (Py.truthy (Gui.file_name i)).
  - apply on_generate_setting.
  - by rewrite slot_validate.
  - apply unchanged_setting, on_save_unchanged.
  - apply unchanged_setting, on_send_unchanged.
  - change (setting g (Eff.state_of
              (Eff.bind Eff.get (fun g => Gui.on_account_changed
                 (mjoin (snd <$> Gui.account_combo g !! Gui.combo_index i))) g))).
    revert g. change (Eff.preserves setting
              (Eff.bind Eff.get (fun g => Gui.on_account_changed
                 (mjoin (snd <$> Gui.account_combo g !! Gui.combo_index i))))).
    repeat frame_step. apply on_account_changed_setting.
Qed.

(** A schema once chosen stays chosen. *)
Lemma run_keeps_a_schema evs g :
  is_Some (Gui.schema_path g) -> is_Some (Gui.schema_path (fst (Gui.run evs g))).
Proof.
  revert g. induction evs as [|ev evs IH]; intros g Hg; [done|].
  pose proof (step_schema_setting ev g) as Hstep. simpl.
  unfold Eff.state_of in Hstep.
  destruct (Gui.step ev g) as [[r g1] es1]; simpl in *.
  assert (is_Some (Gui.schema_path g1)) as Hg1.
  { apply (f_equal fst) in Hstep. simpl in Hstep. rewrite Hstep.
    unfold schema_after. destruct ev as [[] i| |]; simpl; try done.
    destruct (Py.truthy (Gui.file_name i)); simpl; [by eexists|done]. }
  specialize (IH g1 Hg1). by destruct (Gui.run evs g1) as [g2 es2].
Qed.
End GuiSchema.

(** X2. Whatever happens to the window after it is built, [schema_path]
    is either [None] with the label "No schema selected", or a non-empty
    path with the label showing its base name. An event changes the two
    only when it is a click on the schema button answered with a file
    name, which becomes the path; a click answered by cancelling the
    dialog shows the dialog and leaves the whole window as it was. So a
    schema once chosen is never cleared, whatever events follow. *)
Theorem schema_label_follows_schema_path `{B : Backend}
    (today logo : string) (evs : list Gui.Event) :
  schema_shown (fst (Gui.run evs (Gui.init today logo)))
  /\ (forall ev g,
        schema_setting (Eff.state_of (Gui.step ev g)) = schema_after ev g)
  /\ (forall i g,
        Py.truthy (Gui.file_name i) = false ->
        Gui.step (Gui.Fire Gui.schema_select_btn_clicked i) g
        = (Py.Return tt, g, [Gui.FileDialog "Select pain.001 XSD"]))
  /\ (forall more g,
        is_Some (Gui.schema_path g) ->
        is_Some (Gui.schema_path (fst (Gui.run more g)))).
Proof.
  split; [apply run_carries; done|].
  split; [apply step_schema_setting|].
  split; [|intros more g; apply run_keeps_a_schema].
  intros i g Hi.
  change (Gui.step (Gui.Fire Gui.schema_select_btn_clicked i))
    with (Gui.select_schema_file i).
  unfold Gui.select_schema_file, Eff.bind, Eff.emit, Eff.ret.
  by rewrite Hi.
Qed.

Lemma schema_label_follows_schema_path_witness :
  Gui.schema_path Scenario.switched = Some "assets/schemas/gone.xsd"
  /\ @Gui.step Sample.backend
       (Gui.Fire Gui.schema_select_btn_clicked Sample.cancel) Scenario.switched
     = (Py.Return tt, Scenario.switched,
        [Gui.FileDialog "Select pain.001 XSD"]).
Proof.
  split; [reflexivity|].
  exact (proj1 (proj2 (proj2
           (@schema_label_follows_schema_path Sample.backend "" "" [])))
         Sample.cancel Scenario.switched eq_refl).
Defined.

(** ** The window: what leaves it *)

Section GuiEffects.
Context `{B : Backend}.

Abbreviation quiet := (fun e : Gui.Effect => Gui.is_transport e = false).

Lemma load_accounts_quiet : Eff.emits quiet Gui._load_accounts.
Proof. unfold Gui._load_accounts. repeat frame_step. Qed.

Lemma on_account_changed_quiet n :
  Eff.emits quiet (Gui.on_account_changed n).
Proof. unfold Gui.on_account_changed. repeat frame_step. Qed.

Lemma select_schema_file_quiet i :
  Eff.emits quiet (Gui.select_schema_file i).
Proof. unfold Gui.select_schema_file. repeat frame_step; done. Qed.

Lemma on_load_logo_quiet i : Eff.emits quiet (Gui.on_load_logo i).
Proof.
  unfold Gui.on_load_logo, Gui._load_logo_preview, Gui.write_file.
  repeat frame_step; done.
Qed.

(** With nothing in the preview, no event but a click on
    [Generate Preview] hands anything to a file, a mail server or an SFTP
    server. *)
Lemma idle_step_quiet ev g :
  Gui.is_generate ev = false -> Gui.preview g = "" ->
  Forall quiet (Eff.effects_of (Gui.step ev g)).
Proof.
  destruct ev as [s i|w t|mt]; simpl; intros Hev Hg.
  - destruct s; try discriminate Hev.
    + apply load_accounts_quiet.
    + apply on_load_logo_quiet.
    + apply select_schema_file_quiet.
    + constructor.
    + change (Forall quiet (Eff.effects_of (Gui.on_save i g))).
      unfold Gui.on_save, Eff.bind, Eff.get, Eff.emit. rewrite Hg. simpl.
      by repeat constructor.
    + change (Forall quiet (Eff.effects_of (Gui.on_send i g))).
      unfold Gui.on_send, Eff.bind, Eff.get, Eff.emit. rewrite Hg. simpl.
      by repeat constructor.
    + change (Forall quiet (Eff.effects_of
                (Eff.bind Eff.get (fun g => Gui.on_account_changed
                   (mjoin (snd <$> Gui.account_combo g !! Gui.combo_index i)))
                   g))).
      apply emits_bind; [apply emits_get|]. intros ?.
      apply on_account_changed_quiet.
  - constructor.
  - constructor.
Qed.

Lemma ask_emits P title label answer k :
  P (Gui.InputDialog title label) ->
  (forall t, Eff.emits P (k t)) ->
  Eff.emits P (Gui.ask title label answer k).
Proof. intros HP Hk. unfold Gui.ask. repeat frame_step; auto. Qed.

Lemma send_via_smtp_carries i content now :
  Eff.emits (carries_message content now) (Gui._send_via_smtp i content).
Proof.
  unfold Gui._send_via_smtp.
  repeat (apply ask_emits; [done|]; intros ?). repeat frame_step; done.
Qed.

Lemma send_via_sftp_carries i content now :
  Eff.emits (carries_message content now) (Gui._send_via_sftp i content).
Proof.
  unfold Gui._send_via_sftp. frame_step; [by frame_step|].
  repeat (apply ask_emits; [done|]; intros ?). repeat frame_step; done.
Qed.
Lemma on_send_payload i g :
  Forall (carries_message (Gui.preview g) (Gui.utcnow i))
    (Eff.effects_of (Gui.on_send i g)).
Proof.
  unfold Gui.on_send. rewrite bind_get. cbv beta zeta.
  match goal with
  | |- Forall ?P (Eff.effects_of (?m g)) =>
      cut (Eff.emits P m); [intros H'; apply H'|]
  end.
  unfold Gui.write_file.
  repeat first
    [ apply send_via_smtp_carries | apply send_via_sftp_carries
    | frame_step ]; simpl; auto.
Qed.

Lemma on_save_payload i g :
  Forall (carries_message (Gui.preview g) (Gui.utcnow i))
    (Eff.effects_of (Gui.on_save i g)).
Proof.
  unfold Gui.on_save. rewrite bind_get. cbv beta zeta.
  match goal with
  | |- Forall ?P (Eff.effects_of (?m g)) =>
      cut (Eff.emits P m); [intros H'; apply H'|]
  end.
  unfold Gui.write_file.
  repeat frame_step; simpl; auto.
Qed.
End GuiEffects.

(** X3. While the preview is empty, no sequence of events without a click
    on [Generate Preview] puts anything into the preview, and none of them
    writes a text file, sends a mail or uploads a file: [on_save] and
    [on_send] only warn. *)
Theorem nothing_leaves_before_generation `{B : Backend}
    (evs : list Gui.Event) (g : Gui.SwiftGUI)
    (Hevs : forallb (fun ev => negb (Gui.is_generate ev)) evs = true)
    (Hg : Gui.preview g = "") :
  Gui.preview (fst (Gui.run evs g)) = ""
  /\ Forall (fun e => Gui.is_transport e = false) (snd (Gui.run evs g)).
Proof.
  split.
  - by apply (idle_run_carries (fun g => Gui.preview g = "")).
  - revert g Hg. induction evs as [|ev evs IH]; intros g Hg; [constructor|].
    simpl in Hevs. apply andb_prop in Hevs as [Hev Hevs].
    apply negb_true_iff in Hev.
    pose proof (idle_step_quiet ev g Hev Hg) as Hes.
    pose proof (idle_step_carries (fun g => Gui.preview g = "")) as Hstep.
    specialize (Hstep ltac:(done) ltac:(done) ltac:(done) ltac:(done)
                  ltac:(done) ltac:(done) ev Hev g Hg).
    simpl. unfold Eff.effects_of in Hes.
    destruct (Gui.step ev g) as [[r g1] es1]; simpl in *.
    specialize (IH Hevs g1 Hstep).
    destruct (Gui.run evs g1) as [g2 es2]; simpl in *.
    by apply Forall_app.
Qed.

Lemma nothing_leaves_before_generation_witness :
  let evs := [Gui.Fire Gui.btn_save_clicked (Sample.save_as "out.txt");
              Gui.Type_ Gui.amount_edit_edit "10";
              Gui.Fire Gui.btn_send_clicked (Sample.save_as "out.txt");
              Gui.Fire Gui.btn_validate_clicked Sample.cancel] in
  Gui.preview (fst (@Gui.run Sample.backend evs Sample.window)) = ""
  /\ Forall (fun e => Gui.is_transport e = false)
       (snd (@Gui.run Sample.backend evs Sample.window)).
Proof.
  intros evs.
  exact (@nothing_leaves_before_generation Sample.backend evs Sample.window
           eq_refl eq_refl).
Defined.

(** X4. Whatever the dialogs answer and whether or not the transport
    fails, what [on_send] and [on_save] write, mail or upload is the text
    in the preview: written as it is, appended to [swift_send_log.txt]
    between the line with the time and a blank line, mailed after the
    subject line, or uploaded as it is. Neither handler changes the
    window. *)
Theorem what_leaves_is_the_preview `{B : Backend}
    (i : Gui.Inputs) (g : Gui.SwiftGUI) :
  let send := Gui.step (Gui.Fire Gui.btn_send_clicked i) g in
  let save := Gui.step (Gui.Fire Gui.btn_save_clicked i) g in
  Forall (carries_message (Gui.preview g) (Gui.utcnow i)) (Eff.effects_of send)
  /\ Forall (carries_message (Gui.preview g) (Gui.utcnow i))
       (Eff.effects_of save)
  /\ Eff.state_of send = g
  /\ Eff.state_of save = g.
Proof.
  intros send save. subst send save.
  change (Gui.step (Gui.Fire Gui.btn_send_clicked i) g) with (Gui.on_send i g).
  change (Gui.step (Gui.Fire Gui.btn_save_clicked i) g) with (Gui.on_save i g).
  split; [apply on_send_payload|]. split; [apply on_save_payload|].
  split; symmetry; [apply (on_send_unchanged i g)|apply (on_save_unchanged i g)].
Qed.

(** ** The window: what a mail or an upload needs *)

(** The cases of an effect being one of a list that has been computed. *)
Ltac member_cases H :=
  simpl in H;
  repeat first
    [ apply elem_of_nil in H; destruct H
    | apply elem_of_cons in H as [H|H]; [try discriminate H|] ].

(** X5. [_send_via_smtp] hands a message to the mail server only if all
    four dialogs were accepted, the host answer splits at ":" into exactly
    a host and a port that [int] accepts, and nothing failed; the mail then
    goes to that host and port with the user, password and recipient as
    entered, and its text is the content after the subject line. *)
Theorem smtp_mail_needs_every_answer
    (i : Gui.Inputs) (content : string) (g : Gui.SwiftGUI)
    (host : string) (port : Z) (user passwd recipient msg : string)
    (Hsent : Gui.Sendmail host port user passwd recipient msg
             ∈ Eff.effects_of (Gui._send_via_smtp i content g)) :
  snd (Gui.smtp_host i) = true /\ snd (Gui.smtp_user i) = true
  /\ snd (Gui.smtp_passwd i) = true /\ snd (Gui.smtp_recipient i) = true
  /\ (exists ptext, Py.split ":" (fst (Gui.smtp_host i)) = [host; ptext]
                    /\ Num.int_of_str ptext = Some port)
  /\ Gui.io_failure i = None
  /\ user = fst (Gui.smtp_user i) /\ passwd = fst (Gui.smtp_passwd i)
  /\ recipient = fst (Gui.smtp_recipient i)
  /\ msg = mail_body content.
Proof.
  revert Hsent.
  unfold Gui._send_via_smtp, Gui.ask, Gui.unpack2, Gui.py_int,
    Eff.try_except, Eff.bind, Eff.emit, Eff.ret, Eff.lift, Eff.raise,
    Eff.effects_of.
  destruct (Gui.smtp_host i) as [h ok1], (Gui.smtp_user i) as [u ok2],
    (Gui.smtp_passwd i) as [pw ok3], (Gui.smtp_recipient i) as [rc ok4].
  simpl.
  repeat (case_match; simpl in *; simplify_eq);
    intros Hsent; member_cases Hsent.
  simplify_eq. repeat split; eauto.
Qed.

Lemma smtp_mail_needs_every_answer_witness :
  let i := Scenario.accept "Send by email (SMTP)" in
  Gui.Sendmail "smtp.example.com" 587 "ops" "secret" "desk@example.com"
    (mail_body "MESSAGE")
  ∈ Eff.effects_of (Gui._send_via_smtp i "MESSAGE" Sample.window)
  /\ Gui.io_failure i = None.
Proof.
  intros i.
  assert (Gui.Sendmail "smtp.example.com" 587 "ops" "secret" "desk@example.com"
            (mail_body "MESSAGE")
          ∈ Eff.effects_of (Gui._send_via_smtp i "MESSAGE" Sample.window))
    as Hsent.
  { vm_compute. do 4 apply list_elem_of_further. apply list_elem_of_here. }
  split; [exact Hsent|].
  exact (proj1 (proj2 (proj2 (proj2 (proj2 (proj2
    (smtp_mail_needs_every_answer i "MESSAGE" Sample.window
       _ _ _ _ _ _ Hsent))))))).
Defined.

(** X6. [_send_via_sftp] uploads only if [paramiko] could be imported, all
    five dialogs were accepted, [int] accepts the port answer and nothing
    failed; the upload then uses the answers as entered and carries the
    content unchanged. *)
Theorem sftp_upload_needs_paramiko_and_every_answer `{B : Backend}
    (i : Gui.Inputs) (content : string) (g : Gui.SwiftGUI)
    (host : string) (port : Z) (user passwd remote_path data : string)
    (Hput : Gui.SftpPut host port user passwd remote_path data
            ∈ Eff.effects_of (Gui._send_via_sftp i content g)) :
  HAS_PARAMIKO = true
  /\ snd (Gui.sftp_host i) = true /\ snd (Gui.sftp_port i) = true
  /\ snd (Gui.sftp_user i) = true /\ snd (Gui.sftp_passwd i) = true
  /\ snd (Gui.sftp_remote_path i) = true
  /\ Num.int_of_str (fst (Gui.sftp_port i)) = Some port
  /\ Gui.io_failure i = None
  /\ host = fst (Gui.sftp_host i) /\ user = fst (Gui.sftp_user i)
  /\ passwd = fst (Gui.sftp_passwd i)
  /\ remote_path = fst (Gui.sftp_remote_path i)
  /\ data = content.
Proof.
  revert Hput.
  unfold Gui._send_via_sftp, Gui.ask, Gui.py_int,
    Eff.try_except, Eff.bind, Eff.emit, Eff.ret, Eff.lift, Eff.raise,
    Eff.effects_of.
  destruct (Gui.sftp_host i) as [h ok1], (Gui.sftp_port i) as [pt ok2],
    (Gui.sftp_user i) as [u ok3], (Gui.sftp_passwd i) as [pw ok4],
    (Gui.sftp_remote_path i) as [rp ok5].
  destruct HAS_PARAMIKO; simpl;
    repeat (case_match; simpl in *; simplify_eq);
    intros Hput; member_cases Hput.
  simplify_eq. repeat split; eauto.
Qed.

Lemma sftp_upload_needs_paramiko_and_every_answer_witness :
  let i := Scenario.accept "Upload by SFTP (optional)" in
  Gui.SftpPut "sftp.example.com" 22 "ops" "secret" "/upload/message.txt"
    "MESSAGE"
  ∈ Eff.effects_of (@Gui._send_via_sftp Sample.backend i "MESSAGE" Sample.window)
  /\ @HAS_PARAMIKO Sample.backend = true.
Proof.
  intros i.
  assert (Gui.SftpPut "sftp.example.com" 22 "ops" "secret"
            "/upload/message.txt" "MESSAGE"
          ∈ Eff.effects_of
              (@Gui._send_via_sftp Sample.backend i "MESSAGE" Sample.window))
    as Hput.
  { vm_compute. do 5 apply list_elem_of_further. apply list_elem_of_here. }
  split; [exact Hput|].
  exact (proj1
    (@sftp_upload_needs_paramiko_and_every_answer Sample.backend i "MESSAGE"
       Sample.window _ _ _ _ _ _ Hput)).
Defined.

(** ** The window: the two ways [on_generate] ends *)

(** X7. When [on_generate] ends in its error box, the stored validation
    result, the status label and the issue pane are those from before the
    click; the window is as it was or differs in the preview only. The box
    is the only thing shown and the handler returns. *)
Theorem error_box_leaves_the_old_verdict `{B : Backend} (g : Gui.SwiftGUI)
    (Hbox : existsb is_error_box (Eff.effects_of (Gui.on_generate g)) = true) :
  let g' := Eff.state_of (Gui.on_generate g) in
  Gui.last_validation_result g' = Gui.last_validation_result g
  /\ Gui.validation_status_label g' = Gui.validation_status_label g
  /\ Gui.validation_list g' = Gui.validation_list g
  /\ (g' = g \/ exists text, g' = Gui.set_preview text g)
  /\ (exists msg,
        Eff.effects_of (Gui.on_generate g)
        = [Gui.MessageBox Gui.Critical "Error" msg])
  /\ Eff.result_of (Gui.on_generate g) = Py.Return tt.
Proof.
  revert Hbox.
  unfold Gui.on_generate, Gui._set_validation_result, Eff.try_except,
    Eff.bind, Eff.get, Eff.lift, Eff.modify, Eff.emit, Eff.state_of,
    Eff.effects_of, Eff.result_of.
  repeat (case_match; simpl in *; simplify_eq); intros Hbox;
    try discriminate Hbox; repeat split; eauto.
Qed.

(** The verdict of the MT103 message outlives the XML message that
    replaced it in the preview. *)
Lemma error_box_leaves_the_old_verdict_witness :
  let g := Scenario.switched in
  let g' := Eff.state_of (@Gui.on_generate Sample.backend g) in
  existsb is_error_box (Eff.effects_of (@Gui.on_generate Sample.backend g))
  = true
  /\ Gui.last_validation_result g' = {| valid := true; errors := [] |}
  /\ Gui.preview g' <> Gui.preview g.
Proof.
  intros g g'.
  assert (existsb is_error_box
            (Eff.effects_of (@Gui.on_generate Sample.backend g)) = true)
    as Hbox by (vm_compute; reflexivity).
  split; [exact Hbox|]. split.
  - transitivity (Gui.last_validation_result g);
      [exact (proj1 (@error_box_leaves_the_old_verdict Sample.backend g Hbox))
      |vm_compute; reflexivity].
  - vm_compute. discriminate.
Defined.

(** X8. When [on_generate] returns without its error box, the preview is
    what the generator of the checked format returned for the collected
    payment, and the stored validation result is what the validator
    returned for exactly that text: [validate_mt103_text] for MT103,
    [validate_pain001_generated] with the selected schema for XML. Without
    a schema the stored result is invalid. *)
Theorem generated_verdict_is_for_the_preview `{B : Backend} (g : Gui.SwiftGUI)
    (Hret : Eff.result_of (Gui.on_generate g) = Py.Return tt)
    (Hbox : existsb is_error_box (Eff.effects_of (Gui.on_generate g)) = false) :
  let g' := Eff.state_of (Gui.on_generate g) in
  exists payment,
    Gui._collect_payment g = Py.Return payment
    /\ if Z.eqb (Gui.format_group g) 0 then
         generate_mt103 payment = Py.Return (Gui.preview g')
         /\ exists v issues,
              validate_mt103_text (Gui.preview g') = Py.Return (v, issues)
              /\ Gui.last_validation_result g'
                 = {| valid := v; errors := issues |}
       else
         generate_pain001 payment = Py.Return (Gui.preview g')
         /\ match Gui.schema_path g with
            | Some p =>
                if Py.truthy p then
                  exists v errs,
                    validate_pain001_generated (Gui.preview g') p
                    = Py.Return (v, errs)
                    /\ Gui.last_validation_result g'
                       = {| valid := v; errors := or_nil errs |}
                else valid (Gui.last_validation_result g') = false
            | None => valid (Gui.last_validation_result g') = false
            end.
Proof.
  revert Hret Hbox.
  unfold Gui.on_generate, Gui._set_validation_result, Eff.try_except,
    Eff.bind, Eff.get, Eff.lift, Eff.modify, Eff.emit, Eff.state_of,
    Eff.effects_of, Eff.result_of.
  destruct (Gui._collect_payment g) as [payment|e] eqn:Hpay; simpl.
  - destruct (Z.eqb (Gui.format_group g) 0) eqn:Hfmt; simpl.
    + destruct (generate_mt103 payment) as [mt|e] eqn:Hmt; simpl.
      * destruct (validate_mt103_text mt) as [[v issues]|e] eqn:Hv; simpl.
        -- intros _ _. exists payment. rewrite Hv. eauto 10.
        -- destruct e; simpl; intros Hret Hbox; discriminate.
      * destruct e; simpl; intros Hret Hbox; discriminate.
    + destruct (generate_pain001 payment) as [xml|e] eqn:Hxml; simpl.
      * destruct (Gui.schema_path g) as [p|] eqn:Hp; simpl.
        -- destruct (Py.truthy p) eqn:Ht; simpl.
           ++ destruct (validate_pain001_generated xml p)
                as [[v errs]|e] eqn:Hv; simpl.
              ** intros _ _. exists payment.
                 destruct v; simpl; rewrite Hv; eauto 10.
              ** destruct e; simpl; intros Hret Hbox; discriminate.
           ++ intros _ _. by exists payment.
        -- intros _ _. by exists payment.
      * destruct e; simpl; intros Hret Hbox; discriminate.
  - destruct e; simpl; intros Hret Hbox; discriminate.
Qed.

Lemma generated_verdict_is_for_the_preview_witness :
  let g := Gui.set_format 0 Sample.window in
  Eff.result_of (@Gui.on_generate Sample.backend g) = Py.Return tt
  /\ existsb is_error_box (Eff.effects_of (@Gui.on_generate Sample.backend g))
     = false
  /\ exists payment, @Gui._collect_payment Sample.backend g = Py.Return payment.
Proof.
  intros g.
  assert (Eff.result_of (@Gui.on_generate Sample.backend g) = Py.Return tt)
    as Hret by (vm_compute; reflexivity).
  assert (existsb is_error_box
            (Eff.effects_of (@Gui.on_generate Sample.backend g)) = false)
    as Hbox by (vm_compute; reflexivity).
  split; [exact Hret|]. split; [exact Hbox|].
  destruct (@generated_verdict_is_for_the_preview Sample.backend g Hret Hbox)
    as (payment & Hpay & _).
  by exists payment.
Defined.

(** ** The window: sending after a generation that failed *)

Section GuiStale.
Context `{B : Backend}.

Abbreviation unasked := (fun e : Gui.Effect => is_question e = false).

Lemma error_box_verdict g :
  existsb is_error_box (Eff.effects_of (Gui.on_generate g)) = true ->
  Gui.last_validation_result (Eff.state_of (Gui.on_generate g))
  = Gui.last_validation_result g.
Proof.
  unfold Gui.on_generate, Gui._set_validation_result, Eff.try_except,
    Eff.bind, Eff.get, Eff.lift, Eff.modify, Eff.emit, Eff.state_of,
    Eff.effects_of.
  repeat (case_match; simpl in *; simplify_eq); intros Hbox;
    try discriminate Hbox; done.
Qed.

Lemma send_via_smtp_unasked i content :
  Eff.emits unasked (Gui._send_via_smtp i content).
Proof.
  unfold Gui._send_via_smtp.
  repeat (apply ask_emits; [done|]; intros ?). repeat frame_step; done.
Qed.

Lemma send_via_sftp_unasked i content :
  Eff.emits unasked (Gui._send_via_sftp i content).
Proof.
  unfold Gui._send_via_sftp. frame_step; [by frame_step|].
  repeat (apply ask_emits; [done|]; intros ?). repeat frame_step; done.
Qed.

(** With a valid result stored, [on_send] asks no question. *)
Lemma on_send_unasked i g :
  valid (Gui.last_validation_result g) = true ->
  Forall unasked (Eff.effects_of (Gui.on_send i g)).
Proof.
  intros Hvalid. unfold Gui.on_send. rewrite bind_get. cbv beta zeta.
  rewrite Hvalid. cbn [negb]. cbv iota.
  match goal with
  | |- Forall ?P (Eff.effects_of (?m g)) =>
      cut (Eff.emits P m); [intros H'; apply H'|]
  end.
  unfold Gui.write_file.
  repeat first
    [ apply send_via_smtp_unasked | apply send_via_sftp_unasked
    | frame_step ]; done.
Qed.
End GuiStale.

(** X24. When a valid result is stored and [on_generate] then ends in its
    error box, the stored result is still valid and a click on
    [Send (mock)] asks no question, whatever the preview holds by then and
    whatever the dialogs answer. *)
Theorem send_after_a_failed_generation_is_not_questioned `{B : Backend}
    (g : Gui.SwiftGUI) (i : Gui.Inputs)
    (Hvalid : valid (Gui.last_validation_result g) = true)
    (Hbox : existsb is_error_box (Eff.effects_of (Gui.on_generate g)) = true) :
  let g' := Eff.state_of (Gui.on_generate g) in
  valid (Gui.last_validation_result g') = true
  /\ Forall (fun e => is_question e = false)
       (Eff.effects_of (Gui.step (Gui.Fire Gui.btn_send_clicked i) g')).
Proof.
  intros g'.
  assert (Hg' : valid (Gui.last_validation_result g') = true).
  { subst g'. by rewrite error_box_verdict. }
  split; [exact Hg'|]. by apply on_send_unasked.
Qed.

(** The XML message that no validator has seen is logged without a
    question. *)
Lemma send_after_a_failed_generation_is_not_questioned_witness :
  let g := Scenario.switched in
  let g' := Eff.state_of (@Gui.on_generate Sample.backend g) in
  let i := Scenario.accept "Mock log only" in
  valid (Gui.last_validation_result g) = true
  /\ Gui.preview g' <> Gui.preview g
  /\ Forall (fun e => is_question e = false)
       (Eff.effects_of
          (@Gui.step Sample.backend (Gui.Fire Gui.btn_send_clicked i) g'))
  /\ Gui.WriteFile "swift_send_log.txt" "a"
       (log_entry (Gui.utcnow i) (Gui.preview g'))
     ∈ Eff.effects_of
         (@Gui.step Sample.backend (Gui.Fire Gui.btn_send_clicked i) g').
Proof.
  intros g g' i.
  assert (valid (Gui.last_validation_result g) = true) as Hvalid
    by (vm_compute; reflexivity).
  assert (existsb is_error_box
            (Eff.effects_of (@Gui.on_generate Sample.backend g)) = true)
    as Hbox by (vm_compute; reflexivity).
  split; [exact Hvalid|]. split; [vm_compute; discriminate|].
  split.
  - exact (proj2 (@send_after_a_failed_generation_is_not_questioned
                    Sample.backend g i Hvalid Hbox)).
  - vm_compute. apply list_elem_of_further, list_elem_of_here.
Defined.

(** ** The window: only generated messages leave *)

Section GuiProvenance.
Context `{B : Backend}.

Lemma quiet_carries_generated es :
  Forall (fun e => Gui.is_transport e = false) es ->
  Forall carries_generated es.
Proof.
  intros Hes. eapply Forall_impl; [exact Hes|].
  intros e He Ht. congruence.
Qed.

Lemma payload_carries_generated g now es :
  preview_generated g ->
  (Gui.preview g = "" -> Forall (fun e => Gui.is_transport e = false) es) ->
  Forall (carries_message (Gui.preview g) now) es ->
  Forall carries_generated es.
Proof.
  intros [Hempty|Hgen] Hquiet Hes.
  - by apply quiet_carries_generated, Hquiet.
  - eapply Forall_impl; [exact Hes|]. intros e He _. eauto.
Qed.

Lemma on_generate_provenance :
  maintains preview_generated carries_generated Gui.on_generate.
Proof.
  intros g Hg. split.
  - revert Hg.
    unfold preview_generated, generated, Gui.on_generate,
      Gui._set_validation_result, Eff.try_except,
      Eff.bind, Eff.get, Eff.lift, Eff.modify, Eff.emit, Eff.state_of.
    repeat (case_match; simpl in *; simplify_eq); eauto.
  - apply quiet_carries_generated.
    unfold Gui.on_generate, Gui._set_validation_result.
    cut (Eff.emits (fun e => Gui.is_transport e = false) Gui.on_generate);
      [intros H'; apply H'|].
    unfold Gui.on_generate, Gui._set_validation_result.
    repeat frame_step; done.
Qed.

Lemma account_changed_slot_quiet i :
  Eff.emits (fun e => Gui.is_transport e = false)
    (Gui.step (Gui.Fire Gui.account_combo_currentIndexChanged i)).
Proof.
  change (Eff.emits (fun e => Gui.is_transport e = false)
            (Eff.bind Eff.get (fun g => Gui.on_account_changed
               (mjoin (snd <$> Gui.account_combo g !! Gui.combo_index i))))).
  apply emits_bind; [apply emits_get|]. intros ?.
  apply on_account_changed_quiet.
Qed.

Lemma step_provenance ev :
  maintains preview_generated carries_generated (Gui.step ev).
Proof.
  destruct (Gui.is_generate ev) eqn:Hev.
  { destruct ev as [[] i| |]; try discriminate Hev.
    apply on_generate_provenance. }
  intros g Hg. split.
  - apply (idle_step_carries preview_generated); try done.
  - destruct ev as [s i|w t|mt]; try by constructor.
    destruct s; try discriminate Hev.
    + apply quiet_carries_generated, load_accounts_quiet.
    + apply quiet_carries_generated, on_load_logo_quiet.
    + apply quiet_carries_generated, select_schema_file_quiet.
    + by constructor.
    + apply (payload_carries_generated g (Gui.utcnow i)); [done| |].
      * intros He.
        apply (idle_step_quiet (Gui.Fire Gui.btn_save_clicked i) g); done.
      * apply on_save_payload.
    + apply (payload_carries_generated g (Gui.utcnow i)); [done| |].
      * intros He.
        apply (idle_step_quiet (Gui.Fire Gui.btn_send_clicked i) g); done.
      * apply on_send_payload.
    + apply quiet_carries_generated, account_changed_slot_quiet.
Qed.

Lemma run_provenance evs g :
  preview_generated g ->
  preview_generated (fst (Gui.run evs g))
  /\ Forall carries_generated (snd (Gui.run evs g)).
Proof.
  revert g. induction evs as [|ev evs IH]; intros g Hg; [by split|].
  destruct (step_provenance ev g Hg) as [Hg1 Hes1]. simpl.
  unfold Eff.state_of, Eff.effects_of in *.
  destruct (Gui.step ev g) as [[r g1] es1]; simpl in *.
  destruct (IH g1 Hg1) as [Hg2 Hes2].
  destruct (Gui.run evs g1) as [g2 es2]; simpl in *.
  split; [done|by apply Forall_app].
Qed.
End GuiProvenance.

(** X21. Whatever happens to the window after it is built, every text
    file it writes, every mail it sends and every file it uploads carries
    a text that [generate_mt103] or [generate_pain001] returned for some
    payment: as it is, as an entry of the log, or after the subject line
    of the mail. *)
Theorem only_generated_messages_leave `{B : Backend}
    (today logo : string) (evs : list Gui.Event) :
  Forall carries_generated (snd (Gui.run evs (Gui.init today logo))).
Proof. apply run_provenance. by left. Qed.

(** ** The arguments of the builder *)

Lemma or_None_strip_clean s : clean (Py.or_None (Py.strip s)).
Proof.
  unfold clean, Py.or_None. destruct (Py.truthy (Py.strip s)) eqn:Ht; [|done].
  split; [exact Ht|apply strip_idem].
Qed.

(** X9. Both front ends pass each optional field (value date, remittance
    information, beneficiary BIC, reference) to the builder either as
    [None] or as a non-empty text with no white space around it: a field
    left blank or filled with spaces never arrives as a text. *)
Theorem optional_fields_reach_the_builder_clean
    (g : Gui.SwiftGUI) (i : Streamlit.Widgets) (amount : decimal.Decimal) :
  Forall clean (optional_args (Gui.payment_args g amount))
  /\ Forall clean (optional_args (Streamlit.payment_args i amount)).
Proof.
  split; repeat constructor; apply or_None_strip_clean.
Qed.

(** ** The Streamlit script: the keys of the session state *)

Global Instance keeps_keys_refl : Reflexive keeps_keys.
Proof. unfold keeps_keys. intros w k. auto. Qed.

Global Instance keeps_keys_trans : Transitive keeps_keys.
Proof. unfold keeps_keys. intros w1 w2 w3 H1 H2 k. auto. Qed.

Section StreamlitKeys.
Context `{B : Backend}.
Variable config : gmap string Streamlit.Value.
Variable i : Streamlit.Widgets.





















End StreamlitKeys.



(** ** The Streamlit script: uploads *)

Lemma rev_app_truthy s t :
  Py.truthy t = true -> Py.truthy (String.rev_app s t) = true.
Proof.
  revert t. induction s as [|c s IH]; intros t Ht; [done|]. by apply IH.
Qed.

Lemma rev_truthy s : Py.truthy s = true -> Py.truthy (String.rev s) = true.
Proof.
  destruct s as [|c s]; [done|]. intros _.
  unfold String.rev. simpl. by apply rev_app_truthy.
Qed.

Lemma append_truthy a b : Py.truthy a = true -> Py.truthy (a +:+ b) = true.
Proof. destruct a; [done|reflexivity]. Qed.
Lemma path_join_truthy a b :
  Py.truthy a = true -> Py.truthy (Gui.path_join a b) = true.
Proof.
  intros Ha. unfold Gui.path_join.
  destruct (String.prefix "/" b) eqn:Hb; [by destruct b|].
  pose proof (rev_truthy a Ha) as Hr.
  destruct (String.rev a) as [|c r]; [done|].
  repeat case_match; by apply append_truthy.
Qed.
Lemma path_join_name_truthy a b :
  Py.truthy b = true -> Py.truthy (Gui.path_join a b) = true.
Proof.
  intros Hb. unfold Gui.path_join.
  destruct (String.prefix "/" b); [done|].
  destruct (String.rev a) as [|c r] eqn:Hr; [done|].
  assert (Py.truthy a = true) as Ha.
  { destruct a; [discriminate Hr|done]. }
  repeat case_match; by apply append_truthy.
Qed.

Lemma selectbox_first opt options :
  Streamlit.selectbox (opt :: options) opt = opt.
Proof.
  unfold Streamlit.selectbox. rewrite bool_decide_true; [done|].
  apply list_elem_of_here.
Qed.

(** X11. When a schema is uploaded and the select box is left on
    "-- keep current --", the schema panel stores the uploaded content
    under [ASSETS_DIR/schemas] by the base name of the upload and makes
    that path the session's [schema_path]; the path is non-empty and exists
    on disk, which is the condition under which the generate and validate
    branches call the validator; and the last configuration saved holds
    this path together with the logo path of the session. (Writing the
    file is taken to succeed.) *)
Theorem uploaded_schema_is_stored_and_current `{B : Backend}
    (i : Streamlit.Widgets) (w : Streamlit.World) (name data : string)
    (Hup : Streamlit.uploaded_xsd i = Some (name, data))
    (Hkeep : Streamlit.persisted_choice i = "-- keep current --") :
  let target := Gui.path_join (Gui.path_join ASSETS_DIR "schemas")
                  (Gui.basename name) in
  let w' := Eff.state_of (Streamlit.schema_panel i w) in
  Streamlit.files (Streamlit.fs w') !! target = Some data
  /\ Streamlit.session_state w' !! "schema_path"
     = Some (Streamlit.VStr target)
  /\ Streamlit.value_truthy (Streamlit.VStr target)
     && Streamlit.path_exists (Streamlit.fs w') target = true
  /\ last (Streamlit.saved (Eff.effects_of (Streamlit.schema_panel i w)))
     = Some (<["schema_path" := Streamlit.VStr target]>
               (<["logo_path" :=
                    Streamlit.dict_get (Streamlit.session_state w) "logo_path"]>
                  ∅)).
Proof.
  intros target w'.
  assert (Ht : Py.truthy target = true).
  { apply path_join_truthy, path_join_name_truthy. done. }
  subst w' target.
  unfold Streamlit.schema_panel, Streamlit.write_file,
    Streamlit.save_config_from_session, Eff.bind, Eff.get, Eff.emit,
    Eff.modify, Eff.ret, Eff.effects_of, Eff.state_of.
  rewrite Hup, Hkeep. simpl.
  repeat (case_match; simpl in *; simplify_eq);
    unfold Streamlit.set_item, Streamlit.set_fs, Streamlit.write; simpl;
    (split; [by rewrite lookup_insert_eq|]);
    (split; [by rewrite lookup_insert_eq|]);
    (split;
       [rewrite Ht; unfold Streamlit.path_exists; simpl;
        rewrite lookup_insert_eq; by rewrite bool_decide_true|]);
    unfold Streamlit.dict_get; by rewrite lookup_insert_eq, lookup_insert_ne.
Qed.

Lemma uploaded_schema_is_stored_and_current_witness :
  Streamlit.session_state
    (Eff.state_of
       (@Streamlit.schema_panel Sample.backend Sample.uploads Sample.fresh))
  !! "schema_path"
  = Some (Streamlit.VStr "assets/schemas/pain.001.xsd").
Proof.
  exact (proj1 (proj2
    (@uploaded_schema_is_stored_and_current Sample.backend Sample.uploads
       Sample.fresh "pain.001.xsd" "<xs:schema/>" eq_refl eq_refl))).
Defined.

(** X12. When a logo is uploaded, the assets directory having a name, the
    logo panel stores it under [ASSETS_DIR] by the base name of the upload
    and makes that path the session's [logo_path], and the compose panel
    of the same run shows that image first. (Writing the file is taken to
    succeed.) *)
Theorem uploaded_logo_is_shown `{B : Backend}
    (i : Streamlit.Widgets) (w : Streamlit.World) (name data : string)
    (Hlogo : Streamlit.logo_file i = Some (name, data))
    (Hassets : Py.truthy ASSETS_DIR = true) :
  let target := Gui.path_join ASSETS_DIR (Gui.basename name) in
  let w' := Eff.state_of (Streamlit.logo_panel i w) in
  Streamlit.files (Streamlit.fs w') !! target = Some data
  /\ Streamlit.session_state w' !! "logo_path" = Some (Streamlit.VStr target)
  /\ head (Eff.effects_of (Streamlit.compose_panel w'))
     = Some (Streamlit.Image target).
Proof.
  intros target w'.
  assert (Ht : Py.truthy target = true) by by apply path_join_truthy.
  subst w' target.
  unfold Streamlit.logo_panel, Streamlit.compose_panel, Streamlit.write_file,
    Streamlit.save_config_from_session, Streamlit.setdefault, Eff.bind,
    Eff.get, Eff.emit, Eff.modify, Eff.ret, Eff.effects_of, Eff.state_of.
  rewrite Hlogo. simpl.
  unfold Streamlit.dict_get, Streamlit.path_exists. simpl.
  rewrite !lookup_insert_eq. simpl. rewrite Ht.
  repeat split. simpl.
  by repeat (case_match; simpl in *; simplify_eq).
Qed.

Lemma uploaded_logo_is_shown_witness :
  head (Eff.effects_of
          (Streamlit.compose_panel
             (Eff.state_of
                (@Streamlit.logo_panel Sample.backend Sample.uploads
                   Sample.fresh))))
  = Some (Streamlit.Image "assets/logo.png").
Proof.
  exact (proj2 (proj2
    (@uploaded_logo_is_shown Sample.backend Sample.uploads Sample.fresh
       "logo.png" "PNG" eq_refl eq_refl))).
Defined.

(** ** Where uploads and copies are stored *)

Lemma split_slash_free s :
  Forall (fun w => Py.free_of "/" w = true) (Py.split "/" s).
Proof.
  unfold Py.split, Py.free_of. apply split_by_pieces.
  induction s as [|c s IH]; [done|]. cbn [Py.all].
  apply andb_true_intro. split; [|exact IH].
  rewrite (Ascii.eqb_sym "/" c). by destruct (Ascii.eqb c "/").
Qed.

Lemma last_Forall {A} (P : A -> Prop) (l : list A) (d : A) :
  P d -> Forall P l -> P (List.last l d).
Proof.
  intros Hd Hl. induction Hl as [|x l Hx Hl IH]; [done|].
  simpl. by destruct l.
Qed.

(** A base name has no directory part. *)
Lemma basename_free p : Py.free_of "/" (Gui.basename p) = true.
Proof.
  unfold Gui.basename. apply last_Forall; [done|apply split_slash_free].
Qed.

Lemma directly_in_basename dir p :
  directly_in dir (Gui.path_join dir (Gui.basename p)).
Proof. exists (Gui.basename p). split; [apply basename_free|done]. Qed.

Section Stores.
Context `{B : Backend}.
Variable config : gmap string Streamlit.Value.
Variable i : Streamlit.Widgets.

Lemma setdefault_stores k v :
  Eff.emits stores_in_assets (Streamlit.setdefault k v).
Proof. unfold Streamlit.setdefault. repeat frame_step. Qed.

Lemma panels_stores :
  Eff.emits stores_in_assets (Streamlit.panels config i).
Proof.
  unfold Streamlit.panels, Streamlit.load_settings, Streamlit.accounts_panel,
    Streamlit.schema_panel, Streamlit.logo_panel, Streamlit.compose_panel,
    Streamlit.write_file, Streamlit.save_config_from_session.
  repeat first [ apply setdefault_stores | frame_step ]; try done.
  - split; [done|]. right. apply directly_in_basename.
  - split; [done|]. left. apply directly_in_basename.
Qed.
End Stores.

(** X22. A logo chosen in the window is copied, in binary mode, to a file
    directly in the assets directory, and every file the panels of the
    Streamlit script write is written in binary mode directly in the assets
    directory or in its schema directory: the name under which an upload
    is stored is its base name, which has no directory part. *)
Theorem uploads_are_stored_by_base_name `{B : Backend}
    (config : gmap string Streamlit.Value)
    (i : Streamlit.Widgets) (w : Streamlit.World)
    (j : Gui.Inputs) (g : Gui.SwiftGUI) :
  Forall copies_into_assets
    (Eff.effects_of (Gui.step (Gui.Fire Gui.load_logo_btn_clicked j) g))
  /\ Forall stores_in_assets (Eff.effects_of (Streamlit.panels config i w)).
Proof.
  split; [|apply panels_stores].
  change (Forall copies_into_assets (Eff.effects_of (Gui.on_load_logo j g))).
  cut (Eff.emits copies_into_assets (Gui.on_load_logo j));
    [intros H'; apply H'|].
  unfold Gui.on_load_logo, Gui._load_logo_preview, Gui.write_file.
  repeat frame_step; try done.
  split; [done|apply directly_in_basename].
Qed.

(** ** The Streamlit script: a schema that cannot be read *)

(** X13. When 'Validate Current Preview' finds an XML preview and a schema
    file that exists, and the validator raises [SchemaNotFoundError], the
    validate branch shows "Schema error: ..." and changes nothing: the
    validation result stored before stays. *)
Theorem schema_error_on_manual_validation_changes_nothing `{B : Backend}
    (w : Streamlit.World) (content sp msg : string)
    (Hcontent : Streamlit.get_str w "preview_content" "" = content)
    (Hsome : Py.truthy content = true)
    (Hxml : Streamlit.dict_get (Streamlit.session_state w) "last_format"
            = Streamlit.VStr "XML")
    (Hsp : Streamlit.dict_get (Streamlit.session_state w) "schema_path"
           = Streamlit.VStr sp)
    (Htruthy : Py.truthy sp = true)
    (Hexists : Streamlit.path_exists (Streamlit.fs w) sp = true)
    (Herr : validate_pain001_generated content sp
            = Py.Raise (Py.SchemaNotFoundError msg)) :
  Streamlit.validate_branch w
  = (Py.Return tt, w,
     [Streamlit.St Streamlit.error ("Schema error: " +:+ msg)]).
Proof.
  unfold Streamlit.validate_branch, Eff.try_except_schema, Eff.bind, Eff.get,
    Eff.lift, Eff.emit.
  rewrite Hcontent, Hsome, Hxml, Hsp. simpl.
  rewrite Htruthy, Hexists. simpl. by rewrite Herr.
Qed.

Lemma schema_error_on_manual_validation_changes_nothing_witness :
  Streamlit.get_result
    (Eff.state_of (@Streamlit.validate_branch Sample.backend Scenario.unreadable))
  = {| valid := true; errors := [] |}.
Proof.
  rewrite (@schema_error_on_manual_validation_changes_nothing Sample.backend
             Scenario.unreadable "<Document/>" "assets/schemas/gone.xsd"
             "Schema not found: assets/schemas/gone.xsd"
             eq_refl eq_refl eq_refl eq_refl eq_refl eq_refl eq_refl).
  reflexivity.
Defined.

(** X14. When 'Generate Preview' produces an XML preview, the schema file
    exists and the validator raises [SchemaNotFoundError], the generate
    branch stores the new preview and records an invalid result whose only
    issue is the text of the error; it shows the success of the generation
    and the schema error, and returns. *)
Theorem schema_error_on_generation_is_recorded `{B : Backend}
    (i : Streamlit.Widgets) (w : Streamlit.World) (payment : Payment)
    (xml sp msg : string)
    (Hpay : Streamlit._build_payment_dict i w
            = (Py.Return (Some payment), w, []))
    (Hfmt : Py.startswith (Streamlit.fmt i) "ISO20022" = true)
    (Hgen : generate_pain001 payment = Py.Return xml)
    (Hsp : Streamlit.dict_get (Streamlit.session_state w) "schema_path"
           = Streamlit.VStr sp)
    (Htruthy : Py.truthy sp = true)
    (Hexists : Streamlit.path_exists (Streamlit.fs w) sp = true)
    (Herr : validate_pain001_generated xml sp
            = Py.Raise (Py.SchemaNotFoundError msg)) :
  let w' := Eff.state_of (Streamlit.generate_branch i w) in
  Eff.result_of (Streamlit.generate_branch i w) = Py.Return tt
  /\ Eff.effects_of (Streamlit.generate_branch i w)
     = [Streamlit.St Streamlit.success "XML preview generated";
        Streamlit.St Streamlit.error ("Schema error: " +:+ msg)]
  /\ Streamlit.session_state w' !! "preview_content"
     = Some (Streamlit.VStr xml)
  /\ Streamlit.session_state w' !! "validation_result"
     = Some (Streamlit.VDict {| valid := false; errors := [msg] |}).
Proof.
  unfold Streamlit.generate_branch, Streamlit.set_result,
    Eff.try_except_schema, Eff.bind, Eff.get, Eff.lift, Eff.emit, Eff.modify,
    Eff.state_of, Eff.result_of, Eff.effects_of.
  rewrite Hpay, Hfmt, Hgen. simpl.
  assert (Streamlit.dict_get
            (<["last_format":=Streamlit.VStr "XML"]>
               (<["preview_content":=Streamlit.VStr xml]>
                  (Streamlit.session_state w))) "schema_path"
          = Streamlit.VStr sp) as ->.
  { rewrite <- Hsp. unfold Streamlit.dict_get. by rewrite !lookup_insert_ne. }
  simpl. rewrite Htruthy, Hexists, Herr. simpl.
  repeat split.
  - by rewrite lookup_insert_ne, lookup_insert_ne, lookup_insert_eq.
  - by rewrite lookup_insert_eq.
Qed.

Lemma schema_error_on_generation_is_recorded_witness :
  Streamlit.get_result
    (Eff.state_of
       (@Streamlit.generate_branch Sample.backend
          (Sample.press true false false) Scenario.unreadable))
  = {| valid := false;
       errors := ["Schema not found: assets/schemas/gone.xsd"] |}.
Proof.
  destruct (@schema_error_on_generation_is_recorded Sample.backend
              (Sample.press true false false) Scenario.unreadable
              Sample.payment
              (SwiftMessages.generate_pain001 "2024-05-31T12:00:00" Sample.payment)
              "assets/schemas/gone.xsd"
              "Schema not found: assets/schemas/gone.xsd"
              eq_refl eq_refl eq_refl eq_refl eq_refl eq_refl eq_refl)
    as (_ & _ & _ & Hv).
  unfold Streamlit.get_result. by rewrite Hv.
Defined.

(** ** What stays true along a handler, with what it emits *)

Section Maintains.
Context {S E : Type}.
Implicit Types I : S -> Prop.
Implicit Types P : E -> Prop.

Lemma maintains_frame I P {A} (m : Eff.Handler S E A) :
  Eff.preserves (carries I) m -> Eff.emits P m -> maintains I P m.
Proof. intros Hm He s Hs. split; [by apply Hm|apply He]. Qed.

Lemma maintains_bind I P {A C}
    (m : Eff.Handler S E A) (k : A -> Eff.Handler S E C) :
  maintains I P m -> (forall a, maintains I P (k a)) ->
  maintains I P (Eff.bind m k).
Proof.
  intros Hm Hk s Hs. unfold Eff.bind, Eff.state_of, Eff.effects_of.
  destruct (Hm s Hs) as [Hs1 Hes1].
  unfold Eff.state_of, Eff.effects_of in *.
  destruct (m s) as [[[a|e] s1] es1]; simpl in *; [|done].
  destruct (Hk a s1 Hs1) as [Hs2 Hes2].
  unfold Eff.state_of, Eff.effects_of in *.
  destruct (k a s1) as [[r s2] es2]; simpl in *.
  split; [done|by apply Forall_app].
Qed.

(** After reading the state, the rest may rely on what is known of it. *)
Lemma maintains_bind_get I P {A} (k : S -> Eff.Handler S E A) :
  (forall s, I s -> maintains I P (k s)) -> maintains I P (Eff.bind Eff.get k).
Proof. intros Hk s Hs. rewrite bind_get. by apply Hk. Qed.

Lemma maintains_when I P (b : bool) (m : Eff.Handler S E unit) :
  maintains I P m -> maintains I P (Eff.when b m).
Proof.
  destruct b; [done|]. intros _ s Hs. split; [done|constructor].
Qed.
End Maintains.

Section StreamlitPayload.
Context `{B : Backend}.
Variable i : Streamlit.Widgets.
Variable content : string.

Abbreviation payload := (carries_preview content (Streamlit.utcnow i)).

Lemma write_issues_payload k es :
  Eff.emits payload (Streamlit.write_issues k es).
Proof.
  revert k. induction es as [|e es IH]; intros k; simpl; repeat frame_step;
    [done|]. apply IH.
Qed.

Lemma write_issues_previews k es :
  Eff.preserves (carries (previews content)) (Streamlit.write_issues k es).
Proof.
  revert k. induction es as [|e es IH]; intros k; simpl; repeat frame_step.
  apply IH.
Qed.

Lemma display_panel_payload :
  maintains (previews content) payload Streamlit.display_panel.
Proof.
  apply maintains_frame; unfold Streamlit.display_panel;
    repeat first
      [ apply write_issues_previews | apply write_issues_payload
      | frame_step ]; done.
Qed.

Lemma download_branch_payload :
  maintains (previews content) payload (Streamlit.download_branch i).
Proof.
  unfold Streamlit.download_branch. apply maintains_bind_get.
  intros w Hw. unfold previews in Hw. cbv zeta. rewrite Hw.
  apply maintains_frame; repeat frame_step; done.
Qed.

Lemma send_branch_payload :
  maintains (previews content) payload (Streamlit.send_branch i).
Proof.
  unfold Streamlit.send_branch. apply maintains_bind_get.
  intros w Hw. unfold previews in Hw. cbv zeta. rewrite Hw.
  apply maintains_frame; repeat frame_step; try done.
  intros Hs. exact Hs.
Qed.

Lemma footer_payload :
  maintains (previews content) payload (Streamlit.footer i).
Proof.
  unfold Streamlit.footer.
  repeat first
    [ apply display_panel_payload
    | apply maintains_when; first [ apply download_branch_payload
                                  | apply send_branch_payload ]
    | apply maintains_bind; [|intros ?]
    | apply maintains_frame; repeat frame_step; done ].
Qed.
Lemma write_issues_session k es :
  Eff.preserves (Eff.keeps Streamlit.session_state)
    (Streamlit.write_issues k es).
Proof.
  revert k. induction es as [|e es IH]; intros k; simpl; repeat frame_step.
  apply IH.
Qed.

Lemma footer_session :
  Eff.preserves (Eff.keeps Streamlit.session_state) (Streamlit.footer i).
Proof.
  unfold Streamlit.footer, Streamlit.display_panel,
    Streamlit.download_branch, Streamlit.send_branch.
  repeat first [ apply write_issues_session | frame_step ]; done.
Qed.
End StreamlitPayload.

(** X15. From the display of the preview to the end of the script,
    whatever is offered for download, appended to the log, mailed or
    uploaded is the preview the session state held when that part began,
    and the session state is the same afterwards. *)
Theorem streamlit_hands_out_the_stored_preview `{B : Backend}
    (i : Streamlit.Widgets) (w : Streamlit.World) :
  Forall (carries_preview (Streamlit.get_str w "preview_content" "")
            (Streamlit.utcnow i))
    (Eff.effects_of (Streamlit.footer i w))
  /\ Streamlit.session_state (Eff.state_of (Streamlit.footer i w))
     = Streamlit.session_state w.
Proof.
  split; [by apply (footer_payload i _ w)|apply (footer_session i w)].
Qed.

(** X23. The send branch of the Streamlit script mails the message only if
    there is a preview, the stored result is valid or the override box is
    ticked, the method shown is "Email (SMTP)", 'Send email now' is
    pressed, the host field splits at ":" into exactly a host and a port
    that [int] accepts, and nothing failed; the mail then goes to that
    host and port with the user, password and recipient of the form, and
    its text is the preview after the subject line. *)
Theorem streamlit_mail_needs_the_button_and_a_port `{B : Backend}
    (i : Streamlit.Widgets) (w : Streamlit.World)
    (host : string) (port : Z) (user passwd rcpt msg : string)
    (Hsent : Streamlit.Sendmail host port user passwd rcpt msg
             ∈ Eff.effects_of (Streamlit.send_branch i w)) :
  Py.truthy (Streamlit.get_str w "preview_content" "") = true
  /\ (valid (Streamlit.get_result w) = true
      \/ Streamlit.override_checkbox i = true)
  /\ Streamlit.selectbox
       ["Log locally"; "Email (SMTP)"; "Upload via SFTP (optional)"]
       (Streamlit.send_method i) = "Email (SMTP)"
  /\ Streamlit.send_email_now i = true
  /\ (exists ptext,
        Py.split ":" (Streamlit.smtp_host i) = [host; ptext]
        /\ Num.int_of_str ptext = Some port)
  /\ Streamlit.io_failure i = None
  /\ user = Streamlit.smtp_user i /\ passwd = Streamlit.smtp_pass i
  /\ rcpt = Streamlit.recipient i
  /\ msg = mail_body (Streamlit.get_str w "preview_content" "").
Proof.
  revert Hsent.
  unfold Streamlit.send_branch, Gui.unpack2, Gui.py_int, Eff.when,
    Eff.try_except, Eff.bind, Eff.get, Eff.emit, Eff.ret, Eff.lift,
    Eff.raise, Eff.modify, Eff.effects_of.
  destruct (Py.truthy (Streamlit.get_str w "preview_content" "")); simpl;
    [|intros Hsent; by member_cases Hsent].
  destruct (valid (Streamlit.get_result w)),
    (Streamlit.override_checkbox i); simpl;
    try (intros Hsent; by member_cases Hsent).
  all: destruct (String.eqb_spec
                   (Streamlit.selectbox
                      ["Log locally"; "Email (SMTP)";
                       "Upload via SFTP (optional)"]
                      (Streamlit.send_method i)) "Log locally") as [Hlog|Hlog];
    simpl;
    [repeat (case_match; simpl in *; simplify_eq);
     intros Hsent; by member_cases Hsent|].
  all: destruct (String.eqb_spec
                   (Streamlit.selectbox
                      ["Log locally"; "Email (SMTP)";
                       "Upload via SFTP (optional)"]
                      (Streamlit.send_method i)) "Email (SMTP)") as [Hmail|Hmail];
    simpl;
    [|repeat (case_match; simpl in *; simplify_eq);
      intros Hsent; by member_cases Hsent].
  all: repeat (case_match; simpl in *; simplify_eq);
    intros Hsent; member_cases Hsent; simplify_eq;
    repeat split; eauto.
Qed.

Lemma streamlit_mail_needs_the_button_and_a_port_witness :
  let i := Scenario.mail in
  let w := Eff.state_of
             (@Streamlit.generate_branch Sample.backend Sample.widgets
                Sample.fresh) in
  Streamlit.Sendmail "smtp.example.com" 587 "ops" "secret" "desk@example.com"
    (mail_body (Streamlit.get_str w "preview_content" ""))
  ∈ Eff.effects_of (@Streamlit.send_branch Sample.backend i w)
  /\ Streamlit.override_checkbox i = true.
Proof.
  intros i w.
  assert (Streamlit.Sendmail "smtp.example.com" 587 "ops" "secret"
            "desk@example.com"
            (mail_body (Streamlit.get_str w "preview_content" ""))
          ∈ Eff.effects_of (@Streamlit.send_branch Sample.backend i w))
    as Hsent.
  { vm_compute. apply list_elem_of_here. }
  split; [exact Hsent|].
  destruct (proj1 (proj2
    (@streamlit_mail_needs_the_button_and_a_port Sample.backend i w
       _ _ _ _ _ _ Hsent))) as [Hvalid|Hbox]; [discriminate Hvalid|exact Hbox].
Defined.

(** ** The Streamlit script: the configuration file and the session *)

Lemma setdefault_present k v w :
  has_key k w -> Streamlit.setdefault k v w = (Py.Return tt, w, []).
Proof.
  intros [x Hx]. unfold Streamlit.setdefault, Eff.bind, Eff.get, Eff.ret.
  by rewrite Hx.
Qed.

(** X16. When the session state already holds [schema_path] and
    [logo_path], a run of the script does not depend on the configuration
    that was loaded: the configuration file only seeds a fresh session. *)
Theorem config_is_read_only_by_a_fresh_session `{B : Backend}
    (config config' : gmap string Streamlit.Value)
    (i : Streamlit.Widgets) (w : Streamlit.World)
    (Hschema : has_key "schema_path" w)
    (Hlogo : has_key "logo_path" w) :
  Streamlit.script config i w = Streamlit.script config' i w.
Proof.
  assert (Hload : forall c, Streamlit.load_settings c w
                  = (Py.Return tt,
                     Streamlit.set_fs (Streamlit.makedirs ASSETS_DIR) w,
                     [Streamlit.St Streamlit.title
                        "Swift Alliance — Message Converter & ISO20022 Validator (Streamlit)"])).
  { intros c. unfold Streamlit.load_settings, Eff.bind, Eff.modify, Eff.emit.
    simpl. by rewrite !setdefault_present. }
  unfold Streamlit.script, Streamlit.panels.
  do 2 apply bind_ext_l. by rewrite !Hload.
Qed.

Lemma config_is_read_only_by_a_fresh_session_witness :
  @Streamlit.script Sample.backend ∅ (Sample.press true false false)
    Sample.stale
  = @Streamlit.script Sample.backend
      {["schema_path" := Streamlit.VStr "assets/schemas/pain.001.xsd"]}
      (Sample.press true false false) Sample.stale.
Proof.
  apply (@config_is_read_only_by_a_fresh_session Sample.backend).
  - unfold has_key. by eexists.
  - unfold has_key. by eexists.
Defined.

(** ** The build helper *)

Lemma first_existing_spec exists_ dir names :
  match BuildDist.first_existing exists_ dir names with
  | Some p =>
      exists pre n post,
        names = pre ++ n :: post /\ p = Gui.path_join dir n
        /\ exists_ p = true
        /\ Forall (fun m => exists_ (Gui.path_join dir m) = false) pre
  | None => Forall (fun m => exists_ (Gui.path_join dir m) = false) names
  end.
Proof.
  induction names as [|n names IH]; simpl; [constructor|].
  destruct (exists_ (Gui.path_join dir n)) eqn:Hn.
  - exists [], n, names. by repeat split.
  - destruct (BuildDist.first_existing exists_ dir names) as [p|].
    + destruct IH as (pre & m & post & -> & -> & Hp & Hpre).
      exists (n :: pre), m, post. repeat split; [done|by constructor].
    + by constructor.
Qed.

(** X17. [find_logo] returns the path of the first name in
    [LOGO_FILENAMES] (PNG before SVG before JPG) whose path under the
    assets directory exists, and [None] when none of them exists. *)
Theorem find_logo_takes_the_first_that_exists
    (exists_ : string -> bool) (dir : string) :
  match BuildDist.find_logo exists_ dir with
  | Some p =>
      exists pre n post,
        BuildDist.LOGO_FILENAMES = pre ++ n :: post
        /\ p = Gui.path_join dir n /\ exists_ p = true
        /\ Forall (fun m => exists_ (Gui.path_join dir m) = false) pre
  | None =>
      Forall (fun m => exists_ (Gui.path_join dir m) = false)
        BuildDist.LOGO_FILENAMES
  end.
Proof. apply first_existing_spec. Qed.

(** What [find_logo] returns is no empty path. *)
Lemma find_logo_truthy exists_ dir p :
  BuildDist.find_logo exists_ dir = Some p -> Py.truthy p = true.
Proof.
  intros Hp. pose proof (first_existing_spec exists_ dir
                           BuildDist.LOGO_FILENAMES) as H.
  unfold BuildDist.find_logo in Hp. rewrite Hp in H.
  destruct H as (pre & n & post & Hn & -> & _).
  apply path_join_name_truthy.
  assert (n ∈ BuildDist.LOGO_FILENAMES) as Hin.
  { rewrite Hn. apply elem_of_app. right. apply list_elem_of_here. }
  unfold BuildDist.LOGO_FILENAMES in Hin. member_cases Hin; by subst n.
Qed.

(** X18. [main] copies a logo only when PyInstaller could be imported
    and returned 0, a logo is found after the build,
    [dist/swift_alliance_gui/assets] exists and the copy did not fail; it
    then copies that logo into [dist/swift_alliance_gui] under its base
    name, and the script has not left through [sys.exit]. *)
Theorem logo_is_copied_only_after_a_successful_build
    (env : BuildDist.Env) (src dst : string)
    (Hcopy : BuildDist.Copy2 src dst ∈ fst (BuildDist.main env)) :
  BuildDist.has_pyinstaller env = true
  /\ BuildDist.call_result env = 0
  /\ snd (BuildDist.main env) = None
  /\ BuildDist.find_logo (BuildDist.path_exists_built env)
       (BuildDist.ASSETS_DIR env) = Some src
  /\ BuildDist.path_exists_built env (BuildDist.in_dist "assets") = true
  /\ BuildDist.copy_failure env = None
  /\ dst = BuildDist.in_dist (Gui.basename src).
Proof.
  revert Hcopy.
  unfold BuildDist.main, BuildDist.build_with_pyinstaller,
    BuildDist.extract_logo_to_dist, BuildDist.no_logo.
  destruct (BuildDist.has_pyinstaller env); simpl;
    [|intros Hcopy; by member_cases Hcopy].
  set (found := if negb (Py.truthy_opt _) then _ else _).
  assert (Hfound : BuildDist.Copy2 src dst <> found)
    by (subst found; by case_match).
  destruct (Z.eqb_spec (BuildDist.call_result env) 0) as [Hret|Hret]; simpl;
    [|intros Hcopy; by member_cases Hcopy].
  destruct (BuildDist.find_logo (BuildDist.path_exists_built env)
              (BuildDist.ASSETS_DIR env)) as [p|] eqn:Hp; simpl;
    [|intros Hcopy; by member_cases Hcopy].
  rewrite (find_logo_truthy _ _ _ Hp). simpl.
  destruct (BuildDist.path_exists_built env (BuildDist.in_dist "assets"));
    simpl; [|intros Hcopy; by member_cases Hcopy].
  destruct (BuildDist.copy_failure env); simpl;
    intros Hcopy; member_cases Hcopy; try done.
  by simplify_eq.
Qed.

Lemma logo_is_copied_only_after_a_successful_build_witness :
  BuildDist.Copy2 "assets/swift_logo.svg"
    "dist/swift_alliance_gui/swift_logo.svg"
  ∈ fst (BuildDist.main Scenario.build)
  /\ snd (BuildDist.main Scenario.build) = None.
Proof.
  assert (BuildDist.Copy2 "assets/swift_logo.svg"
            "dist/swift_alliance_gui/swift_logo.svg"
          ∈ fst (BuildDist.main Scenario.build)) as Hcopy.
  { vm_compute. do 4 apply list_elem_of_further. apply list_elem_of_here. }
  split; [exact Hcopy|].
  exact (proj1 (proj2 (proj2
    (logo_is_copied_only_after_a_successful_build Scenario.build _ _ Hcopy)))).
Defined.

(** X19. When [main] leaves through [sys.exit] the exit code is not 0: it
    is 1 when PyInstaller is missing, in which case PyInstaller was not
    called, and otherwise the code PyInstaller returned; nothing was
    copied. When [main] runs to its end, PyInstaller was called with the
    build arguments and returned 0, and the last line printed is the
    closing message. *)
Theorem build_exit_code_is_never_zero (env : BuildDist.Env) :
  match snd (BuildDist.main env) with
  | Some code =>
      code <> 0
      /\ (if BuildDist.has_pyinstaller env then code = BuildDist.call_result env
          else code = 1
               /\ Forall (fun e => BuildDist.is_call e = false)
                    (fst (BuildDist.main env)))
      /\ Forall (fun e => BuildDist.is_copy e = false)
           (fst (BuildDist.main env))
  | None =>
      BuildDist.has_pyinstaller env = true
      /\ BuildDist.call_result env = 0
      /\ BuildDist.Call (BuildDist.pyinstaller_args env)
         ∈ fst (BuildDist.main env)
      /\ last (fst (BuildDist.main env))
         = Some (BuildDist.Print "Build helper finished. Please verify the distribution and contained assets.")
  end.
Proof.
  unfold BuildDist.main, BuildDist.build_with_pyinstaller.
  destruct (BuildDist.has_pyinstaller env); simpl;
    [|by repeat constructor].
  set (found := if BuildDist.no_logo _ then _ else _).
  assert (Hfound : BuildDist.is_copy found = false)
    by (subst found; by case_match).
  destruct (Z.eqb_spec (BuildDist.call_result env) 0) as [Hret|Hret]; simpl.
  - repeat split; try done; [set_solver|].
    rewrite !app_comm_cons. apply last_snoc.
  - by repeat constructor.
Qed.

(** ** The Streamlit wrapper *)

(** X20. After the path set-up of the wrapper the base directory is on
    [sys.path], the old entries follow in their old order, at most one
    entry was added, and doing it again changes nothing; the base
    directory is the first entry only if it was missing before or was
    already the first. *)
Theorem base_dir_is_on_the_path_once
    (script_dir cwd : string) (sys_path : list string) :
  let base := Wrapper.BASE_DIR script_dir cwd in
  let p := Wrapper.ensure_on_path base sys_path in
  base ∈ p
  /\ sys_path `suffix_of` p
  /\ (length p <= S (length sys_path))%nat
  /\ Wrapper.ensure_on_path base p = p
  /\ (head p = Some base <-> base ∉ sys_path \/ head sys_path = Some base).
Proof.
  intros base p. subst p. unfold Wrapper.ensure_on_path.
  destruct (decide (base ∈ sys_path)) as [Hin|Hout].
  - rewrite !bool_decide_true by done.
    split; [done|]. split; [done|]. split; [lia|]. split; [done|].
    split; [tauto|]. intros [Hno|Hhead]; [done|exact Hhead].
  - rewrite !bool_decide_false by done.
    rewrite bool_decide_true by apply list_elem_of_here.
    split; [apply list_elem_of_here|]. split; [by apply suffix_cons_r|].
    split; [simpl; lia|]. split; [done|]. split; [by left|done].
Qed.

(** ** The Streamlit script: the accounts panel *)

Section AccountsPanel.
Context `{B : Backend}.
Variable i : Streamlit.Widgets.

(** The accounts panel changes neither the session state nor the disk. *)
Lemma accounts_panel_unchanged : Eff.preserves eq (Streamlit.accounts_panel i).
Proof. unfold Streamlit.accounts_panel. repeat frame_step. Qed.

Lemma find_number (accounts : list Account) n acc :
  List.find (fun a => String.eqb (acc_number a) n) accounts = Some acc ->
  acc_number acc = n /\ n ∈ acc_number <$> accounts.
Proof.
  intros H. apply List.find_some in H as [Hin Heq].
  apply String.eqb_eq in Heq. split; [done|].
  rewrite <- Heq. apply list_elem_of_fmap. exists acc. split; [done|].
  by apply list_elem_of_In.
Qed.
End AccountsPanel.

(** X25. When the ledger can be read, no demo data is asked for and the
    account picked in the box is in the ledger, the accounts panel shows
    the number, type and currency of the account and then rounds its
    balance to two decimals: if the rounding succeeds the balance line,
    the customer line (when the ledger knows the customer) and the rule
    follow and the panel returns; if it raises, the currency line is the
    last thing shown and the run ends with that exception. Either way the
    panel leaves session state and disk as they were. *)
Theorem accounts_panel_shows_the_rounded_balance `{B : Backend}
    (i : Streamlit.Widgets) (w : Streamlit.World)
    (accounts : list Account) (acc : Account)
    (Hledger : bank_accounts = Py.Return accounts)
    (Hdemo : Streamlit.create_demo i = false)
    (Hfind : List.find
               (fun a => String.eqb (acc_number a) (Streamlit.selected_account i))
               accounts = Some acc)
    (Hname : Py.truthy (Streamlit.selected_account i) = true)
    (Hnot : String.eqb (Streamlit.selected_account i) "-- Select account --"
            = false) :
  let run := Streamlit.accounts_panel i w in
  let shown :=
    [Streamlit.St Streamlit.header "Backend / Accounts";
     Streamlit.St Streamlit.markdown "**Selected account details**";
     Streamlit.St Streamlit.write_ ("Account: `" +:+ acc_number acc +:+ "`");
     Streamlit.St Streamlit.write_ ("Type: " +:+ acc_type acc);
     Streamlit.St Streamlit.write_ ("Currency: " +:+ acc_currency acc)] in
  Eff.state_of run = w
  /\ match decimal.quantize2 (acc_balance acc) with
     | Py.Return balance =>
         Eff.result_of run = Py.Return tt
         /\ Eff.effects_of run
            = shown
              ++ [Streamlit.St Streamlit.write_
                    ("Balance: " +:+ decimal.to_str balance)]
              ++ match acc_customer acc with
                 | Some (first, last) =>
                     [Streamlit.St Streamlit.write_
                        ("Customer: " +:+ first +:+ " " +:+ last +:+ " ("
                         +:+ acc_customer_id acc +:+ ")")]
                 | None => []
                 end
              ++ [Streamlit.St Streamlit.markdown "---"]
     | Py.Raise e =>
         Eff.result_of run = Py.Raise e /\ Eff.effects_of run = shown
     end.
Proof.
  intros run shown.
  split; [symmetry; apply (accounts_panel_unchanged i w)|].
  destruct (find_number accounts _ acc Hfind) as [Hnum Hin].
  subst run shown.
  unfold Streamlit.accounts_panel, Eff.bind, Eff.lift, Eff.emit, Eff.ret,
    Eff.when, Eff.result_of, Eff.effects_of.
  rewrite Hledger, Hdemo.
  assert (Streamlit.selectbox
            ("-- Select account --"
             :: merge_sort String.le (acc_number <$> accounts))
            (Streamlit.selected_account i)
          = Streamlit.selected_account i) as Hsel.
  { unfold Streamlit.selectbox. rewrite bool_decide_true; [done|].
    apply elem_of_cons. right. by rewrite merge_sort_Permutation. }
  destruct accounts as [|a0 rest]; [discriminate Hfind|].
  cbv zeta. rewrite Hsel, Hname, Hnot, Hfind. cbn [negb andb].
  destruct (decimal.quantize2 (acc_balance acc)) as [balance|e];
    [destruct (acc_customer acc) as [[first last]|]|];
    cbn; split; reflexivity.
Qed.

Lemma accounts_panel_shows_the_rounded_balance_witness :
  Eff.effects_of
    (@Streamlit.accounts_panel Scenario.banked
       (Scenario.pick "ACC-1" "-- keep current --") Sample.fresh)
  = [Streamlit.St Streamlit.header "Backend / Accounts";
     Streamlit.St Streamlit.markdown "**Selected account details**";
     Streamlit.St Streamlit.write_ "Account: `ACC-1`";
     Streamlit.St Streamlit.write_ "Type: checking";
     Streamlit.St Streamlit.write_ "Currency: USD";
     Streamlit.St Streamlit.write_ "Balance: 1234.56";
     Streamlit.St Streamlit.write_ "Customer: Ada Lovelace (C-1)";
     Streamlit.St Streamlit.markdown "---"]
  /\ Eff.result_of
       (@Streamlit.accounts_panel Scenario.banked
          (Scenario.pick "ACC-2" "-- keep current --") Sample.fresh)
     = Py.Raise (Py.InvalidOperation "[<class 'decimal.InvalidOperation'>]").
Proof.
  split.
  - exact (proj2 (proj2
      (@accounts_panel_shows_the_rounded_balance Scenario.banked
         (Scenario.pick "ACC-1" "-- keep current --") Sample.fresh
         Scenario.ledger _ eq_refl eq_refl eq_refl eq_refl eq_refl))).
  - exact (proj1 (proj2
      (@accounts_panel_shows_the_rounded_balance Scenario.banked
         (Scenario.pick "ACC-2" "-- keep current --") Sample.fresh
         Scenario.ledger _ eq_refl eq_refl eq_refl eq_refl eq_refl))).
Defined.
